(** * GyanForge web client: a shallow embedding of the request, grading,
      error-handling and quiz-timer logic of the React front end.

    Sources embedded here:
    - [frontend/src/services/apiService.js]      (module [ApiService])
    - [frontend/src/services/apiService.old.js]  (module [OldApiService])
    - [frontend/src/components/Dashboard.js]     (module [Dashboard])
    - the [EnhancedModules], [LearningPage] and [QuizPage] components.
    The grading of the server, which is not among the sources, is
    modelled from the spec (module [QuizEndpoint]).

    Conventions.  A JavaScript string is its list of UTF-16 code units.
    A JavaScript number is an exact rational or one of the three non-finite
    values; rounding to binary64 and the sign of zero are not modelled.
    A function that may throw returns a [completion]. *)

From Stdlib Require Import ZArith NArith String Ascii List QArith Qcanon Lia.
From stdpp Require Import base option list gmap strings numbers pretty.

Local Open Scope Qc_scope.
Set Warnings "-register-all".

(* ================================================================== *)
(** * Part I.  Definitions                                              *)
(* ================================================================== *)

(** ** JavaScript values *)

Module JS.

(** Strings: sequences of UTF-16 code units. *)
Definition jsstring : Type := list N.

(** An ASCII literal of the source, as code units. *)
Definition lit (s : string) : jsstring :=
  List.map N_of_ascii (list_ascii_of_string s).

(** Numbers. *)
Inductive jsnum : Type :=
| Fin (q : Qc)
| NaN
| PosInf
| NegInf.

Definition num_of_Z (z : Z) : jsnum := Fin (Qc_of_Z z).
Definition num_of_nat (n : nat) : jsnum := num_of_Z (Z.of_nat n).

(** [a / b] on numbers. *)
Definition jsdiv (a b : jsnum) : jsnum :=
  match a, b with
  | NaN, _ | _, NaN => NaN
  | Fin x, Fin y =>
      if decide (y = 0) then
        if decide (x = 0) then NaN
        else if decide (0 < x) then PosInf else NegInf
      else Fin (x / y)
  | Fin _, (PosInf | NegInf) => Fin 0
  | PosInf, Fin y => if decide (y < 0) then NegInf else PosInf
  | NegInf, Fin y => if decide (y < 0) then PosInf else NegInf
  | (PosInf | NegInf), (PosInf | NegInf) => NaN
  end.

Definition jsneg (a : jsnum) : jsnum :=
  match a with
  | Fin x => Fin (- x)
  | NaN => NaN
  | PosInf => NegInf
  | NegInf => PosInf
  end.

(** [a * b] on numbers. *)
Definition jsmul (a b : jsnum) : jsnum :=
  match a, b with
  | NaN, _ | _, NaN => NaN
  | Fin x, Fin y => Fin (x * y)
  | Fin x, inf | inf, Fin x =>
      if decide (x = 0) then NaN
      else if decide (0 < x) then inf else jsneg inf
  | PosInf, PosInf | NegInf, NegInf => PosInf
  | PosInf, NegInf | NegInf, PosInf => NegInf
  end.

(** [a <= b] as the relational operators see it: false as soon as one
    side is [NaN]. *)
Definition jsle (a b : jsnum) : bool :=
  match a, b with
  | NaN, _ | _, NaN => false
  | Fin x, Fin y => bool_decide (x ≤ y)
  | NegInf, _ => true
  | _, PosInf => true
  | _, _ => false
  end.

Definition jslt (a b : jsnum) : bool :=
  match a, b with
  | NaN, _ | _, NaN => false
  | Fin x, Fin y => bool_decide (x < y)
  | PosInf, _ => false
  | _, NegInf => false
  | _, _ => true
  end.

(** [a >= b] and [a > b]. *)
Definition jsge (a b : jsnum) : bool := jsle b a.
Definition jsgt (a b : jsnum) : bool := jslt b a.

(** Values.  Objects are association lists from property name to value,
    in insertion order. *)
Inductive jsval : Type :=
| VUndefined
| VNull
| VBool (b : bool)
| VNum (n : jsnum)
| VStr (s : jsstring)
| VArr (items : list jsval)
| VObj (fields : list (jsstring * jsval)).

#[global] Instance jsnum_eq_dec : EqDecision jsnum.
Proof. solve_decision. Defined.

(** [a === b] on primitive values.  Two numbers are equal when they are the
    same number, and [NaN] equals nothing.  Object identity is not
    modelled: no comparison embedded here has an object operand. *)
Definition strict_eq (a b : jsval) : bool :=
  match a, b with
  | VUndefined, VUndefined => true
  | VNull, VNull => true
  | VBool x, VBool y => bool_decide (x = y)
  | VNum x, VNum y =>
      match x with
      | NaN => false
      | _ => bool_decide (x = y)
      end
  | VStr x, VStr y => bool_decide (x = y)
  | _, _ => false
  end.

(** ToBoolean. *)
Definition truthy (v : jsval) : bool :=
  match v with
  | VUndefined | VNull => false
  | VBool b => b
  | VNum (Fin q) => negb (bool_decide (q = 0))
  | VNum NaN => false
  | VNum _ => true
  | VStr s => negb (bool_decide (s = []))
  | VArr _ | VObj _ => true
  end.

(** [a || b]. *)
Definition jsor (a b : jsval) : jsval := if truthy a then a else b.

(** Own-property lookup in an association list. *)
Fixpoint assoc (k : jsstring) (fields : list (jsstring * jsval)) : jsval :=
  match fields with
  | [] => VUndefined
  | (k', v) :: rest => if decide (k' = k) then v else assoc k rest
  end.

Definition has_key (k : jsstring) (fields : list (jsstring * jsval)) : bool :=
  bool_decide (k ∈ fields.*1).

(** [v?.k]: [undefined] on [null] and [undefined], the property
    otherwise (primitives and arrays have no such own property). *)
Definition opt_get (v : jsval) (k : jsstring) : jsval :=
  match v with
  | VObj fields => assoc k fields
  | _ => VUndefined
  end.

(** Completions: a normal result or a thrown exception. *)
Inductive completion (E A : Type) : Type :=
| Normal (a : A)
| Throw (e : E).
Arguments Normal {E A} a.
Arguments Throw {E A} e.

Definition bind {E A B} (c : completion E A) (k : A → completion E B)
  : completion E B :=
  match c with
  | Normal a => k a
  | Throw e => Throw e
  end.

(** [try { c } catch (e) { h e }]. *)
Definition try_catch {E F A} (c : completion E A) (h : E → completion F A)
  : completion F A :=
  match c with
  | Normal a => Normal a
  | Throw e => h e
  end.

(** [v.k]: property access throws a TypeError on [null] and
    [undefined]. *)
Definition get {E} (type_error : E) (v : jsval) (k : jsstring)
  : completion E jsval :=
  match v with
  | VUndefined | VNull => Throw type_error
  | _ => Normal (opt_get v k)
  end.

(** [String.prototype.includes]: [p] occurs in [s] as a contiguous run
    of code units. *)
Fixpoint starts_with (s p : jsstring) : bool :=
  match p, s with
  | [], _ => true
  | _ :: _, [] => false
  | c :: p', d :: s' => bool_decide (c = d) && starts_with s' p'
  end.

Fixpoint includes (s p : jsstring) : bool :=
  starts_with s p ||
  match s with
  | [] => false
  | _ :: s' => includes s' p
  end.

(** [String.prototype.split] on a one-unit separator. *)
Fixpoint split (sep : N) (s : jsstring) : list jsstring :=
  match s with
  | [] => [[]]
  | c :: s' =>
      if decide (c = sep) then [] :: split sep s'
      else match split sep s' with
           | [] => [[c]]
           | w :: ws => (c :: w) :: ws
           end
  end.

(** White space and line terminators, as [String.prototype.trim] strips
    them. *)
Definition is_white_space (c : N) : bool :=
  bool_decide (c ∈ [0x09; 0x0A; 0x0B; 0x0C; 0x0D; 0x20; 0xA0; 0x1680;
                    0x2000; 0x2001; 0x2002; 0x2003; 0x2004; 0x2005; 0x2006;
                    0x2007; 0x2008; 0x2009; 0x200A; 0x2028; 0x2029; 0x202F;
                    0x205F; 0x3000; 0xFEFF]%N).

Fixpoint trim_start (s : jsstring) : jsstring :=
  match s with
  | [] => []
  | c :: s' => if is_white_space c then trim_start s' else s
  end.

Definition trim (s : jsstring) : jsstring :=
  rev (trim_start (rev (trim_start s))).

End JS.
Import JS.

(** ** The browser and the HTTP transport *)

(** An HTTP response as axios hands it over. *)
Module Response.
Record t : Type := mk {
  status : Z;
  data : jsval;
  headers : list (jsstring * jsstring)
}.
End Response.

(** A JavaScript error object.  Transport errors carry [response] when the
    server answered; errors built by [_handleError] carry [status] and
    [originalError]. *)
Module Err.
Inductive t : Type := mk {
  message : jsval;
  response : option Response.t;
  status : jsval;
  originalError : option t
}.
End Err.

(** A TypeError raised by the engine; the text of its message is the
    engine's. *)
Definition TypeError (msg : jsstring) : Err.t :=
  Err.mk (VStr msg) None VUndefined None.

Inductive verb : Type := GET | POST | DELETE.

(** A request as it leaves the client.  [responseType] is the axios option
    of that name. *)
Record request : Type := mkRequest {
  method : verb;
  url : jsstring;
  body : jsval;
  req_headers : list (jsstring * jsstring);
  responseType : option jsstring
}.

(** The two outcomes of a request: the promise is fulfilled with a
    response or rejected with an error. *)
Inductive outcome : Type :=
| Fulfilled (r : Response.t)
| Rejected (e : Err.t).

(** What the client can observe and change in the browser: local storage,
    the location, and the requests sent so far (oldest first). *)
Record browser : Type := mkBrowser {
  localStorage : gmap jsstring jsstring;
  location_href : jsstring;
  sent : list request
}.

Definition setItem (k v : jsstring) (st : browser) : browser :=
  mkBrowser (<[k := v]> (localStorage st)) (location_href st) (sent st).
Definition removeItem (k : jsstring) (st : browser) : browser :=
  mkBrowser (delete k (localStorage st)) (location_href st) (sent st).
Definition getItem (k : jsstring) (st : browser) : option jsstring :=
  localStorage st !! k.
Definition set_location (href : jsstring) (st : browser) : browser :=
  mkBrowser (localStorage st) href (sent st).
Definition record_request (r : request) (st : browser) : browser :=
  mkBrowser (localStorage st) (location_href st) (sent st ++ [r]).

(** What axios puts on the wire for a request configuration that has
    passed the request interceptors: its adapter removes [Content-Type]
    from a request that has no data, so the header of the instance
    travels only with a body.  (The header names are compared without
    regard to case; the client writes this one as ['Content-Type'].) *)
Definition on_the_wire (config : request) : request :=
  match body config with
  | VUndefined =>
      mkRequest (method config) (url config) (body config)
        (List.filter (λ kv, negb (bool_decide (kv.1 = lit "Content-Type")))
                     (req_headers config))
        (responseType config)
  | _ => config
  end.

(** Code that reads and writes a state [S] and may throw. *)
Definition M (S A : Type) : Type := S → completion Err.t A * S.

Definition ret {S A} (a : A) : M S A := λ st, (Normal a, st).
Definition throw {S A} (e : Err.t) : M S A := λ st, (Throw e, st).
Definition mbind {S A B} (m : M S A) (k : A → M S B) : M S B :=
  λ st, match m st with
        | (Normal a, st') => k a st'
        | (Throw e, st') => (Throw e, st')
        end.
Definition lift {S A} (c : completion Err.t A) : M S A := λ st, (c, st).
Definition modify {S} (f : S → S) : M S () := λ st, (Normal (), f st).

Notation "x <- m ;; k" := (mbind m (λ x, k))
  (at level 100, m at next level, right associativity).
Notation "'_' <- m ;; k" := (mbind m (λ _, k))
  (at level 100, m at next level, right associativity).

(** [try { m } catch (error) { h error }] for code in [M]. *)
Definition try_catch_M {S A} (m : M S A) (h : Err.t → M S A) : M S A :=
  λ st, match m st with
        | (Normal a, st') => (Normal a, st')
        | (Throw e, st') => h e st'
        end.

(** [{ k: v, ... }] *)
Definition obj (fields : list (string * jsval)) : jsval :=
  VObj (List.map (λ kv, (lit kv.1, kv.2)) fields).

(** ** Built-ins of the JavaScript engine and of the browser

    These are not code of the repository; the client calls them and the
    embedding takes them as given. *)
Class Engine : Type := {
  (** Number-to-string and object-to-string conversion. *)
  NumberToString : jsnum → jsstring;
  ObjectToString : jsval → jsstring;
  (** String-to-number and object-to-number conversion. *)
  StringToNumber : jsstring → jsnum;
  ObjectToNumber : jsval → jsnum;
  (** [window.atob]: throws on input that is not base64. *)
  atob : jsstring → completion Err.t jsstring;
  (** [JSON.parse]: throws on input that is not JSON. *)
  JSON_parse : jsstring → completion Err.t jsval;
  (** [new Date(ms).toISOString()]. *)
  DateToISOString : Z → jsstring;
  (** [String.prototype.toLowerCase]. *)
  toLowerCase : jsstring → jsstring
}.

Section Conversions.
Context `{!Engine}.

(** ToString. *)
Definition ToString (v : jsval) : jsstring :=
  match v with
  | VUndefined => lit "undefined"
  | VNull => lit "null"
  | VBool true => lit "true"
  | VBool false => lit "false"
  | VNum n => NumberToString n
  | VStr s => s
  | VArr _ | VObj _ => ObjectToString v
  end.

(** ToNumber. *)
Definition ToNumber (v : jsval) : jsnum :=
  match v with
  | VUndefined => NaN
  | VNull => Fin 0
  | VBool true => Fin 1
  | VBool false => Fin 0
  | VNum n => n
  | VStr s => StringToNumber s
  | VArr _ | VObj _ => ObjectToNumber v
  end.

(** An answers object, from question index to chosen answer, as a value:
    its property names are the indices as strings.  The properties come in
    the order of [map_to_list]; their order plays no part in what
    follows. *)
Definition answers_to_val (answers : gmap nat jsstring) : jsval :=
  VObj ((λ kv, (NumberToString (num_of_nat kv.1), VStr kv.2))
          <$> map_to_list answers).

End Conversions.

(** A parameter with a default value: the default applies when the
    argument is [undefined]. *)
Definition default_arg (d v : jsval) : jsval :=
  match v with
  | VUndefined => d
  | _ => v
  end.

(** [a[i]] on an array of strings: [undefined] out of range. *)
Definition index_or_undefined (a : list jsstring) (i : nat) : jsval :=
  match a !! i with
  | Some s => VStr s
  | None => VUndefined
  end.

(** ** [services/apiService.js] *)

Module ApiService.
Section Client.
Context `{!Engine}.
(** The server, as seen from the client: the outcome of each request. *)
Variable net : request → outcome.
(** The match of the file-name pattern of [downloadModulePDF] against a
    [content-disposition] header: the first capture group, if any. *)
Variable filenameMatch : jsstring → option jsstring.
(** The removal of quote characters from a matched file name. *)
Variable stripQuotes : jsstring → jsstring.

Definition logout : M browser () := modify (removeItem (lit "authToken")).

(** Request interceptor: adds the bearer token when one is stored. *)
Definition request_interceptor (config : request) : M browser request := λ st,
  match getItem (lit "authToken") st with
  | Some token =>
      if truthy (VStr token)
      then (Normal (mkRequest (method config) (url config) (body config)
                      (req_headers config ++
                         [(lit "Authorization", lit "Bearer " ++ token)])
                      (responseType config)), st)
      else (Normal config, st)
  | None => (Normal config, st)
  end.

(** Response interceptor: [(response) => response] on success; on
    failure logs out and redirects when the status is 401, and rejects
    with the same error in every case. *)
Definition response_interceptor (o : outcome) : M browser Response.t :=
  match o with
  | Fulfilled response => ret response
  | Rejected error =>
      _ <- (if bool_decide (Response.status <$> Err.response error = Some 401%Z)
            then (_ <- logout ;; modify (set_location (lit "/login")))
            else ret ()) ;;
      throw error
  end.

(** [this.api.get], [this.api.post] and [this.api.delete]: the
    configuration starts with the header of the instance, passes the
    request interceptor, and goes on the wire. *)
Definition api (v : verb) (u : jsstring) (b : jsval) (rt : option jsstring)
  : M browser Response.t :=
  config <- request_interceptor
              (mkRequest v u b
                 [(lit "Content-Type", lit "application/json")] rt) ;;
  _ <- modify (record_request (on_the_wire config)) ;;
  response_interceptor (net (on_the_wire config)).

(** Private error handler. *)
Definition _handleError (error : Err.t) (defaultMessage : jsval) : Err.t :=
  let data := match Err.response error with
              | Some r => Response.data r
              | None => VUndefined
              end in
  let errorMessage :=
    jsor (jsor (jsor (opt_get data (lit "detail"))
                     (opt_get data (lit "message")))
               (Err.message error))
         defaultMessage in
  Err.mk
    (match errorMessage with
     | VUndefined => VStr []
     | v => VStr (ToString v)
     end)
    None
    (match Err.response error with
     | Some r => VNum (num_of_Z (Response.status r))
     | None => VUndefined
     end)
    (Some error).

(** [throw this._handleError(error, defaultMessage)], the body of the
    [catch] block of the methods. *)
Definition fail_with {A} (defaultMessage : string) (error : Err.t)
  : M browser A :=
  throw (_handleError error (VStr (lit defaultMessage))).

(** Auth methods *)
Definition login (email password : jsval) : M browser jsval :=
  try_catch_M
    (response <- api POST (lit "/api/v1/auth/login")
                   (obj [("email", email); ("password", password)]) None ;;
     access_token <- lift (get (TypeError (lit "Cannot destructure property"))
                             (Response.data response) (lit "access_token")) ;;
     _ <- modify (setItem (lit "authToken") (ToString access_token)) ;;
     ret (Response.data response))
    (fail_with "Login failed").

Definition register (email password fullName : jsval) : M browser jsval :=
  try_catch_M
    (response <- api POST (lit "/api/v1/auth/register")
                   (obj [("email", email); ("password", password)]) None ;;
     ret (Response.data response))
    (fail_with "Registration failed").

Definition getCurrentUser : M browser jsval :=
  try_catch_M
    (response <- api GET (lit "/api/v1/users/me") VUndefined None ;;
     ret (Response.data response))
    (fail_with "Failed to get user info").

(** Learning modules.  The parameters default to ['medium'], [30] and
    ['']; the console output is not modelled. *)
Definition generateModule (prompt difficulty duration backgroundKnowledge : jsval)
  : M browser jsval :=
  let difficulty := default_arg (VStr (lit "medium")) difficulty in
  let duration := default_arg (VNum (num_of_Z 30)) duration in
  let backgroundKnowledge := default_arg (VStr []) backgroundKnowledge in
  try_catch_M
    (response <- api POST (lit "/api/v1/modules/generate")
                   (obj [("prompt", prompt);
                         ("background_knowledge", backgroundKnowledge);
                         ("user_id", VNull)]) None ;;
     ret (Response.data response))
    (fail_with "Failed to generate module").

Definition getModule (moduleId : jsval) : M browser jsval :=
  try_catch_M
    (response <- api GET (lit "/api/v1/modules/" ++ ToString moduleId)
                   VUndefined None ;;
     ret (Response.data response))
    (fail_with "Failed to fetch module").

Definition getUserModules : M browser jsval :=
  try_catch_M
    (response <- api GET (lit "/api/v1/modules") VUndefined None ;;
     ret (Response.data response))
    (fail_with "Failed to fetch user modules").

Definition deleteModule (moduleId : jsval) : M browser jsval :=
  try_catch_M
    (response <- api DELETE (lit "/api/v1/modules/" ++ ToString moduleId)
                   VUndefined None ;;
     ret (Response.data response))
    (fail_with "Failed to delete module").

(** Quiz methods *)
Definition submitQuiz (moduleId answers : jsval) : M browser jsval :=
  try_catch_M
    (response <- api POST
                   (lit "/api/v1/modules/" ++ ToString moduleId ++
                    lit "/quiz/submit")
                   (obj [("answers", answers)]) None ;;
     ret (Response.data response))
    (fail_with "Failed to submit quiz").

(** Assignment methods *)
Definition getAssignmentLatex (moduleId : jsval) : M browser jsval :=
  try_catch_M
    (response <- api GET
                   (lit "/api/v1/assignments/" ++ ToString moduleId ++
                    lit "/latex") VUndefined None ;;
     ret (Response.data response))
    (fail_with "Failed to fetch assignment LaTeX").

Definition getAssignmentPdf (moduleId : jsval) : M browser jsval :=
  try_catch_M
    (response <- api GET
                   (lit "/api/v1/assignments/" ++ ToString moduleId ++
                    lit "/pdf") VUndefined (Some (lit "blob")) ;;
     ret (Response.data response))
    (fail_with "Failed to fetch assignment PDF").

(** Learning paths *)
Definition generateLearningPath (goals currentLevel timeCommitment : jsval)
  : M browser jsval :=
  try_catch_M
    (response <- api POST (lit "/learning-paths/generate")
                   (obj [("goals", goals);
                         ("current_level", currentLevel);
                         ("time_commitment", timeCommitment)]) None ;;
     ret (Response.data response))
    (fail_with "Failed to generate learning path").

(** Utility methods.  [now] is the value of [Date.now()]. *)
Definition isAuthenticated (now : Z) : M browser bool := λ st,
  match getItem (lit "authToken") st with
  | None => (Normal false, st)
  | Some token =>
      if negb (truthy (VStr token)) then (Normal false, st)
      else
        (try_catch
           (bind (atob (ToString (index_or_undefined (split 46 token) 1)))
              (λ text,
               bind (JSON_parse text) (λ payload,
               bind (get (TypeError (lit "Cannot read properties"))
                         payload (lit "exp")) (λ exp,
               Normal (jsgt (jsmul (ToNumber exp) (num_of_Z 1000))
                            (num_of_Z now))))))
           (λ _ : Err.t, Normal false),
         st)
  end.

(** Chat methods.  [moduleId] defaults to [null]. *)
Definition sendChatMessage (message moduleId : jsval) : M browser jsval :=
  let moduleId := default_arg VNull moduleId in
  try_catch_M
    (response <- api POST (lit "/api/v1/chat")
                   (obj [("message", message);
                         ("current_module",
                          if truthy moduleId then VStr (ToString moduleId)
                          else VNull)]) None ;;
     ret (Response.data response))
    (fail_with "Failed to send chat message").

(** PDF methods.  The anchor element created, clicked and removed to start
    the download leaves no trace in [browser]. *)
Definition downloadModulePDF (moduleId : jsval) : M browser jsval :=
  try_catch_M
    (response <- api GET
                   (lit "/api/v1/modules/" ++ ToString moduleId ++ lit "/pdf")
                   VUndefined (Some (lit "blob")) ;;
     let contentDisposition :=
       (list_to_map (Response.headers response) : gmap jsstring jsstring)
         !! lit "content-disposition" in
     let filename :=
       match contentDisposition with
       | Some cd =>
           if truthy (VStr cd) then
             match filenameMatch cd with
             | Some m => if truthy (VStr m) then stripQuotes m
                         else lit "module_" ++ ToString moduleId ++ lit "_notes.pdf"
             | None => lit "module_" ++ ToString moduleId ++ lit "_notes.pdf"
             end
           else lit "module_" ++ ToString moduleId ++ lit "_notes.pdf"
       | None => lit "module_" ++ ToString moduleId ++ lit "_notes.pdf"
       end in
     ret (obj [("success", VBool true); ("filename", VStr filename)]))
    (fail_with "Failed to download PDF").

(** Health check *)
Definition checkHealth : M browser bool :=
  try_catch_M
    (response <- api GET (lit "/health") VUndefined None ;;
     ret (bool_decide (Response.status response = 200%Z)))
    (λ _, ret false).

(** The public methods of the singleton, with their arguments, and what a
    call of each does.  The two methods that return a Boolean return it
    here as a value. *)
Inductive call : Type :=
| Login (email password : jsval)
| Register (email password fullName : jsval)
| GetCurrentUser
| GenerateModule (prompt difficulty duration backgroundKnowledge : jsval)
| GetModule (moduleId : jsval)
| GetUserModules
| DeleteModule (moduleId : jsval)
| SubmitQuiz (moduleId answers : jsval)
| GetAssignmentLatex (moduleId : jsval)
| GetAssignmentPdf (moduleId : jsval)
| GenerateLearningPath (goals currentLevel timeCommitment : jsval)
| IsAuthenticated (now : Z)
| Logout
| SendChatMessage (message moduleId : jsval)
| DownloadModulePDF (moduleId : jsval)
| CheckHealth.

Definition perform (c : call) : M browser jsval :=
  match c with
  | Login email password => login email password
  | Register email password fullName => register email password fullName
  | GetCurrentUser => getCurrentUser
  | GenerateModule prompt difficulty duration backgroundKnowledge =>
      generateModule prompt difficulty duration backgroundKnowledge
  | GetModule moduleId => getModule moduleId
  | GetUserModules => getUserModules
  | DeleteModule moduleId => deleteModule moduleId
  | SubmitQuiz moduleId answers => submitQuiz moduleId answers
  | GetAssignmentLatex moduleId => getAssignmentLatex moduleId
  | GetAssignmentPdf moduleId => getAssignmentPdf moduleId
  | GenerateLearningPath goals currentLevel timeCommitment =>
      generateLearningPath goals currentLevel timeCommitment
  | IsAuthenticated now => b <- isAuthenticated now ;; ret (VBool b)
  | Logout => _ <- logout ;; ret VUndefined
  | SendChatMessage message moduleId => sendChatMessage message moduleId
  | DownloadModulePDF moduleId => downloadModulePDF moduleId
  | CheckHealth => b <- checkHealth ;; ret (VBool b)
  end.

End Client.
End ApiService.

(** ** [services/apiService.old.js] *)

Module OldApiService.

Record quiz_question : Type := mkQuestion {
  question : jsstring;
  options : list jsstring;
  correct_answer : jsstring
}.

Record module : Type := mkModule {
  id : jsstring;
  title : jsstring;
  content : jsstring;
  difficulty : jsval;
  duration : jsval;
  created_at : jsstring;
  quiz_questions : list quiz_question;
  assignment_latex : bool
}.

(** The mock data of the file. *)
Definition mockModule1 : module :=
  {| id := lit "1";
     title := lit "Introduction to React Hooks";
     content :=
       lit "React Hooks are functions that let you " ++ [34%N] ++
       lit "hook into" ++ [34%N] ++
       lit " React state and lifecycle features from function compon" ++
       lit "ents. They were introduced in React 16.8 and have revolu" ++
       lit "tionized how we write React components." ++ [10%N; 10%N] ++
       lit "The most commonly used hooks are:" ++ [10%N] ++
       lit "- useState: For managing component state" ++ [10%N] ++
       lit "- useEffect: For side effects and lifecycle events" ++ [10%N] ++
       lit "- useContext: For consuming context values" ++ [10%N] ++
       lit "- useReducer: For complex state management" ++ [10%N] ++
       [10%N] ++
       lit "Hooks allow you to reuse stateful logic between componen" ++
       lit "ts without changing your component hierarchy. This makes" ++
       lit " your code more readable and easier to test.";
     difficulty := VStr (lit "medium");
     duration := VNum (num_of_Z 45);
     created_at := lit "2024-01-15T10:00:00Z";
     quiz_questions := [
       {| question := lit "What React version introduced Hooks?";
          options := [lit "React 16.6";
                      lit "React 16.8";
                      lit "React 17.0";
                      lit "React 18.0"];
          correct_answer := lit "React 16.8" |};
       {| question := lit "Which hook is used for managing component state?";
          options := [lit "useEffect";
                      lit "useState";
                      lit "useContext";
                      lit "useReducer"];
          correct_answer := lit "useState" |};
       {| question := lit "What is the main benefit of React Hooks?";
          options := [lit "Better performance";
                      lit "Reusable stateful logic";
                      lit "Smaller bundle size";
                      lit "TypeScript support"];
          correct_answer := lit "Reusable stateful logic" |} ];
     assignment_latex := true |}.

Definition mockModule2 : module :=
  {| id := lit "2";
     title := lit "JavaScript ES6 Features";
     content :=
       lit "ES6 (ECMAScript 2015) introduced many powerful features " ++
       lit "to JavaScript that modernized the language and made it m" ++
       lit "ore expressive and easier to work with." ++ [10%N; 10%N] ++
       lit "Key ES6 features include:" ++ [10%N] ++
       lit "- Arrow Functions: Shorter syntax for function expressio" ++
       lit "ns" ++ [10%N] ++
       lit "- Template Literals: String interpolation with backticks" ++
       [10%N] ++
       lit "- Destructuring: Extract values from arrays and objects" ++
       [10%N] ++ lit "- Spread Operator: Expand iterables" ++ [10%N] ++
       lit "- Promises: Handle asynchronous operations" ++ [10%N] ++
       lit "- Classes: Object-oriented programming syntax" ++ [10%N] ++
       lit "- Modules: Import and export functionality" ++ [10%N] ++
       [10%N] ++
       lit "These features have become standard in modern JavaScript" ++
       lit " development and are essential for any JavaScript develo" ++
       lit "per to master.";
     difficulty := VStr (lit "easy");
     duration := VNum (num_of_Z 30);
     created_at := lit "2024-01-14T15:30:00Z";
     quiz_questions := [
       {| question := lit "What is the syntax for arrow functions?";
          options := [lit "() => {}";
                      lit "function() {}";
                      lit "=> () {}";
                      lit "() -> {}"];
          correct_answer := lit "() => {}" |};
       {| question := lit "Which feature allows string interpolation?";
          options := [lit "Arrow functions";
                      lit "Template literals";
                      lit "Destructuring";
                      lit "Promises"];
          correct_answer := lit "Template literals" |} ];
     assignment_latex := true |}.

Definition mockModule3 : module :=
  {| id := lit "3";
     title := lit "Python Data Structures";
     content :=
       lit "Python provides several built-in data structures that ar" ++
       lit "e essential for effective programming. Understanding whe" ++
       lit "n and how to use each one is crucial for writing efficie" ++
       lit "nt Python code." ++ [10%N; 10%N] ++
       lit "Main Python data structures:" ++ [10%N] ++
       lit "- Lists: Ordered, mutable collections" ++ [10%N] ++
       lit "- Tuples: Ordered, immutable collections" ++ [10%N] ++
       lit "- Dictionaries: Key-value pairs, unordered (before Pytho" ++
       lit "n 3.7)" ++ [10%N] ++
       lit "- Sets: Unordered collections of unique elements" ++ [10%N] ++
       lit "- Strings: Immutable sequences of characters" ++ [10%N] ++
       [10%N] ++
       lit "Each data structure has its own methods and use cases. L" ++
       lit "ists are great for when you need to modify the collectio" ++
       lit "n, tuples for fixed data, dictionaries for lookups, and " ++
       lit "sets for unique collections.";
     difficulty := VStr (lit "easy");
     duration := VNum (num_of_Z 25);
     created_at := lit "2024-01-13T09:15:00Z";
     quiz_questions := [
       {| question := lit "Which data structure is mutable in Python?";
          options := [lit "Tuple";
                      lit "String";
                      lit "List";
                      lit "Integer"];
          correct_answer := lit "List" |};
       {| question := lit "What data structure uses key-value pairs?";
          options := [lit "List";
                      lit "Tuple";
                      lit "Set";
                      lit "Dictionary"];
          correct_answer := lit "Dictionary" |};
       {| question := lit "Which data structure only contains unique elements?";
          options := [lit "List";
                      lit "Tuple";
                      lit "Set";
                      lit "Dictionary"];
          correct_answer := lit "Set" |} ];
     assignment_latex := false |}.

Definition initial_mockModules : list module :=
  [mockModule1; mockModule2; mockModule3].

Definition question_to_val (q : quiz_question) : jsval :=
  obj [("question", VStr (question q));
       ("options", VArr (VStr <$> options q));
       ("correct_answer", VStr (correct_answer q))].

Definition module_to_val (m : module) : jsval :=
  obj [("id", VStr (id m));
       ("title", VStr (title m));
       ("content", VStr (content m));
       ("difficulty", difficulty m);
       ("duration", duration m);
       ("created_at", VStr (created_at m));
       ("quiz_questions", VArr (question_to_val <$> quiz_questions m));
       ("assignment_latex", VBool (assignment_latex m))].

(** The state the service works on: the browser and the [mockModules]
    array, which [generateModule] extends in mock mode. *)
Record state : Type := mkState {
  page : browser;
  mockModules : list module
}.

Definition on_page (f : browser → browser) (st : state) : state :=
  mkState (f (page st)) (mockModules st).

Section Client.
Context `{!Engine}.
(** The constant [MOCK_MODE] of the file, which its author switches by
    hand; the file as committed has [false]. *)
Variable MOCK_MODE : bool.
Variable net : request → outcome.

Definition request_interceptor (config : request) : M state request := λ st,
  match getItem (lit "authToken") (page st) with
  | Some token =>
      if truthy (VStr token)
      then (Normal (mkRequest (method config) (url config) (body config)
                      (req_headers config ++
                         [(lit "Authorization", lit "Bearer " ++ token)])
                      (responseType config)), st)
      else (Normal config, st)
  | None => (Normal config, st)
  end.

Definition response_interceptor (o : outcome) : M state Response.t :=
  match o with
  | Fulfilled response => ret response
  | Rejected error =>
      _ <- (if bool_decide (Response.status <$> Err.response error = Some 401%Z)
            then (_ <- modify (on_page (removeItem (lit "authToken"))) ;;
                  modify (on_page (set_location (lit "/login"))))
            else ret ()) ;;
      throw error
  end.

Definition api (v : verb) (u : jsstring) (b : jsval) : M state Response.t :=
  config <- request_interceptor
              (mkRequest v u b
                 [(lit "Content-Type", lit "application/json")] None) ;;
  _ <- modify (on_page (record_request (on_the_wire config))) ;;
  response_interceptor (net (on_the_wire config)).

Definition getCurrentUser : M state jsval :=
  if MOCK_MODE then
    ret (obj [("id", VStr (lit "demo-user"));
              ("email", VStr (lit "demo@example.com"));
              ("full_name", VStr (lit "Demo User"))])
  else
    response <- api GET (lit "/api/v1/users/me") VUndefined ;;
    ret (Response.data response).

(** Learning modules.  [difficulty] defaults to ['medium'] and [duration]
    to [30]; [now] is the value of [Date.now()]. *)
Definition generateModule (now : Z) (prompt : jsstring)
    (difficulty duration : jsval) : M state jsval :=
  let difficulty := default_arg (VStr (lit "medium")) difficulty in
  let duration := default_arg (VNum (num_of_Z 30)) duration in
  if MOCK_MODE then
    let newModule :=
      mkModule
        (NumberToString (num_of_Z now))
        (lit "Generated: " ++ take 50 prompt ++ lit "...")
        (lit "This is a generated module about: " ++ prompt ++ [10%N; 10%N] ++
         lit "This module covers the fundamentals and provides " ++
         lit "comprehensive learning materials to help you understand " ++
         lit "the topic thoroughly.")
        difficulty
        duration
        (DateToISOString now)
        [mkQuestion
           (lit "What is the main concept of " ++
            ToString (index_or_undefined (split 32 prompt) 0) ++ lit "?")
           [lit "Option A"; lit "Option B"; lit "Option C"; lit "Option D"]
           (lit "Option A")]
        true in
    _ <- modify (λ st, mkState (page st) (newModule :: mockModules st)) ;;
    ret (module_to_val newModule)
  else
    user <- getCurrentUser ;;
    user_id <- lift (get (TypeError (lit "Cannot read properties"))
                       user (lit "id")) ;;
    response <- api POST (lit "/api/v1/modules/generate")
                  (obj [("user_id", user_id);
                        ("prompt", VStr prompt);
                        ("difficulty", difficulty);
                        ("duration", duration)]) ;;
    ret (Response.data response).

Definition getModule (moduleId : jsval) : M state jsval :=
  if MOCK_MODE then
    λ st,
      (Normal
         (match List.find (λ m, strict_eq (VStr (id m)) moduleId)
                  (mockModules st) with
          | Some m => module_to_val m
          | None => match mockModules st !! 0%nat with
                    | Some m => module_to_val m
                    | None => VUndefined
                    end
          end), st)
  else
    response <- api GET (lit "/api/v1/modules/" ++ ToString moduleId)
                  VUndefined ;;
    ret (Response.data response).

Definition getUserModules : M state jsval :=
  if MOCK_MODE then
    λ st, (Normal (VArr (module_to_val <$> mockModules st)), st)
  else
    response <- api GET (lit "/api/v1/modules/") VUndefined ;;
    ret (Response.data response).

(** Quiz methods.  [answers] maps a question index to the answer chosen
    for it. *)

(** The predicate of the [filter] of the mock branch. *)
Definition counted_correct (answer : jsstring) : bool :=
  includes answer (lit "correct") ||
  includes answer (lit "React 16.8") ||
  includes answer (lit "useState").

Definition Object_values (answers : gmap nat jsstring) : list jsstring :=
  (map_to_list answers).*2.
Definition Object_keys (answers : gmap nat jsstring) : list nat :=
  (map_to_list answers).*1.

Definition submitQuiz (moduleId : jsval) (answers : gmap nat jsstring)
  : M state jsval :=
  if MOCK_MODE then
    let correctCount :=
      length (List.filter counted_correct (Object_values answers)) in
    let totalQuestions := length (Object_keys answers) in
    let score :=
      jsmul (jsdiv (num_of_nat correctCount) (num_of_nat totalQuestions))
            (num_of_Z 100) in
    ret (obj [("score", VNum score);
              ("correct_answers", VNum (num_of_nat correctCount));
              ("total_questions", VNum (num_of_nat totalQuestions));
              ("feedback",
               VStr (if jsge score (num_of_Z 80) then lit "Excellent work!"
                     else if jsge score (num_of_Z 60) then lit "Good job!"
                     else lit "Keep practicing!"));
              ("next_steps",
               VStr (lit "Continue with more advanced topics or review " ++
                     lit "the material."))])
  else
    user <- getCurrentUser ;;
    user_id <- lift (get (TypeError (lit "Cannot read properties"))
                       user (lit "id")) ;;
    response <- api POST (lit "/api/v1/quizzes/submit")
                  (obj [("user_id", user_id);
                        ("module_id", moduleId);
                        ("answers", answers_to_val answers)]) ;;
    ret (Response.data response).

(** Utility methods *)
Definition isAuthenticated : M state bool :=
  if MOCK_MODE then ret true
  else λ st,
    (Normal (match getItem (lit "authToken") (page st) with
             | Some token => truthy (VStr token)
             | None => false
             end), st).

Definition logout : M state () :=
  if MOCK_MODE then ret ()
  else
    _ <- modify (on_page (removeItem (lit "authToken"))) ;;
    modify (on_page (set_location (lit "/"))).

End Client.

(** [const MOCK_MODE = false;], the value in the file as committed. *)
Definition MOCK_MODE : bool := false.

End OldApiService.

(** ** The quiz submission endpoint of the server

    The server is code of the repository that is not among the sources;
    the clients only post the answers to it and hand back what it
    answers. *)

Module QuizEndpoint.
Section Grading.
(** The feedback text, by score; the spec only says that there is one. *)
Variable feedback : jsnum → jsstring.

(** Modelled from the spec: the comparison of the grading, missing with
    the server.  The spec: the endpoint "accepts a module identifier and a
    mapping of question-index to selected-answer string" and "compares
    submitted answers against the Module's stored correct answers", by
    "exact string match". *)
Definition is_correct (answers : gmap nat jsstring) (index : nat)
    (q : OldApiService.quiz_question) : bool :=
  bool_decide (answers !! index = Some (OldApiService.correct_answer q)).

(** Modelled from the spec: the number of correct answers of a submission,
    missing with the server.  The spec: "no partial credit; no negative
    marking"; each question of the module counts once, when the answer
    submitted for its index is its stored correct answer. *)
Definition correct_answers (questions : list OldApiService.quiz_question)
    (answers : gmap nat jsstring) : nat :=
  length (List.filter (λ iq, is_correct answers iq.1 iq.2)
                      (imap pair questions)).

(** Modelled from the spec: the result of the quiz submission endpoint,
    missing with the server.  The spec: it "returns an aggregate score
    (percentage of correct answers), counts, and qualitative feedback
    text", as [{score, correct_answers, total_questions, feedback}].  The
    spec does not say what a module without questions scores, and no
    result is modelled for it. *)
Definition grade (questions : list OldApiService.quiz_question)
    (answers : gmap nat jsstring) : option jsval :=
  match questions with
  | [] => None
  | _ :: _ =>
      let correct := correct_answers questions answers in
      let total := length questions in
      let score :=
        Fin (Qc_of_Z (Z.of_nat correct) / Qc_of_Z (Z.of_nat total) *
             Qc_of_Z 100) in
      Some (obj [("score", VNum score);
                 ("correct_answers", VNum (num_of_nat correct));
                 ("total_questions", VNum (num_of_nat total));
                 ("feedback", VStr (feedback score))])
  end.

End Grading.
End QuizEndpoint.

(** ** [components/Dashboard.js] *)

Module Dashboard.

(** The values of the difficulty [<select>] of the creation form. *)
Inductive difficulty_option : Type := easy | medium | hard.

Definition option_value (o : difficulty_option) : jsstring :=
  match o with
  | easy => lit "easy"
  | medium => lit "medium"
  | hard => lit "hard"
  end.

Record form : Type := mkForm {
  prompt : jsstring;
  difficulty : jsstring;
  duration : jsval
}.

(** [useState({ prompt: '', difficulty: 'medium', duration: 30 })] *)
Definition initial_form : form :=
  mkForm [] (lit "medium") (VNum (num_of_Z 30)).

(** What the user can do to the form.  [EditDuration] carries the result
    of [parseInt] on the text typed. *)
Inductive form_event : Type :=
| EditPrompt (text : jsstring)
| SelectDifficulty (o : difficulty_option)
| EditDuration (n : jsnum).

Definition on_form_event (e : form_event) (f : form) : form :=
  match e with
  | EditPrompt text => mkForm text (difficulty f) (duration f)
  | SelectDifficulty o => mkForm (prompt f) (option_value o) (duration f)
  | EditDuration n => mkForm (prompt f) (difficulty f) (VNum n)
  end.

(** The state of the component.  [modules] holds the module objects
    received from the server; [alerts] collects the texts shown with
    [alert]; [failure] is the error that left an effect of the page, after
    which React has unmounted it, if that has happened. *)
Record t : Type := mk {
  modules : list jsval;
  filteredModules : list jsval;
  loading : bool;
  searchTerm : jsstring;
  filterDifficulty : jsstring;
  showCreateForm : bool;
  createLoading : bool;
  newModuleForm : form;
  alerts : list jsstring;
  failure : option Err.t
}.

Definition setModules (ms : list jsval) (d : t) : t :=
  mk ms (filteredModules d) (loading d) (searchTerm d) (filterDifficulty d)
     (showCreateForm d) (createLoading d) (newModuleForm d) (alerts d)
     (failure d).
Definition setFilteredModules (ms : list jsval) (d : t) : t :=
  mk (modules d) ms (loading d) (searchTerm d) (filterDifficulty d)
     (showCreateForm d) (createLoading d) (newModuleForm d) (alerts d)
     (failure d).
Definition setLoading (b : bool) (d : t) : t :=
  mk (modules d) (filteredModules d) b (searchTerm d) (filterDifficulty d)
     (showCreateForm d) (createLoading d) (newModuleForm d) (alerts d)
     (failure d).
Definition setShowCreateForm (b : bool) (d : t) : t :=
  mk (modules d) (filteredModules d) (loading d) (searchTerm d)
     (filterDifficulty d) b (createLoading d) (newModuleForm d) (alerts d)
     (failure d).
Definition setCreateLoading (b : bool) (d : t) : t :=
  mk (modules d) (filteredModules d) (loading d) (searchTerm d)
     (filterDifficulty d) (showCreateForm d) b (newModuleForm d) (alerts d)
     (failure d).
Definition setNewModuleForm (f : form) (d : t) : t :=
  mk (modules d) (filteredModules d) (loading d) (searchTerm d)
     (filterDifficulty d) (showCreateForm d) (createLoading d) f (alerts d)
     (failure d).
Definition alert (text : jsstring) (d : t) : t :=
  mk (modules d) (filteredModules d) (loading d) (searchTerm d)
     (filterDifficulty d) (showCreateForm d) (createLoading d)
     (newModuleForm d) (alerts d ++ [text]) (failure d).

(** The page after an error has left one of its effects: React unmounts
    it, the error boundary of the application takes its place, and no
    module is displayed any more. *)
Definition unmounted (error : Err.t) (d : t) : t :=
  mk (modules d) [] (loading d) (searchTerm d) (filterDifficulty d)
     (showCreateForm d) (createLoading d) (newModuleForm d) (alerts d)
     (Some error).

(** [Array.prototype.filter] with a predicate that may throw: the
    elements are tried in order, and the first exception ends the call. *)
Fixpoint filter_throwing {A} (p : A → completion Err.t bool) (l : list A)
  : completion Err.t (list A) :=
  match l with
  | [] => Normal []
  | x :: l' =>
      bind (p x) (λ keep,
      bind (filter_throwing p l') (λ rest,
      Normal (if keep then x :: rest else rest)))
  end.

Section Component.
Context `{!Engine}.
Variable net : request → outcome.

(** [value.toLowerCase()]: a string is lowered; [undefined] and [null]
    have no properties, and no other value that a response can carry has
    such a method, so the call throws a TypeError on all of them. *)
Definition lowered (value : jsval) : completion Err.t jsstring :=
  match value with
  | VStr s => Normal (toLowerCase s)
  | VUndefined | VNull => Throw (TypeError (lit "Cannot read properties"))
  | _ => Throw (TypeError (lit "toLowerCase is not a function"))
  end.

(** The predicate of the search: the content is looked at only when the
    title does not hold the text searched. *)
Definition matches_search (searchTerm : jsstring) (module : jsval)
  : completion Err.t bool :=
  bind (get (TypeError (lit "Cannot read properties")) module (lit "title"))
    (λ title,
  bind (lowered title) (λ lowered_title,
  if includes lowered_title (toLowerCase searchTerm) then Normal true
  else
    bind (get (TypeError (lit "Cannot read properties")) module
              (lit "content")) (λ content,
    bind (lowered content) (λ lowered_content,
    Normal (includes lowered_content (toLowerCase searchTerm)))))).

(** The predicate of the difficulty filter. *)
Definition same_difficulty (filterDifficulty : jsstring) (module : jsval)
  : completion Err.t bool :=
  bind (get (TypeError (lit "Cannot read properties")) module
            (lit "difficulty")) (λ difficulty,
  Normal (strict_eq difficulty (VStr filterDifficulty))).

(** [filterModules].  It throws what its predicates throw; the list
    displayed is then not set. *)
Definition filterModules (d : t) : completion Err.t t :=
  let filtered := modules d in
  bind (if truthy (VStr (searchTerm d))
        then filter_throwing (matches_search (searchTerm d)) filtered
        else Normal filtered) (λ filtered,
  bind (if negb (strict_eq (VStr (filterDifficulty d)) (VStr (lit "all")))
        then filter_throwing (same_difficulty (filterDifficulty d)) filtered
        else Normal filtered) (λ filtered,
  Normal (setFilteredModules filtered d))).

(** The effect that runs [filterModules] after each render in which
    [modules], [searchTerm] or [filterDifficulty] has changed.  Nothing
    catches what [filterModules] throws there, and the page is
    unmounted. *)
Definition filter_effect (d : t) : t :=
  match filterModules d with
  | Normal d' => d'
  | Throw error => unmounted error d
  end.

(** [loadModules]: a failure is logged and leaves the list as it is. *)
Definition loadModules (s : t * browser) : t * browser :=
  let d := setLoading true s.1 in
  match ApiService.getUserModules net s.2 with
  | (Normal data, br) =>
      (setLoading false
         (filter_effect
            (setModules (match data with VArr items => items | _ => [] end)
                        d)), br)
  | (Throw _, br) => (setLoading false d, br)
  end.

(** [handleCreateModule]: the form is sent through
    [apiService.generateModule]. *)
Definition handleCreateModule (s : t * browser) : t * browser :=
  let d := setCreateLoading true s.1 in
  let f := newModuleForm d in
  match ApiService.generateModule net (VStr (prompt f)) (VStr (difficulty f))
          (duration f) VUndefined s.2 with
  | (Normal response, br) =>
      match get (TypeError (lit "Cannot read properties"))
                response (lit "success") with
      | Normal success =>
          let s' :=
            if truthy success && truthy (opt_get response (lit "module"))
            then (filter_effect
                    (setModules (opt_get response (lit "module") :: modules d)
                                d), br)
            else loadModules (d, br) in
          (setCreateLoading false
             (setNewModuleForm initial_form (setShowCreateForm false s'.1)),
           s'.2)
      | Throw _ => (setCreateLoading false d, br)
      end
  | (Throw _, br) => (setCreateLoading false d, br)
  end.

(** [handleDeleteModule]: [confirmed] is the answer to [window.confirm]. *)
Definition handleDeleteModule (confirmed : bool) (moduleId : jsval)
    (title : jsstring) (s : t * browser) : t * browser :=
  if confirmed then
    match ApiService.deleteModule net moduleId s.2 with
    | (Normal _, br) =>
        (filter_effect
           (setModules
              (List.filter
                 (λ module,
                    negb (strict_eq (opt_get module (lit "id")) moduleId))
                 (modules s.1))
              s.1), br)
    | (Throw _, br) =>
        (alert (lit "Failed to delete module. Please try again.") s.1, br)
    end
  else s.

End Component.
End Dashboard.

(** ** The [EnhancedModules] component *)

Module EnhancedModules.

(** The values of the difficulty [<select>]. *)
Inductive difficulty_option : Type := Beginner | Intermediate | Advanced.

Definition option_value (o : difficulty_option) : jsstring :=
  match o with
  | Beginner => lit "Beginner"
  | Intermediate => lit "Intermediate"
  | Advanced => lit "Advanced"
  end.

Record form : Type := mkForm {
  topic : jsstring;
  difficulty : jsstring
}.

(** [useState({ topic: '', difficulty: 'Beginner' })] *)
Definition initial_form : form := mkForm [] (lit "Beginner").

Inductive form_event : Type :=
| EditTopic (text : jsstring)
| SelectDifficulty (o : difficulty_option).

Definition on_form_event (e : form_event) (f : form) : form :=
  match e with
  | EditTopic text => mkForm text (difficulty f)
  | SelectDifficulty o => mkForm (topic f) (option_value o)
  end.

Definition form_to_val (f : form) : jsval :=
  obj [("topic", VStr (topic f)); ("difficulty", VStr (difficulty f))].

(** The state of the component, without [selectedModule], which module
    creation neither reads nor writes; [alerts] collects the texts shown
    with [alert]. *)
Record t : Type := mk {
  modules : list jsval;
  loading : bool;
  error : jsstring;
  newModuleData : form;
  showCreateForm : bool;
  alerts : list jsstring
}.

Definition setModules (ms : list jsval) (c : t) : t :=
  mk ms (loading c) (error c) (newModuleData c) (showCreateForm c) (alerts c).
Definition setLoading (b : bool) (c : t) : t :=
  mk (modules c) b (error c) (newModuleData c) (showCreateForm c) (alerts c).
Definition setError (e : jsstring) (c : t) : t :=
  mk (modules c) (loading c) e (newModuleData c) (showCreateForm c) (alerts c).
Definition setNewModuleData (f : form) (c : t) : t :=
  mk (modules c) (loading c) (error c) f (showCreateForm c) (alerts c).
Definition setShowCreateForm (b : bool) (c : t) : t :=
  mk (modules c) (loading c) (error c) (newModuleData c) b (alerts c).
Definition alert (text : jsstring) (c : t) : t :=
  mk (modules c) (loading c) (error c) (newModuleData c) (showCreateForm c)
     (alerts c ++ [text]).

(** [{ ...o, k: v }]: the property [k] set to [v], in place when [o] has
    it and at the end otherwise. *)
Fixpoint set_field (k : jsstring) (v : jsval) (fields : list (jsstring * jsval))
  : list (jsstring * jsval) :=
  match fields with
  | [] => [(k, v)]
  | (k', v') :: rest =>
      if decide (k' = k) then (k, v) :: rest
      else (k', v') :: set_field k v rest
  end.

(** The own properties an object spread copies: those of an object, none
    of [undefined], [null] and the other primitives. *)
Definition spread (v : jsval) : list (jsstring * jsval) :=
  match v with
  | VObj fields => fields
  | _ => []
  end.

Section Component.
(** [fetch] followed by [response.json()]: fulfilled with the parsed body,
    or rejected when the request or the parsing fails. *)
Variable net : request → outcome.

(** Create new comprehensive module.  The body of the request is the form
    as [JSON.stringify] writes it; it is kept here as the value
    stringified. *)
Definition createModule (s : t * browser) : t * browser :=
  let c := s.1 in
  if negb (truthy (VStr (trim (topic (newModuleData c))))) then
    (setError (lit "Please enter a topic") c, s.2)
  else
    let c := setError [] (setLoading true c) in
    let token := getItem (lit "token") s.2 in
    let req :=
      mkRequest POST (lit "/api/v1/modules/generate")
        (form_to_val (newModuleData c))
        [(lit "Content-Type", lit "application/json");
         (lit "Authorization",
          lit "Bearer " ++ match token with
                           | Some tk => tk
                           | None => lit "null"
                           end)]
        None in
    let br := record_request req s.2 in
    match net req with
    | Fulfilled response =>
        let data := Response.data response in
        match get (TypeError (lit "Cannot read properties"))
                  data (lit "success") with
        | Normal success =>
            if truthy success then
              let created :=
                VObj (set_field (lit "title") (VStr (topic (newModuleData c)))
                        (foldl (λ acc kv, set_field kv.1 kv.2 acc)
                           [(lit "id", opt_get data (lit "module_id"))]
                           (spread (opt_get data (lit "module"))))) in
              (setLoading false
                 (alert (lit "Module created successfully!")
                    (setShowCreateForm false
                       (setNewModuleData initial_form
                          (setModules (modules c ++ [created]) c)))), br)
            else
              (setLoading false (setError (lit "Failed to create module") c),
               br)
        | Throw _ =>
            (setLoading false (setError (lit "Failed to create module") c), br)
        end
    | Rejected _ =>
        (setLoading false (setError (lit "Failed to create module") c), br)
    end.

End Component.
End EnhancedModules.

(** ** The [LearningPage] component: the quiz in the chat panel *)

Module LearningPage.

Inductive sender : Type := user | bot.

Record chat_message : Type := mkMessage {
  type : sender;
  message : jsstring;
  timestamp : Z
}.

(** What a [setTimeout] of the component will do when it fires. *)
Inductive timeout_action : Type :=
| AdvanceQuestion.

(** The part of the component state that answer selection and quiz
    submission read and write.  [pending] lists the timeouts set, with
    their delay in milliseconds; [alerts] the texts shown with [alert]. *)
Record t : Type := mk {
  module : jsval;
  chatMessages : list chat_message;
  quizMode : bool;
  currentQuestion : Z;
  selectedAnswer : jsstring;
  quizAnswers : gmap nat jsstring;
  quizCompleted : bool;
  quizScore : jsval;
  pending : list (Z * timeout_action);
  alerts : list jsstring
}.

(** [a[i]] on a value: the element of an array, [undefined] otherwise. *)
Definition at_index (a : jsval) (i : nat) : jsval :=
  match a with
  | VArr items => default VUndefined (items !! i)
  | _ => VUndefined
  end.

Definition correct_feedback : jsstring :=
  [0x2705%N] ++ lit " Correct! Well done!".

Definition wrong_feedback (correct_answer : jsstring) : jsstring :=
  [0x274C%N] ++ lit " Not quite. The correct answer is: " ++ correct_answer.

Section Component.
Context `{!Engine}.
Variable net : request → outcome.
Variable moduleId : jsval.

(** [handleAnswerSelect(answer, questionId)]; [now] is [Date.now()].  The
    answer is stored first; the chat feedback follows in quiz mode. *)
Definition handleAnswerSelect (now : Z) (answer : jsstring) (questionId : nat)
  : M t () := λ p,
  let p :=
    mk (module p) (chatMessages p) (quizMode p) (currentQuestion p)
       answer (<[questionId := answer]> (quizAnswers p))
       (quizCompleted p) (quizScore p) (pending p) (alerts p) in
  if quizMode p then
    match get (TypeError (lit "Cannot read properties"))
              (module p) (lit "quiz_questions") with
    | Throw e => (Throw e, p)
    | Normal quiz_questions =>
        if truthy quiz_questions then
          let question := at_index quiz_questions questionId in
          match get (TypeError (lit "Cannot read properties"))
                    question (lit "correct_answer") with
          | Throw e => (Throw e, p)
          | Normal correct_answer =>
              let isCorrect := strict_eq (VStr answer) correct_answer in
              let userAnswer := mkMessage user answer now in
              let feedback :=
                mkMessage bot
                  (if isCorrect then correct_feedback
                   else wrong_feedback (ToString correct_answer))
                  (now + 1) in
              (Normal (),
               mk (module p) (chatMessages p ++ [userAnswer; feedback])
                  (quizMode p) (currentQuestion p) (selectedAnswer p)
                  (quizAnswers p) (quizCompleted p) (quizScore p)
                  (pending p ++ [(2000%Z, AdvanceQuestion)]) (alerts p))
          end
        else (Normal (), p)
    end
  else (Normal (), p).

(** [handleQuizSubmit]: the answers collected are sent through
    [apiService.submitQuiz]. *)
Definition handleQuizSubmit (s : t * browser) : t * browser :=
  let p := s.1 in
  match ApiService.submitQuiz net moduleId (answers_to_val (quizAnswers p))
          s.2 with
  | (Normal result, br) =>
      (mk (module p) (chatMessages p) (quizMode p) (currentQuestion p)
          (selectedAnswer p) (quizAnswers p) true result (pending p)
          (alerts p), br)
  | (Throw _, br) =>
      (mk (module p) (chatMessages p) (quizMode p) (currentQuestion p)
          (selectedAnswer p) (quizAnswers p) (quizCompleted p) (quizScore p)
          (pending p)
          (alerts p ++ [lit "Failed to submit quiz. Please try again."]), br)
  end.

End Component.
End LearningPage.

(** ** The [QuizPage] component: the timed quiz *)

Module QuizPage.

(** A live [setInterval]: its period in milliseconds and the [answers] of
    the render whose [handleSubmit] its callback calls. *)
Record interval : Type := mkInterval {
  period : Z;
  closed_over : gmap nat jsstring
}.

(** The state of the component, and with it the interval that the timer
    effect keeps, if any. *)
Record t : Type := mk {
  module : jsval;
  currentQuestion : Z;
  answers : gmap nat jsstring;
  submitted : bool;
  results : jsval;
  loading : bool;
  error : option jsstring;
  timeLeft : option Z;
  quizStarted : bool;
  timer : option interval
}.

(** The state at the first render. *)
Definition initial : t :=
  mk VNull 0 ∅ false VNull true None None false None.

Definition set_timer (i : option interval) (q : t) : t :=
  mk (module q) (currentQuestion q) (answers q) (submitted q) (results q)
     (loading q) (error q) (timeLeft q) (quizStarted q) i.

(** [quizStarted && timeLeft > 0 && !submitted]; a [null] time is not
    greater than zero. *)
Definition running (q : t) : bool :=
  quizStarted q &&
  match timeLeft q with
  | Some n => bool_decide (0 < n)%Z
  | None => false
  end &&
  negb (submitted q).

(** The timer effect, with dependencies [quizStarted], [timeLeft] and
    [submitted].  After a render in which none of them changed the
    interval of the previous render stays, callback included.  Otherwise
    the clean-up clears it, and the effect sets a new one when the quiz is
    running; the new callback sees the [answers] of this render. *)
Definition timer_effect (before after : t) : t :=
  if bool_decide (quizStarted before = quizStarted after ∧
                  timeLeft before = timeLeft after ∧
                  submitted before = submitted after)
  then set_timer (timer before) after
  else set_timer (if running after
                  then Some (mkInterval 1000 (answers after))
                  else None) after.

(** The length of [module.quiz_questions]. *)
Definition quiz_length (module : jsval) : Z :=
  match opt_get module (lit "quiz_questions") with
  | VArr items => Z.of_nat (length items)
  | VStr s => Z.of_nat (length s)
  | _ => 0
  end.

Section Component.
Context `{!Engine}.
Variable net : request → outcome.
Variable moduleId : jsval.

(** [loadModule]: two minutes per question. *)
Definition loadModule (s : t * browser) : t * browser :=
  let q := s.1 in
  match ApiService.getModule net moduleId s.2 with
  | (Normal moduleData, br) =>
      match get (TypeError (lit "Cannot read properties"))
                moduleData (lit "quiz_questions") with
      | Normal quiz_questions =>
          (mk moduleData (currentQuestion q) (answers q) (submitted q)
              (results q) false (error q)
              (if truthy quiz_questions && bool_decide (0 < quiz_length moduleData)%Z
               then Some (quiz_length moduleData * 120)%Z
               else timeLeft q)
              (quizStarted q) (timer q), br)
      | Throw _ =>
          (mk moduleData (currentQuestion q) (answers q) (submitted q)
              (results q) false
              (Some (lit "Failed to load quiz. Please try again."))
              (timeLeft q) (quizStarted q) (timer q), br)
      end
  | (Throw _, br) =>
      (mk (module q) (currentQuestion q) (answers q) (submitted q)
          (results q) false
          (Some (lit "Failed to load quiz. Please try again."))
          (timeLeft q) (quizStarted q) (timer q), br)
  end.

Definition startQuiz (q : t) : t :=
  mk (module q) 0 ∅ false VNull (loading q) (error q) (timeLeft q) true
     (timer q).

Definition handleAnswerSelect (questionIndex : nat) (answer : jsstring)
    (q : t) : t :=
  mk (module q) (currentQuestion q) (<[questionIndex := answer]> (answers q))
     (submitted q) (results q) (loading q) (error q) (timeLeft q)
     (quizStarted q) (timer q).

Definition nextQuestion (q : t) : t :=
  if bool_decide (currentQuestion q < quiz_length (module q) - 1)%Z
  then mk (module q) (currentQuestion q + 1) (answers q) (submitted q)
          (results q) (loading q) (error q) (timeLeft q) (quizStarted q)
          (timer q)
  else q.

Definition prevQuestion (q : t) : t :=
  if bool_decide (0 < currentQuestion q)%Z
  then mk (module q) (currentQuestion q - 1) (answers q) (submitted q)
          (results q) (loading q) (error q) (timeLeft q) (quizStarted q)
          (timer q)
  else q.

(** [handleSubmit] as created by a render whose [answers] were
    [seen_answers].  The request and its answer are taken as one step. *)
Definition handleSubmit (seen_answers : gmap nat jsstring) (s : t * browser)
  : t * browser :=
  let q := s.1 in
  match ApiService.submitQuiz net moduleId (answers_to_val seen_answers)
          s.2 with
  | (Normal r, br) =>
      (mk (module q) (currentQuestion q) (answers q) true r false (error q)
          (timeLeft q) false (timer q), br)
  | (Throw _, br) =>
      (mk (module q) (currentQuestion q) (answers q) (submitted q)
          (results q) false
          (Some (lit "Failed to submit quiz. Please try again."))
          (timeLeft q) (quizStarted q) (timer q), br)
  end.

(** The interval callback: [setTimeLeft(prev => ...)], where [prev] is the
    time left now and [handleSubmit] is the one the interval closed
    over. *)
Definition tick (i : interval) (s : t * browser) : t * browser :=
  let prev := default 0%Z (timeLeft s.1) in
  let s' := if bool_decide (prev ≤ 1)%Z then handleSubmit (closed_over i) s
            else s in
  let q := s'.1 in
  (mk (module q) (currentQuestion q) (answers q) (submitted q) (results q)
      (loading q) (error q)
      (Some (if bool_decide (prev ≤ 1)%Z then 0 else prev - 1)%Z)
      (quizStarted q) (timer q), s'.2).

(** What happens to a mounted page. *)
Inductive event : Type :=
| Loaded
| StartQuiz
| SelectAnswer (questionIndex : nat) (answer : jsstring)
| NextQuestion
| PrevQuestion
| SubmitClicked
| IntervalFired
| Unmount.

(** One event: the handler runs, the component renders again, and the
    timer effect follows.  An interval that was cleared does not fire;
    unmounting runs the clean-up of the effect. *)
Definition step (e : event) (s : t * browser) : t * browser :=
  let s' :=
    match e with
    | Loaded => loadModule s
    | StartQuiz => (startQuiz s.1, s.2)
    | SelectAnswer i a => (handleAnswerSelect i a s.1, s.2)
    | NextQuestion => (nextQuestion s.1, s.2)
    | PrevQuestion => (prevQuestion s.1, s.2)
    | SubmitClicked => handleSubmit (answers s.1) s
    | IntervalFired =>
        match timer s.1 with
        | Some i => tick i s
        | None => s
        end
    | Unmount => s
    end in
  match e with
  | Unmount => (set_timer None s'.1, s'.2)
  | _ => (timer_effect s.1 s'.1, s'.2)
  end.

Definition run (es : list event) (s : t * browser) : t * browser :=
  foldl (λ acc e, step e acc) s es.

End Component.
End QuizPage.

(** ** Observations used to state the properties *)

(** [0 <= n && n <= 100]. *)
Definition in_percent_range (n : jsnum) : bool :=
  jsle (Fin 0) n && jsle n (num_of_Z 100).

(** The three texts the mock grading looks for. *)
Definition mock_needles : list jsstring :=
  [lit "correct"; lit "React 16.8"; lit "useState"].

(** The bodies of the requests sent, oldest first. *)
Definition bodies (br : browser) : list jsval := body <$> sent br.

(** The number of answers the mock grading counts as correct. *)
Definition mock_correctCount (answers : gmap nat jsstring) : nat :=
  length (List.filter OldApiService.counted_correct
            (OldApiService.Object_values answers)).

(** The [score] property of the value a call returned, if it returned. *)
Definition score_of (r : completion Err.t jsval) : jsval :=
  match r with
  | Normal v => opt_get v (lit "score")
  | Throw _ => VUndefined
  end.

(** The request that leaves the axios instance of [apiService.js] for a
    call with verb [v], URL [u], body [b] and response type [rt]: the
    request interceptor has added the bearer token, if one is stored, and
    the request is as it goes on the wire. *)
Definition request_sent (st : browser) (v : verb) (u : jsstring) (b : jsval)
    (rt : option jsstring) : request :=
  let base :=
    mkRequest v u b [(lit "Content-Type", lit "application/json")] rt in
  on_the_wire
    match (ApiService.request_interceptor base st).1 with
    | Normal config => config
    | Throw _ => base
    end.

(** [error.response?.data]: the payload of the response an error carries,
    [undefined] when it carries none. *)
Definition payload (error : Err.t) : jsval :=
  match Err.response error with
  | Some r => Response.data r
  | None => VUndefined
  end.

(** [error.response?.status]. *)
Definition status_of (error : Err.t) : jsval :=
  match Err.response error with
  | Some r => VNum (num_of_Z (Response.status r))
  | None => VUndefined
  end.

(** The default text that each method of the client hands to
    [_handleError] with the error it has caught; the three methods that
    throw nothing have none. *)
Definition default_message (c : ApiService.call) : option string :=
  match c with
  | ApiService.Login _ _ => Some "Login failed"
  | ApiService.Register _ _ _ => Some "Registration failed"
  | ApiService.GetCurrentUser => Some "Failed to get user info"
  | ApiService.GenerateModule _ _ _ _ => Some "Failed to generate module"
  | ApiService.GetModule _ => Some "Failed to fetch module"
  | ApiService.GetUserModules => Some "Failed to fetch user modules"
  | ApiService.DeleteModule _ => Some "Failed to delete module"
  | ApiService.SubmitQuiz _ _ => Some "Failed to submit quiz"
  | ApiService.GetAssignmentLatex _ => Some "Failed to fetch assignment LaTeX"
  | ApiService.GetAssignmentPdf _ => Some "Failed to fetch assignment PDF"
  | ApiService.GenerateLearningPath _ _ _ =>
      Some "Failed to generate learning path"
  | ApiService.SendChatMessage _ _ => Some "Failed to send chat message"
  | ApiService.DownloadModulePDF _ => Some "Failed to download PDF"
  | ApiService.IsAuthenticated _ | ApiService.Logout
  | ApiService.CheckHealth => None
  end.

(** The values that [===] compares by content, [NaN] apart: the
    primitives.  The identifiers of modules are among them. *)
Definition comparable (v : jsval) : bool :=
  match v with
  | VNum NaN | VArr _ | VObj _ => false
  | _ => true
  end.

(** The property names of an object, in order. *)
Definition keys (v : jsval) : list jsstring :=
  match v with
  | VObj fields => fields.*1
  | _ => []
  end.

(** The words for the difficulty that each of the two forms can send. *)
Definition dashboard_vocabulary : list jsstring :=
  Dashboard.option_value <$> [Dashboard.easy; Dashboard.medium; Dashboard.hard].
Definition enhanced_vocabulary : list jsstring :=
  EnhancedModules.option_value <$>
    [EnhancedModules.Beginner; EnhancedModules.Intermediate;
     EnhancedModules.Advanced].

(** The timer of the quiz page agrees with the state: an interval of one
    second is set exactly when the quiz is running. *)
Definition timer_ok (q : QuizPage.t) : Prop :=
  match QuizPage.timer q with
  | Some i => QuizPage.running q = true ∧ QuizPage.period i = 1000%Z
  | None => QuizPage.running q = false
  end.

(** A browser with nothing stored and nothing sent. *)
Definition fresh_browser : browser := mkBrowser ∅ (lit "/") [].

(** ** An engine and some servers for the examples

    [example_engine] writes and reads whole numbers in decimal, decodes
    base64 as [atob] does, and parses the JSON texts of the form
    [{"exp":<digits>}]; it lowers the case of the ASCII letters. *)

Definition is_digit (c : N) : bool :=
  bool_decide (48 ≤ c)%N && bool_decide (c ≤ 57)%N.

Definition digits_value (s : jsstring) : Z :=
  foldl (λ acc c, acc * 10 + (Z.of_N c - 48))%Z 0%Z s.

Definition example_NumberToString (n : jsnum) : jsstring :=
  match n with
  | Fin q => lit (pretty (Qnum (this q)))
  | NaN => lit "NaN"
  | PosInf => lit "Infinity"
  | NegInf => lit "-Infinity"
  end.

Definition example_StringToNumber (s : jsstring) : jsnum :=
  if forallb is_digit s then num_of_Z (digits_value s) else NaN.

Definition b64_value (c : N) : option N :=
  if bool_decide (65 ≤ c)%N && bool_decide (c ≤ 90)%N then Some (c - 65)%N
  else if bool_decide (97 ≤ c)%N && bool_decide (c ≤ 122)%N then Some (c - 71)%N
  else if is_digit c then Some (c + 4)%N
  else if bool_decide (c = 43)%N then Some 62%N
  else if bool_decide (c = 47)%N then Some 63%N
  else None.

Fixpoint b64_bytes (vs : list N) : option (list N) :=
  match vs with
  | [] => Some []
  | [_] => None
  | [a; b] => Some [(a * 4 + b / 16) mod 256]%N
  | [a; b; c] =>
      Some [(a * 4 + b / 16) mod 256; (b * 16 + c / 4) mod 256]%N
  | a :: b :: c :: d :: rest =>
      tl ← b64_bytes rest;
      Some ([(a * 4 + b / 16) mod 256; (b * 16 + c / 4) mod 256;
             (c * 64 + d) mod 256]%N ++ tl)
  end.

Definition strip_padding (s : jsstring) : jsstring :=
  if bool_decide (length s `mod` 4 = 0)%nat then
    match rev s with
    | 61%N :: 61%N :: r => rev r
    | 61%N :: r => rev r
    | _ => s
    end
  else s.

Definition example_atob (s : jsstring) : completion Err.t jsstring :=
  match mapM b64_value (strip_padding s) ≫= b64_bytes with
  | Some bytes => Normal bytes
  | None => Throw (Err.mk (VStr (lit "InvalidCharacterError")) None
                     VUndefined None)
  end.

(** The text [{"exp":] *)
Definition exp_prefix : jsstring := [123; 34]%N ++ lit "exp" ++ [34; 58]%N.

Definition example_JSON_parse (s : jsstring) : completion Err.t jsval :=
  let digits := take (length s - length exp_prefix - 1) (drop (length exp_prefix) s) in
  if starts_with s exp_prefix &&
     bool_decide (s = exp_prefix ++ digits ++ [125%N]) &&
     negb (bool_decide (digits = [])) && forallb is_digit digits
  then Normal (VObj [(lit "exp", VNum (num_of_Z (digits_value digits)))])
  else Throw (Err.mk (VStr (lit "SyntaxError")) None VUndefined None).

Definition example_toLowerCase (s : jsstring) : jsstring :=
  (λ c, if bool_decide (65 ≤ c)%N && bool_decide (c ≤ 90)%N
        then (c + 32)%N else c) <$> s.

Definition example_engine : Engine := {|
  NumberToString := example_NumberToString;
  ObjectToString := λ _, lit "[object Object]";
  StringToNumber := example_StringToNumber;
  ObjectToNumber := λ _, NaN;
  atob := example_atob;
  JSON_parse := example_JSON_parse;
  DateToISOString := λ _, lit "1970-01-01T00:00:00.000Z";
  toLowerCase := example_toLowerCase
|}.

(** A server that answers every request with status 200 and [data]. *)
Definition server_ok (data : jsval) : request → outcome :=
  λ _, Fulfilled (Response.mk 200 data []).

(** A server that fails every request with [status] and [data]; axios
    rejects with an error that carries the response. *)
Definition server_fail (status : Z) (data : jsval) : request → outcome :=
  λ _, Rejected (Err.mk (VStr (lit "Request failed with status code " ++
                               lit (pretty status)))
                   (Some (Response.mk status data [])) VUndefined None).

(** A network on which no request gets through. *)
Definition network_down : request → outcome :=
  λ _, Rejected (Err.mk (VStr (lit "Network Error")) None VUndefined None).

(** A learning page in quiz mode on the third mock module. *)
Definition example_learning_page : LearningPage.t :=
  LearningPage.mk (OldApiService.module_to_val OldApiService.mockModule3)
    [] true 0 [] ∅ false VNull [] [].

(** A module object with a numeric id and a title, and a dashboard that
    shows two of them. *)
Definition example_module (n : Z) (title : string) : jsval :=
  obj [("id", VNum (num_of_Z n));
       ("title", VStr (lit title));
       ("content", VStr (lit "text"));
       ("difficulty", VStr (lit "easy"))].

Definition example_dashboard : Dashboard.t :=
  Dashboard.mk [example_module 1 "One"; example_module 2 "Two"]
    [example_module 1 "One"; example_module 2 "Two"]
    false [] (lit "all") false false Dashboard.initial_form [] None.

(** A server for the quiz page: it serves a module with one question and
    accepts every submission. *)
Definition quiz_server : request → outcome :=
  λ r, match method r with
       | GET =>
           Fulfilled
             (Response.mk 200
                (obj [("id", VNum (num_of_Z 1));
                      ("quiz_questions",
                       VArr [OldApiService.question_to_val
                               (OldApiService.mkQuestion
                                  (lit "What is the main concept?")
                                  [lit "Option A"; lit "Option B"]
                                  (lit "Option A"))])])
                [])
       | _ =>
           Fulfilled
             (Response.mk 200 (obj [("score", VNum (num_of_Z 100))]) [])
       end.

(** A quiz taken to its last second, in which the user then picks an
    answer, before the interval fires for the last time. *)
Definition last_second_answer : list QuizPage.event :=
  [QuizPage.Loaded; QuizPage.StartQuiz] ++
  replicate 119 QuizPage.IntervalFired ++
  [QuizPage.SelectAnswer 0 (lit "Option A"); QuizPage.IntervalFired].

(** A feedback text by score, for the examples. *)
Definition example_feedback (score : jsnum) : jsstring :=
  if jsge score (num_of_Z 60) then lit "Well done" else lit "Try again".


(** ** The authentication context ([AuthProvider], in [apiService.js]) *)

Module AuthContext.

(** The state of the provider. *)
Record t : Type := mk {
  user : jsval;
  loading : bool;
  isAuthenticated : bool
}.

(** [useState(null)], [useState(true)], [useState(false)] *)
Definition initial : t := mk VNull true false.

Section Provider.
Context `{!Engine}.
Variable net : request → outcome.

(** [initAuth], run once when the provider mounts; [now] is
    [Date.now()]. *)
Definition initAuth (now : Z) (s : t * browser) : t * browser :=
  let c := s.1 in
  match ApiService.isAuthenticated now s.2 with
  | (Normal true, br) =>
      match ApiService.getCurrentUser net br with
      | (Normal userData, br') => (mk userData false true, br')
      | (Throw _, br') => (mk VNull false false, (ApiService.logout br').2)
      end
  | (Normal false, br) => (mk (user c) false (isAuthenticated c), br)
  | (Throw _, br) => (mk VNull false false, (ApiService.logout br).2)
  end.

(** The object returned by [login] and [register] when they fail. *)
Definition failure (error : Err.t) (text : string) : jsval :=
  obj [("success", VBool false);
       ("error", jsor (opt_get (payload error) (lit "detail"))
                      (VStr (lit text)))].

(** [login]: the value returned and the new state. *)
Definition login (email password : jsval) (s : t * browser)
  : jsval * (t * browser) :=
  let c := s.1 in
  match ApiService.login net email password s.2 with
  | (Normal response, br) =>
      match get (TypeError (lit "Cannot read properties"))
                response (lit "user") with
      | Normal u => (obj [("success", VBool true)], (mk u false true, br))
      | Throw error =>
          (failure error "Login failed. Please try again.",
           (mk (user c) false (isAuthenticated c), br))
      end
  | (Throw error, br) =>
      (failure error "Login failed. Please try again.",
       (mk (user c) false (isAuthenticated c), br))
  end.

(** [register]: the value returned and the new state. *)
Definition register (email password full_name : jsval) (s : t * browser)
  : jsval * (t * browser) :=
  let c := s.1 in
  match ApiService.register net email password full_name s.2 with
  | (Normal userData, br) =>
      (obj [("success", VBool true)], (mk userData false true, br))
  | (Throw error, br) =>
      (failure error "Registration failed. Please try again.",
       (mk (user c) false (isAuthenticated c), br))
  end.

Definition logout (s : t * browser) : t * browser :=
  (mk VNull (loading s.1) false, (ApiService.logout s.2).2).

End Provider.
End AuthContext.

(** ** More of [components/Dashboard.js]: statistics and downloads *)

(** [a + b] on numbers. *)
Definition jsplus (a b : jsnum) : jsnum :=
  match a, b with
  | NaN, _ | _, NaN => NaN
  | Fin x, Fin y => Fin (x + y)
  | PosInf, NegInf | NegInf, PosInf => NaN
  | PosInf, _ | _, PosInf => PosInf
  | NegInf, _ | _, NegInf => NegInf
  end.

(** The letters and digits that the pattern [/[^a-z0-9]/gi] leaves in
    place. *)
Definition is_alnum (c : N) : bool :=
  is_digit c ||
  (bool_decide (65 ≤ c)%N && bool_decide (c ≤ 90)%N) ||
  (bool_decide (97 ≤ c)%N && bool_decide (c ≤ 122)%N).

Module DashboardView.
Section View.
Context `{!Engine}.
Variable net : request → outcome.

(** [a + b] on values: concatenation as soon as one side is a string or
    converts to one, addition of numbers otherwise. *)
Definition jsadd (a b : jsval) : jsval :=
  match a, b with
  | (VStr _ | VArr _ | VObj _), _ | _, (VStr _ | VArr _ | VObj _) =>
      VStr (ToString a ++ ToString b)
  | _, _ => VNum (jsplus (ToNumber a) (ToNumber b))
  end.

Definition getDifficultyColor (difficulty : jsval) : jsstring :=
  if strict_eq difficulty (VStr (lit "easy")) then lit "success"
  else if strict_eq difficulty (VStr (lit "medium")) then lit "warning"
  else if strict_eq difficulty (VStr (lit "hard")) then lit "error"
  else lit "gray".

Record stats : Type := mkStats {
  total : nat;
  completed : nat;
  avgDuration : jsnum
}.

(** [getModuleStats]. *)
Definition getModuleStats (modules : list jsval) : stats :=
  let total := length modules in
  let completed :=
    length (List.filter (λ m, truthy (opt_get m (lit "completed"))) modules) in
  let sum :=
    foldl (λ sum m,
             jsadd sum (jsor (opt_get m (lit "duration")) (VNum (num_of_Z 30))))
          (VNum (num_of_Z 0)) modules in
  let avg := jsdiv (ToNumber sum) (num_of_nat total) in
  mkStats total completed (if truthy (VNum avg) then avg else num_of_Z 0).

(** [title.replace(/[^a-z0-9]/gi, '_').toLowerCase()] *)
Definition sanitize (title : jsstring) : jsstring :=
  toLowerCase ((λ c, if is_alnum c then c else 95%N) <$> title).

(** [handleDownloadPDF]: the name under which the file is saved, when the
    download starts; a failure is logged and nothing is saved. *)
Definition handleDownloadPDF (moduleId : jsval) (title : jsstring)
    (br : browser) : option jsstring * browser :=
  match ApiService.getAssignmentPdf net moduleId br with
  | (Normal _, br') => (Some (sanitize title ++ lit "_assignment.pdf"), br')
  | (Throw _, br') => (None, br')
  end.

End View.
End DashboardView.

(** ** The chat of the [LearningPage] component *)

Module ChatPanel.

Record entry : Type := mkEntry {
  type : LearningPage.sender;
  message : jsval;
  timestamp : Z
}.

Record t : Type := mk {
  chatMessages : list entry;
  currentInput : jsstring;
  isTyping : bool
}.

(** The reply shown when the server sends none. *)
Definition default_reply : jsstring :=
  lit "I'm here to help you learn! Feel free to ask any questions about " ++
  lit "this topic.".

(** The replies among which one is drawn when the request fails. *)
Definition fallbackResponses : list jsstring :=
  [lit "That's a great question about this topic! Can you tell me more " ++
   lit "about what specifically you'd like to understand?";
   lit "I can see you're thinking deeply about this subject. What aspect " ++
   lit "would you like me to explain further?";
   lit "Excellent question! Let me help you understand this concept better.";
   lit "That's an important point to clarify. What would help make this " ++
   lit "clearer for you?";
   lit "Good observation! This is definitely worth exploring further."].

Section Panel.
Context `{!Engine}.
Variable net : request → outcome.
Variable moduleId : jsval.

(** [handleSendMessage].  [now] is [Date.now()], read once for the message
    of the user and [later] for the reply; [draw] is the value of
    [Math.floor(Math.random() * fallbackResponses.length)]. *)
Definition handleSendMessage (now later : Z) (draw : nat) (s : t * browser)
  : t * browser :=
  let p := s.1 in
  if negb (truthy (VStr (trim (currentInput p)))) then s
  else
    let userMessage := mkEntry LearningPage.user (VStr (currentInput p)) now in
    let messageText := currentInput p in
    let shown := chatMessages p ++ [userMessage] in
    match ApiService.sendChatMessage net (VStr messageText) moduleId s.2 with
    | (Normal response, br) =>
        match get (TypeError (lit "Cannot read properties"))
                  response (lit "response") with
        | Normal reply =>
            (mk (shown ++ [mkEntry LearningPage.bot
                             (jsor reply (VStr default_reply)) later])
                [] false, br)
        | Throw _ =>
            (mk (shown ++ [mkEntry LearningPage.bot
                             (match fallbackResponses !! draw with
                              | Some text => VStr text
                              | None => VUndefined
                              end) later])
                [] false, br)
        end
    | (Throw _, br) =>
        (mk (shown ++ [mkEntry LearningPage.bot
                         (match fallbackResponses !! draw with
                          | Some text => VStr text
                          | None => VUndefined
                          end) later])
            [] false, br)
    end.

End Panel.
End ChatPanel.

(** ** [components/Sidebar.js]: the topics done and under revision *)

Module Sidebar.

Record topic : Type := mkTopic {
  id : jsstring;
  name : jsstring
}.

#[global] Instance topic_eq_dec : EqDecision topic.
Proof. solve_decision. Defined.

Definition topics : list topic :=
  [mkTopic (lit "variables") (lit "Variables & Data Types");
   mkTopic (lit "js-basics") (lit "JS Basics");
   mkTopic (lit "react-components") (lit "React Components");
   mkTopic (lit "apis-fetch") (lit "APIs & Fetch");
   mkTopic (lit "flask-integration") (lit "Flask Integration")].

Record t : Type := mk {
  completedTopics : list jsstring;
  revisionTopics : list jsstring
}.

(** [useState([])], twice *)
Definition initial : t := mk [] [].

(** [Array.prototype.includes] on an array of strings. *)
Definition isDone (s : t) (i : jsstring) : bool :=
  bool_decide (i ∈ completedTopics s).
Definition isRevision (s : t) (i : jsstring) : bool :=
  bool_decide (i ∈ revisionTopics s).

(** [prev.filter((t) => t !== id)] *)
Definition without (i : jsstring) (l : list jsstring) : list jsstring :=
  List.filter (λ t, negb (bool_decide (t = i))) l.

Definition toggleDone (i : jsstring) (s : t) : t :=
  if isDone s i
  then mk (without i (completedTopics s)) (without i (revisionTopics s))
  else mk (completedTopics s ++ [i]) (revisionTopics s).

Definition toggleRevision (i : jsstring) (s : t) : t :=
  if isRevision s i
  then mk (completedTopics s) (without i (revisionTopics s))
  else mk (if negb (isDone s i) then completedTopics s ++ [i]
           else completedTopics s)
          (revisionTopics s ++ [i]).

(** The three lists shown. *)
Definition pending (s : t) : list topic :=
  List.filter (λ tp, negb (isDone s (id tp))) topics.
Definition completed (s : t) : list topic :=
  List.filter (λ tp, isDone s (id tp) && negb (isRevision s (id tp))) topics.
Definition revision (s : t) : list topic :=
  List.filter (λ tp, isRevision s (id tp)) topics.

(** The clicks on the buttons of the lists. *)
Inductive event : Type :=
| ToggleDone (i : jsstring)
| ToggleRevision (i : jsstring).

Definition step (e : event) (s : t) : t :=
  match e with
  | ToggleDone i => toggleDone i s
  | ToggleRevision i => toggleRevision i s
  end.

Definition run (es : list event) (s : t) : t :=
  foldl (λ acc e, step e acc) s es.

End Sidebar.

(** ** More observations *)

(** The lists of the sidebar are in order: no topic is listed twice, and
    a topic under revision is also a topic done. *)
Definition sidebar_ok (s : Sidebar.t) : Prop :=
  NoDup (Sidebar.completedTopics s) ∧
  NoDup (Sidebar.revisionTopics s) ∧
  Sidebar.revisionTopics s ⊆ Sidebar.completedTopics s.

(** How many of the three lists shown hold a topic. *)
Definition sections_holding (s : Sidebar.t) (tp : Sidebar.topic) : nat :=
  ((if bool_decide (tp ∈ Sidebar.pending s) then 1 else 0) +
   (if bool_decide (tp ∈ Sidebar.completed s) then 1 else 0) +
   (if bool_decide (tp ∈ Sidebar.revision s) then 1 else 0))%nat.

(** A module object whose title and content are strings, as the
    dashboard expects them. *)
Definition has_texts (module : jsval) : bool :=
  match opt_get module (lit "title"), opt_get module (lit "content") with
  | VStr _, VStr _ => true
  | _, _ => false
  end.

(** The value of a header of a request, if the request has it. *)
Definition header (r : request) (k : jsstring) : option jsstring :=
  snd <$> List.find (λ kv, bool_decide (kv.1 = k)) (req_headers r).

(** The methods of the client that work on the browser alone. *)
Definition is_local (c : ApiService.call) : bool :=
  match c with
  | ApiService.IsAuthenticated _ | ApiService.Logout => true
  | _ => false
  end.

(** An engine whose [toLowerCase] does to a string of ASCII characters
    what is expected of it: the capital letters become small and the rest
    stays. *)
Definition lowers_ascii `{!Engine} : Prop :=
  ∀ s : jsstring, Forall (λ c, (c < 128)%N) s →
                  toLowerCase s = example_toLowerCase s.

(** The characters of a plain file name: small letters, digits and the
    underscore. *)
Definition is_plain (c : N) : bool :=
  is_digit c ||
  (bool_decide (97 ≤ c)%N && bool_decide (c ≤ 122)%N) ||
  bool_decide (c = 95)%N.

(** The request by which [EnhancedModules] asks for a module, for a form
    and a browser. *)
Definition creation_request (f : EnhancedModules.form) (br : browser)
  : request :=
  mkRequest POST (lit "/api/v1/modules/generate")
    (EnhancedModules.form_to_val f)
    [(lit "Content-Type", lit "application/json");
     (lit "Authorization",
      lit "Bearer " ++ match getItem (lit "token") br with
                       | Some tk => tk
                       | None => lit "null"
                       end)]
    None.

(** The request by which the quiz page submits answers. *)
Definition submission_request `{!Engine} (moduleId : jsval)
    (answers : gmap nat jsstring) (br : browser) : request :=
  request_sent br POST
    (lit "/api/v1/modules/" ++ ToString moduleId ++ lit "/quiz/submit")
    (obj [("answers", answers_to_val answers)]) None.

(** The index of the question shown is one of the quiz, or 0 when the
    quiz is empty. *)
Definition question_in_range (q : QuizPage.t) : Prop :=
  (0 ≤ QuizPage.currentQuestion q ≤
   Z.max 0 (QuizPage.quiz_length (QuizPage.module q) - 1))%Z.

(** The events that neither load the module nor submit on a click. *)
Definition quiet (e : QuizPage.event) : Prop :=
  e ≠ QuizPage.Loaded ∧ e ≠ QuizPage.SubmitClicked.

(** A quiz page on the server of the examples, loaded and started: 120
    seconds left, nothing answered. *)
Definition started_quiz : QuizPage.t * browser :=
  QuizPage.run (H := example_engine) quiz_server (VNum (num_of_Z 1))
    [QuizPage.Loaded; QuizPage.StartQuiz] (QuizPage.initial, fresh_browser).

(** The same page 119 firings later: one second left. *)
Definition last_second_quiz : QuizPage.t * browser :=
  QuizPage.run (H := example_engine) quiz_server (VNum (num_of_Z 1))
    (replicate 119 QuizPage.IntervalFired) started_quiz.

(* ================================================================== *)
(** * Part II.  Properties                                              *)
(* ================================================================== *)

(** ** Strings *)

Lemma starts_with_spec (s p : jsstring) :
  starts_with s p = true ↔ ∃ post, s = p ++ post.
Proof.
  revert s. induction p as [|c p IH]; intros s.
  - destruct s; simpl; (split; [intros _; by eexists | done]).
  - destruct s as [|d s]; simpl.
    + split; [done | intros [post Hp]; discriminate].
    + rewrite andb_true_iff, bool_decide_eq_true, IH. split.
      * intros [-> [post ->]]. by exists post.
      * intros [post Hp]. injection Hp as -> ->. split; [done | by exists post].
Qed.

Lemma includes_spec (s p : jsstring) :
  includes s p = true ↔ ∃ pre post, s = pre ++ p ++ post.
Proof.
  induction s as [|d s IH].
  - cbn [includes]. rewrite orb_false_r, starts_with_spec. split.
    + intros [post Hp]. by exists [], post.
    + intros (pre & post & Hp). symmetry in Hp.
      apply app_eq_nil in Hp as [-> Hp]. apply app_eq_nil in Hp as [-> ->].
      by exists [].
  - cbn [includes]. rewrite orb_true_iff, starts_with_spec, IH. split.
    + intros [[post Hp] | (pre & post & ->)].
      * by exists [], post.
      * by exists (d :: pre), post.
    + intros (pre & post & Hp). destruct pre as [|e pre].
      * left. by exists post.
      * right. injection Hp as -> ->. by exists pre, post.
Qed.

Lemma strict_eq_string (s : jsstring) (v : jsval) :
  strict_eq (VStr s) v = true ↔ v = VStr s.
Proof.
  destruct v; simpl; try (split; [discriminate | discriminate]).
  rewrite bool_decide_eq_true. split; congruence.
Qed.

(** ** Arithmetic of the score *)

Lemma Qc_of_nat_nonzero (n : nat) : n ≠ 0%nat → Qc_of_Z (Z.of_nat n) ≠ 0.
Proof.
  intros Hn Heq. rewrite <- Z2Qc_inj_0 in Heq. apply Z2Qc_inj in Heq. lia.
Qed.

Lemma jsdiv_nat (c t : nat) :
  t ≠ 0%nat →
  jsdiv (num_of_nat c) (num_of_nat t) =
  Fin (Qc_of_Z (Z.of_nat c) / Qc_of_Z (Z.of_nat t)).
Proof.
  intros Ht. unfold jsdiv, num_of_nat, num_of_Z.
  destruct (decide (Qc_of_Z (Z.of_nat t) = 0)) as [Heq|]; [|done].
  by apply Qc_of_nat_nonzero in Heq.
Qed.

(** A ratio of counts, as a percentage, lies between 0 and 100. *)
Lemma percentage_bounds (c t : nat) :
  (c ≤ t)%nat → t ≠ 0%nat →
  0 ≤ Qc_of_Z (Z.of_nat c) / Qc_of_Z (Z.of_nat t) * Qc_of_Z 100 ∧
  Qc_of_Z (Z.of_nat c) / Qc_of_Z (Z.of_nat t) * Qc_of_Z 100 ≤ Qc_of_Z 100.
Proof.
  intros Hct Ht.
  assert (Hpos : 0 < Qc_of_Z (Z.of_nat t)).
  { rewrite <- Z2Qc_inj_0, <- Z2Qc_inj_lt. lia. }
  assert (Hc : 0 ≤ Qc_of_Z (Z.of_nat c)).
  { rewrite <- Z2Qc_inj_0, <- Z2Qc_inj_le. lia. }
  assert (Hle : Qc_of_Z (Z.of_nat c) ≤ Qc_of_Z (Z.of_nat t)).
  { rewrite <- Z2Qc_inj_le. lia. }
  assert (H100 : 0 ≤ Qc_of_Z 100).
  { rewrite <- Z2Qc_inj_0, <- Z2Qc_inj_le. lia. }
  assert (Hq0 : 0 ≤ Qc_of_Z (Z.of_nat c) / Qc_of_Z (Z.of_nat t)).
  { apply (Qcmult_lt_0_le_reg_r _ _ (Qc_of_Z (Z.of_nat t))); [done|].
    rewrite Qcmult_0_l, Qcmult_comm, Qcmult_div_r;
      [done | by apply Qc_of_nat_nonzero]. }
  assert (Hq1 : Qc_of_Z (Z.of_nat c) / Qc_of_Z (Z.of_nat t) ≤ 1).
  { apply (Qcmult_lt_0_le_reg_r _ _ (Qc_of_Z (Z.of_nat t))); [done|].
    rewrite Qcmult_1_l, Qcmult_comm, Qcmult_div_r;
      [done | by apply Qc_of_nat_nonzero]. }
  split.
  - by apply Qcmult_nonneg_nonneg.
  - rewrite <- (Qcmult_1_l (Qc_of_Z 100)) at 2.
    by apply Qcmult_le_compat_r.
Qed.

Lemma filter_all_true {A} (f : A → bool) (l : list A) :
  (∀ x, x ∈ l → f x = true) → List.filter f l = l.
Proof.
  induction l as [|a l IH]; intros Hall; [done|]. simpl.
  rewrite (Hall a) by left. f_equal. apply IH. intros x Hx. apply Hall.
  by right.
Qed.

Lemma filter_all_false {A} (f : A → bool) (l : list A) :
  (∀ x, x ∈ l → f x = false) → List.filter f l = [].
Proof.
  induction l as [|a l IH]; intros Hall; [done|]. simpl.
  rewrite (Hall a) by left. apply IH. intros x Hx. apply Hall. by right.
Qed.

(** ** Quiz grading in mock mode ([apiService.old.js]) *)

Section MockGrading.
Context `{!Engine}.
Variable net : request → outcome.
Variable moduleId : jsval.

Lemma Object_keys_length (answers : gmap nat jsstring) :
  length (OldApiService.Object_keys answers) = size answers.
Proof.
  unfold OldApiService.Object_keys. by rewrite length_fmap, length_map_to_list.
Qed.

Lemma Object_values_length (answers : gmap nat jsstring) :
  length (OldApiService.Object_values answers) = size answers.
Proof.
  unfold OldApiService.Object_values.
  by rewrite length_fmap, length_map_to_list.
Qed.

Lemma Object_values_elem (answers : gmap nat jsstring) (a : jsstring) :
  a ∈ OldApiService.Object_values answers ↔ ∃ i, answers !! i = Some a.
Proof.
  unfold OldApiService.Object_values. rewrite list_elem_of_fmap. split.
  - intros ([i b] & -> & Hin). exists i. by apply elem_of_map_to_list.
  - intros [i Hi]. exists (i, a). split; [done|].
    by apply elem_of_map_to_list.
Qed.

(** The mock branch does not touch the state and never throws; its score
    is the quotient of the two counts times 100, computed on numbers. *)
Lemma mock_submitQuiz_score (answers : gmap nat jsstring)
    (st : OldApiService.state) :
  ∃ result,
    OldApiService.submitQuiz true net moduleId answers st = (Normal result, st) ∧
    opt_get result (lit "score") =
      VNum (jsmul
              (jsdiv (num_of_nat (mock_correctCount answers))
                     (num_of_nat (size answers)))
              (num_of_Z 100)) ∧
    opt_get result (lit "correct_answers") =
      VNum (num_of_nat (mock_correctCount answers)) ∧
    opt_get result (lit "total_questions") = VNum (num_of_nat (size answers)).
Proof.
  eexists. split; [reflexivity|].
  unfold mock_correctCount. rewrite <- (Object_keys_length answers).
  repeat split.
Qed.

End MockGrading.

Section MockScore.
Context `{!Engine}.
Variable net : request → outcome.
Variable moduleId : jsval.

Lemma mock_correctCount_le (answers : gmap nat jsstring) :
  (mock_correctCount answers ≤ size answers)%nat.
Proof.
  unfold mock_correctCount. rewrite <- (Object_values_length answers).
  apply filter_length_le.
Qed.

(** For a non-empty answers object the score is the exact quotient of the
    number counted correct by the number of answers, times 100. *)
Lemma mock_score_nonempty (answers : gmap nat jsstring)
    (st : OldApiService.state) :
  answers ≠ ∅ →
  score_of (OldApiService.submitQuiz true net moduleId answers st).1 =
  VNum (Fin (Qc_of_Z (Z.of_nat (mock_correctCount answers)) /
             Qc_of_Z (Z.of_nat (size answers)) * Qc_of_Z 100)).
Proof.
  intros Hne. apply map_size_non_empty_iff in Hne.
  destruct (mock_submitQuiz_score net moduleId answers st)
    as (result & Hr & Hs & _).
  rewrite Hr. cbn [fst score_of]. rewrite Hs. by rewrite jsdiv_nat.
Qed.

(** When every answer is counted correct the score is 100. *)
Lemma mock_score_all_correct (answers : gmap nat jsstring)
    (st : OldApiService.state) :
  answers ≠ ∅ →
  (∀ i a, answers !! i = Some a → OldApiService.counted_correct a = true) →
  score_of (OldApiService.submitQuiz true net moduleId answers st).1 =
  VNum (num_of_Z 100).
Proof.
  intros Hne Hall. rewrite mock_score_nonempty by done.
  apply map_size_non_empty_iff in Hne.
  assert (mock_correctCount answers = size answers) as ->.
  { unfold mock_correctCount. rewrite filter_all_true.
    - apply Object_values_length.
    - intros a [i Hi]%Object_values_elem. eauto. }
  unfold num_of_Z. do 2 f_equal. field. by apply Qc_of_nat_nonzero.
Qed.

(** When no answer is counted correct the score is 0. *)
Lemma mock_score_all_incorrect (answers : gmap nat jsstring)
    (st : OldApiService.state) :
  answers ≠ ∅ →
  (∀ i a, answers !! i = Some a → OldApiService.counted_correct a = false) →
  score_of (OldApiService.submitQuiz true net moduleId answers st).1 =
  VNum (num_of_Z 0).
Proof.
  intros Hne Hall. rewrite mock_score_nonempty by done.
  apply map_size_non_empty_iff in Hne.
  assert (mock_correctCount answers = 0%nat) as ->.
  { unfold mock_correctCount. rewrite filter_all_false; [done|].
    intros a [i Hi]%Object_values_elem. eauto. }
  unfold num_of_Z. do 2 f_equal. change (Z.of_nat 0) with 0%Z.
  rewrite Z2Qc_inj_0. field. by apply Qc_of_nat_nonzero.
Qed.

(** For a non-empty answers object the score lies between 0 and 100. *)
Lemma mock_score_in_range (answers : gmap nat jsstring)
    (st : OldApiService.state) :
  answers ≠ ∅ →
  ∃ n, score_of (OldApiService.submitQuiz true net moduleId answers st).1 =
       VNum n ∧ in_percent_range n = true.
Proof.
  intros Hne. eexists. split; [by apply mock_score_nonempty|].
  apply map_size_non_empty_iff in Hne.
  destruct (percentage_bounds (mock_correctCount answers) (size answers))
    as [Hlo Hhi]; [apply mock_correctCount_le | done |].
  unfold in_percent_range, jsle, num_of_Z.
  by rewrite !bool_decide_eq_true_2.
Qed.

(** With the mock switched on, an empty answers object is graded
    [0 / 0 * 100]: the score is [NaN].  The file as committed has the mock
    switched off, and this branch does not run. *)
Lemma mock_score_of_empty_answers_is_NaN (st : OldApiService.state) :
  score_of (OldApiService.submitQuiz true net moduleId ∅ st).1 = VNum NaN ∧
  in_percent_range NaN = false.
Proof. split; reflexivity. Qed.

End MockScore.

(** ** How answers are compared *)

(** The mock grading counts an answer exactly when one of its three texts
    occurs in it. *)
Lemma counted_correct_spec (answer : jsstring) :
  OldApiService.counted_correct answer = true ↔
  ∃ needle pre post, needle ∈ mock_needles ∧ answer = pre ++ needle ++ post.
Proof.
  unfold OldApiService.counted_correct, mock_needles.
  rewrite !orb_true_iff, !includes_spec. split.
  - intros [[(pre & post & Hp) | (pre & post & Hp)] | (pre & post & Hp)];
      eexists _, pre, post; (split; [|exact Hp]); set_solver.
  - intros (needle & pre & post & Hin & Hp).
    apply elem_of_cons in Hin as [-> | Hin]; [left; left; eauto|].
    apply elem_of_cons in Hin as [-> | Hin]; [left; right; eauto|].
    apply list_elem_of_singleton in Hin as ->. right; eauto.
Qed.

Lemma feedback_texts_differ (s : jsstring) :
  LearningPage.wrong_feedback s ≠ LearningPage.correct_feedback.
Proof. discriminate. Qed.

Section AnswerComparison.
Context `{!Engine}.

(** C2, as amended.  The chat quiz of the learning page judges an answer
    correct exactly when it is the stored correct answer of the question,
    compared with [===]; the mock grading of the old service looks for
    three fixed texts inside the answer and never reads the stored
    answers. *)
Theorem answer_comparison_by_path
    (now : Z) (answer : jsstring) (questionId : nat) (p : LearningPage.t)
    (quiz_questions correct_answer : jsval) :
  LearningPage.quizMode p = true →
  get (TypeError (lit "Cannot read properties"))
      (LearningPage.module p) (lit "quiz_questions") = Normal quiz_questions →
  truthy quiz_questions = true →
  get (TypeError (lit "Cannot read properties"))
      (LearningPage.at_index quiz_questions questionId)
      (lit "correct_answer") = Normal correct_answer →
  (∃ p' feedback,
     LearningPage.handleAnswerSelect now answer questionId p = (Normal (), p') ∧
     LearningPage.quizAnswers p' =
       <[questionId := answer]> (LearningPage.quizAnswers p) ∧
     last (LearningPage.chatMessages p') = Some feedback ∧
     (LearningPage.message feedback = LearningPage.correct_feedback ↔
      correct_answer = VStr answer)) ∧
  (OldApiService.counted_correct answer = true ↔
   ∃ needle pre post,
     needle ∈ mock_needles ∧ answer = pre ++ needle ++ post).
Proof.
  intros Hmode Hqs Htruthy Hc.
  split; [|apply counted_correct_spec].
  pose proof (strict_eq_string answer correct_answer) as Hiff.
  unfold LearningPage.handleAnswerSelect.
  cbn [LearningPage.quizMode LearningPage.module].
  rewrite Hmode, Hqs, Htruthy, Hc.
  destruct (strict_eq (VStr answer) correct_answer).
  - eexists _, _. split; [reflexivity|].
    cbn [LearningPage.quizAnswers LearningPage.chatMessages].
    split; [done|]. split; [by rewrite last_app|].
    cbn [LearningPage.message]. split; [intros _; by apply Hiff | done].
  - eexists _, _. split; [reflexivity|].
    cbn [LearningPage.quizAnswers LearningPage.chatMessages].
    split; [done|]. split; [by rewrite last_app|].
    cbn [LearningPage.message]. split.
    + by intros ?%feedback_texts_differ.
    + intros Hcv. apply Hiff in Hcv. discriminate.
Qed.

End AnswerComparison.

Lemma answer_comparison_by_path_witness :
  (∃ p' feedback,
     LearningPage.handleAnswerSelect (H := example_engine) 0 (lit "List") 0
       example_learning_page = (Normal (), p') ∧
     LearningPage.quizAnswers p' =
       <[0%nat := lit "List"]> (LearningPage.quizAnswers example_learning_page) ∧
     last (LearningPage.chatMessages p') = Some feedback ∧
     (LearningPage.message feedback = LearningPage.correct_feedback ↔
      VStr (lit "List") = VStr (lit "List"))) ∧
  (OldApiService.counted_correct (lit "List") = true ↔
   ∃ needle pre post,
     needle ∈ mock_needles ∧ lit "List" = pre ++ needle ++ post).
Proof.
  apply (answer_comparison_by_path (H := example_engine) 0 (lit "List") 0
           example_learning_page
           (VArr (OldApiService.question_to_val <$>
                    OldApiService.quiz_questions OldApiService.mockModule3))
           (VStr (lit "List")));
    reflexivity.
Defined.

(** The claim C2 read on the mock grading fails on the mock data itself:
    ['List'] is the stored correct answer of the first question of the
    third mock module, and the mock grading does not count it. *)
Lemma mock_grading_misses_stored_answer :
  ¬ (OldApiService.counted_correct (lit "List") = true ↔
     Some (lit "List") =
       OldApiService.correct_answer <$>
         (OldApiService.quiz_questions OldApiService.mockModule3 !! 0%nat)).
Proof. intros [_ Hcounted]. by specialize (Hcounted eq_refl). Qed.


(** ** The HTTP client of [apiService.js] *)

Section Interceptors.
Variable net : request → outcome.

(** What one call through the axios instance does: the request leaves
    with the body, verb and URL given; a response is returned as it is; an
    error is thrown again as it is, after the logout and the redirection
    when its status is 401. *)
Lemma request_sent_fields (st : browser) (v : verb) (u : jsstring)
    (b : jsval) (rt : option jsstring) :
  method (request_sent st v u b rt) = v ∧
  url (request_sent st v u b rt) = u ∧
  body (request_sent st v u b rt) = b.
Proof.
  unfold request_sent, ApiService.request_interceptor, on_the_wire.
  destruct (getItem (lit "authToken") st) as [token|];
    [destruct (truthy (VStr token))|]; cbn [fst body]; by destruct b.
Qed.

Lemma api_outcome (v : verb) (u : jsstring) (b : jsval)
    (rt : option jsstring) (st : browser) :
  ApiService.api net v u b rt st =
  let config := request_sent st v u b rt in
  match net config with
  | Fulfilled response => (Normal response, record_request config st)
  | Rejected error =>
      (Throw error,
       if bool_decide (Response.status <$> Err.response error = Some 401%Z)
       then set_location (lit "/login")
              (removeItem (lit "authToken") (record_request config st))
       else record_request config st)
  end.
Proof.
  unfold request_sent, ApiService.api, ApiService.request_interceptor, mbind.
  destruct (getItem (lit "authToken") st) as [token|];
    [destruct (truthy (VStr token))|];
    cbn [modify fst];
    (match goal with |- context [net ?c] => destruct (net c) as [r|e] end;
     [reflexivity|]);
    cbn [ApiService.response_interceptor mbind];
    case_bool_decide; reflexivity.
Qed.

(** C3.  On any request, an error whose response has status 401 removes
    the stored ['authToken'], sends the browser to ['/login'] and is
    thrown again unchanged; any other error is thrown again unchanged and
    leaves the storage and the location alone, and so does a response. *)
Theorem unauthorized_response_forces_logout (v : verb) (u : jsstring)
    (b : jsval) (rt : option jsstring) (st : browser) :
  let config := request_sent st v u b rt in
    sent (ApiService.api net v u b rt st).2 = sent st ++ [config] ∧
    match net config with
    | Rejected error =>
        (ApiService.api net v u b rt st).1 = Throw error ∧
        if bool_decide (Response.status <$> Err.response error = Some 401%Z)
        then
          getItem (lit "authToken") (ApiService.api net v u b rt st).2 = None ∧
          location_href (ApiService.api net v u b rt st).2 = lit "/login" ∧
          (∀ k, k ≠ lit "authToken" →
                getItem k (ApiService.api net v u b rt st).2 = getItem k st)
        else
          localStorage (ApiService.api net v u b rt st).2 = localStorage st ∧
          location_href (ApiService.api net v u b rt st).2 = location_href st
    | Fulfilled response =>
        (ApiService.api net v u b rt st).1 = Normal response ∧
        localStorage (ApiService.api net v u b rt st).2 = localStorage st ∧
        location_href (ApiService.api net v u b rt st).2 = location_href st
    end.
Proof.
  rewrite api_outcome. cbn zeta.
  destruct (net (request_sent st v u b rt)) as [response|error].
  - done.
  - case_bool_decide; cbn.
    + split; [done|]. split; [done|]. split; [apply lookup_delete_eq|].
      split; [done|]. intros k Hk. unfold getItem. cbn.
      by apply lookup_delete_ne.
    + done.
Qed.

End Interceptors.

(** On the failing server of the examples a 401 logs the user out and a
    500 does not. *)
Example logout_on_401 :
  let st := setItem (lit "authToken") (lit "abc") fresh_browser in
  let st401 := (ApiService.api (server_fail 401 VNull) GET (lit "/x")
                  VUndefined None st).2 in
  let st500 := (ApiService.api (server_fail 500 VNull) GET (lit "/x")
                  VUndefined None st).2 in
  (getItem (lit "authToken") st401, location_href st401) = (None, lit "/login") ∧
  (getItem (lit "authToken") st500, location_href st500) =
  (Some (lit "abc"), lit "/").
Proof. split; reflexivity. Qed.

(** ** The methods of [apiService.js] *)

Section Methods.
Context `{!Engine}.
Variable net : request → outcome.
Variable filenameMatch : jsstring → option jsstring.
Variable stripQuotes : jsstring → jsstring.

(** The shape every method but the health check shares: what the [try]
    block throws reaches the caller through [_handleError]. *)
Lemma guarded_throw {A} (m : M browser A) (d : string) (st st' : browser)
    (e : Err.t) :
  try_catch_M m (ApiService.fail_with d) st = (Throw e, st') →
  ∃ error, m st = (Throw error, st') ∧
           e = ApiService._handleError error (VStr (lit d)).
Proof.
  unfold try_catch_M, ApiService.fail_with, throw.
  destruct (m st) as [[a|error] st1]; [discriminate|].
  intros [= <- <-]. by exists error.
Qed.

(** A method that returns [response.data] of one request. *)
Lemma data_method_outcome (d : string) (v : verb) (u : jsstring) (b : jsval)
    (rt : option jsstring) (st : browser) :
  try_catch_M
    (response <- ApiService.api net v u b rt ;; ret (Response.data response))
    (ApiService.fail_with d) st =
  let config := request_sent st v u b rt in
  match net config with
  | Fulfilled response =>
      (Normal (Response.data response), record_request config st)
  | Rejected error =>
      (Throw (ApiService._handleError error (VStr (lit d))),
       if bool_decide (Response.status <$> Err.response error = Some 401%Z)
       then set_location (lit "/login")
              (removeItem (lit "authToken") (record_request config st))
       else record_request config st)
  end.
Proof.
  unfold try_catch_M, mbind. rewrite api_outcome. cbn zeta.
  by destruct (net (request_sent st v u b rt)).
Qed.

Lemma jsor_left (a b : jsval) : truthy a = true → jsor a b = a.
Proof. unfold jsor. by intros ->. Qed.

Lemma jsor_right (a b : jsval) : truthy a = false → jsor a b = b.
Proof. unfold jsor. by intros ->. Qed.

(** The message of [new Error(v)] for a truthy [v]. *)
Lemma error_text_of_truthy (v : jsval) :
  truthy v = true →
  match v with
  | VUndefined => VStr []
  | _ => VStr (ToString v)
  end = VStr (ToString v).
Proof. by destruct v. Qed.

(** C4 (the code departs from the claim).  Whatever the arguments, the
    request of [generateModule] is a POST to [/api/v1/modules/generate]
    whose body has exactly the properties [prompt], [background_knowledge]
    and [user_id]: the [difficulty] and the [duration] received are not
    sent. *)
Theorem generateModule_drops_difficulty_and_duration
    (prompt difficulty duration backgroundKnowledge : jsval) (st : browser) :
  ∃ config,
    sent (ApiService.generateModule net prompt difficulty duration
            backgroundKnowledge st).2 = sent st ++ [config] ∧
    method config = POST ∧
    url config = lit "/api/v1/modules/generate" ∧
    body config =
      obj [("prompt", prompt);
           ("background_knowledge",
            default_arg (VStr []) backgroundKnowledge);
           ("user_id", VNull)] ∧
    opt_get (body config) (lit "difficulty") = VUndefined ∧
    opt_get (body config) (lit "duration") = VUndefined.
Proof.
  unfold ApiService.generateModule. rewrite data_method_outcome. cbn zeta.
  match goal with |- context [net ?c] => set (config := c) end.
  pose proof (request_sent_fields st POST (lit "/api/v1/modules/generate")
    (obj [("prompt", prompt);
          ("background_knowledge", default_arg (VStr []) backgroundKnowledge);
          ("user_id", VNull)]) None) as (Hm & Hu & Hb).
  exists config. fold config in Hm, Hu, Hb. rewrite Hm, Hu, Hb.
  split; [|done].
  destruct (net config) as [r|e]; [done|]. by case_bool_decide.
Qed.

(** The message, the status and the original error of what
    [_handleError] makes of an error and a default text. *)
Lemma _handleError_fields (error : Err.t) (defaultMessage : string) :
  let e := ApiService._handleError error (VStr (lit defaultMessage)) in
  let detail := opt_get (payload error) (lit "detail") in
  let message := opt_get (payload error) (lit "message") in
  (truthy detail = true → Err.message e = VStr (ToString detail)) ∧
  (truthy detail = false → truthy message = true →
   Err.message e = VStr (ToString message)) ∧
  (truthy detail = false → truthy message = false →
   truthy (Err.message error) = true →
   Err.message e = VStr (ToString (Err.message error))) ∧
  (truthy detail = false → truthy message = false →
   truthy (Err.message error) = false →
   Err.message e = VStr (lit defaultMessage)) ∧
  Err.status e = status_of error ∧
  Err.originalError e = Some error.
Proof.
  unfold ApiService._handleError.
  cbn [Err.message Err.status Err.originalError]. fold (payload error).
  repeat split; try done.
  - intros Hd. rewrite !(jsor_left _ _ Hd). by apply error_text_of_truthy.
  - intros Hd Hm. rewrite (jsor_right _ _ Hd), !(jsor_left _ _ Hm).
    by apply error_text_of_truthy.
  - intros Hd Hm He. rewrite (jsor_right _ _ Hd), (jsor_right _ _ Hm).
    rewrite (jsor_left _ _ He). by apply error_text_of_truthy.
  - intros Hd Hm He.
    by rewrite (jsor_right _ _ Hd), (jsor_right _ _ Hm), (jsor_right _ _ He).
Qed.

(** A method that returns [response.data] of one request throws only when
    the request is rejected, and then what [_handleError] makes of the
    rejection and of the default text of the method. *)
Lemma data_method_throw (d : string) (v : verb) (u : jsstring) (b : jsval)
    (rt : option jsstring) (st st' : browser) (e : Err.t) :
  try_catch_M
    (response <- ApiService.api net v u b rt ;; ret (Response.data response))
    (ApiService.fail_with d) st = (Throw e, st') →
  ∃ error config,
    sent st' = sent st ++ [config] ∧
    net config = Rejected error ∧
    e = ApiService._handleError error (VStr (lit d)).
Proof.
  rewrite data_method_outcome. cbn zeta.
  destruct (net (request_sent st v u b rt)) as [response|error] eqn:Hnet;
    [done|].
  intros [= <- <-]. exists error, (request_sent st v u b rt).
  split; [by case_bool_decide|done].
Qed.

(** C6.  An exception that leaves a method of the client is the error
    object that [_handleError] makes of the error the method has caught
    and of the default text of that method.  The error caught is the one
    with which the request of the call was rejected or, for [login] alone,
    the TypeError raised on a response without data.  The message of the
    exception is the [detail] of the payload of the error caught if that is
    truthy, else the [message] of the payload if that is truthy, else the
    message of the error caught if that is truthy, else the default text
    of the method; its [status] is the HTTP status of the response, if
    there was one; and its [originalError] is the error caught, payload
    included. *)
Theorem thrown_errors_are_normalized (c : ApiService.call)
    (st st' : browser) (e : Err.t) :
  ApiService.perform net filenameMatch stripQuotes c st = (Throw e, st') →
  ∃ (error : Err.t) (defaultMessage : string) (config : request),
    default_message c = Some defaultMessage ∧
    sent st' = sent st ++ [config] ∧
    (net config = Rejected error ∨
     ∃ email password response,
       c = ApiService.Login email password ∧
       net config = Fulfilled response ∧
       get (TypeError (lit "Cannot destructure property"))
           (Response.data response) (lit "access_token") = Throw error) ∧
    e = ApiService._handleError error (VStr (lit defaultMessage)) ∧
    let detail := opt_get (payload error) (lit "detail") in
    let message := opt_get (payload error) (lit "message") in
    (truthy detail = true → Err.message e = VStr (ToString detail)) ∧
    (truthy detail = false → truthy message = true →
     Err.message e = VStr (ToString message)) ∧
    (truthy detail = false → truthy message = false →
     truthy (Err.message error) = true →
     Err.message e = VStr (ToString (Err.message error))) ∧
    (truthy detail = false → truthy message = false →
     truthy (Err.message error) = false →
     Err.message e = VStr (lit defaultMessage)) ∧
    Err.status e = status_of error ∧
    Err.originalError e = Some error.
Proof.
  intros Hthrow.
  assert (∃ error d config,
            default_message c = Some d ∧
            sent st' = sent st ++ [config] ∧
            (net config = Rejected error ∨
             ∃ email password response,
               c = ApiService.Login email password ∧
               net config = Fulfilled response ∧
               get (TypeError (lit "Cannot destructure property"))
                   (Response.data response) (lit "access_token") =
                 Throw error) ∧
            e = ApiService._handleError error (VStr (lit d)))
    as (error & d & config & Hd & Hsent & Hcaught & ->).
  { destruct c; cbn [ApiService.perform] in Hthrow;
      try (apply data_method_throw in Hthrow
             as (error & config & Hsent & Hnet & ->);
           exists error; eexists _, config;
           split; [reflexivity|]; split; [exact Hsent|];
           split; [by left|reflexivity]).
    - (* login *)
      unfold ApiService.login, try_catch_M, mbind in Hthrow.
      rewrite api_outcome in Hthrow. cbn zeta in Hthrow.
      match type of Hthrow with
      | context [net ?r] => set (config := r) in Hthrow
      end.
      destruct (net config) as [response|error] eqn:Hnet.
      + unfold lift in Hthrow.
        destruct (get _ (Response.data response) _) as [token|error] eqn:Hget;
          [done|].
        injection Hthrow as <- <-.
        exists error; eexists _, config.
        split; [reflexivity|]. split; [done|].
        split; [|reflexivity]. right. by exists email, password, response.
      + injection Hthrow as <- <-.
        exists error; eexists _, config.
        split; [reflexivity|].
        split; [by case_bool_decide|]. split; [by left|reflexivity].
    - (* isAuthenticated *)
      unfold mbind, ApiService.isAuthenticated in Hthrow.
      destruct (getItem _ st) as [token|]; [|discriminate].
      destruct (negb _); [discriminate|].
      unfold try_catch in Hthrow. by destruct (bind _ _).
    - (* logout *) discriminate.
    - (* downloadModulePDF *)
      unfold ApiService.downloadModulePDF, try_catch_M, mbind in Hthrow.
      rewrite api_outcome in Hthrow. cbn zeta in Hthrow.
      match type of Hthrow with
      | context [net ?r] => set (config := r) in Hthrow
      end.
      destruct (net config) as [response|error] eqn:Hnet; [done|].
      injection Hthrow as <- <-.
      exists error; eexists _, config.
      split; [reflexivity|].
      split; [by case_bool_decide|]. split; [by left|reflexivity].
    - (* checkHealth *)
      unfold mbind, ApiService.checkHealth, try_catch_M in Hthrow.
      by destruct (mbind _ _ st) as [[?|?] ?]. }
  exists error, d, config.
  split; [done|]. split; [done|]. split; [done|]. split; [done|].
  apply _handleError_fields.
Qed.

End Methods.

Lemma thrown_errors_are_normalized_witness :
  ∃ e st',
    ApiService.perform (H := example_engine)
      (server_fail 422 (obj [("detail", VStr (lit "Invalid email"))]))
      (λ _, None) (λ s, s)
      (ApiService.Login (VStr (lit "a@b")) (VStr (lit "pw")))
      fresh_browser = (Throw e, st') ∧
    ∃ (error : Err.t) (defaultMessage : string) (config : request),
      default_message (ApiService.Login (VStr (lit "a@b")) (VStr (lit "pw"))) =
        Some defaultMessage ∧
      sent st' = sent fresh_browser ++ [config] ∧
      (server_fail 422 (obj [("detail", VStr (lit "Invalid email"))]) config =
         Rejected error ∨
       ∃ email password response,
         ApiService.Login (VStr (lit "a@b")) (VStr (lit "pw")) =
           ApiService.Login email password ∧
         server_fail 422 (obj [("detail", VStr (lit "Invalid email"))]) config =
           Fulfilled response ∧
         get (TypeError (lit "Cannot destructure property"))
             (Response.data response) (lit "access_token") = Throw error) ∧
      e = ApiService._handleError (H := example_engine) error
            (VStr (lit defaultMessage)) ∧
      let detail := opt_get (payload error) (lit "detail") in
      let message := opt_get (payload error) (lit "message") in
      (truthy detail = true →
       Err.message e = VStr (ToString (H := example_engine) detail)) ∧
      (truthy detail = false → truthy message = true →
       Err.message e = VStr (ToString (H := example_engine) message)) ∧
      (truthy detail = false → truthy message = false →
       truthy (Err.message error) = true →
       Err.message e =
       VStr (ToString (H := example_engine) (Err.message error))) ∧
      (truthy detail = false → truthy message = false →
       truthy (Err.message error) = false →
       Err.message e = VStr (lit defaultMessage)) ∧
      Err.status e = status_of error ∧
      Err.originalError e = Some error.
Proof.
  eexists _, _. split; [reflexivity|].
  eapply (thrown_errors_are_normalized (H := example_engine)
           (server_fail 422 (obj [("detail", VStr (lit "Invalid email"))]))
           (λ _, None) (λ s, s)
           (ApiService.Login (VStr (lit "a@b")) (VStr (lit "pw")))
           fresh_browser).
  reflexivity.
Defined.

(** The four sources of the message, in their order, on a failed login. *)
Example login_error_messages :
  let msg data err_message :=
    match (ApiService.login (H := example_engine)
             (λ _, Rejected (Err.mk err_message
                               (Some (Response.mk 400 data [])) VUndefined None))
             (VStr (lit "a@b")) (VStr (lit "pw")) fresh_browser).1 with
    | Throw e => Err.message e
    | Normal _ => VUndefined
    end in
  msg (obj [("detail", VStr (lit "D")); ("message", VStr (lit "M"))])
      (VStr (lit "T")) = VStr (lit "D") ∧
  msg (obj [("detail", VStr []); ("message", VStr (lit "M"))])
      (VStr (lit "T")) = VStr (lit "M") ∧
  msg VNull (VStr (lit "T")) = VStr (lit "T") ∧
  msg VNull VUndefined = VStr (lit "Login failed").
Proof. repeat split. Qed.

(** The call of the dashboard with a hard, hour-long module: the body sent
    has no difficulty and no duration. *)
Example generateModule_hard_60 :
  bodies (ApiService.generateModule (H := example_engine) (server_ok VNull)
            (VStr (lit "Python Lists")) (VStr (lit "hard"))
            (VNum (num_of_Z 60)) VUndefined fresh_browser).2 =
  [obj [("prompt", VStr (lit "Python Lists"));
        ("background_knowledge", VStr []);
        ("user_id", VNull)]].
Proof. reflexivity. Qed.

(** One call through the axios instance of the old service. *)
Lemma old_api_outcome (net : request → outcome) (v : verb) (u : jsstring)
    (b : jsval) (st : OldApiService.state) :
  OldApiService.api net v u b st =
  let config := request_sent (OldApiService.page st) v u b None in
  match net config with
  | Fulfilled response =>
      (Normal response, OldApiService.on_page (record_request config) st)
  | Rejected error =>
      (Throw error,
       if bool_decide (Response.status <$> Err.response error = Some 401%Z)
       then OldApiService.on_page (set_location (lit "/login"))
              (OldApiService.on_page (removeItem (lit "authToken"))
                 (OldApiService.on_page (record_request config) st))
       else OldApiService.on_page (record_request config) st)
  end.
Proof.
  unfold request_sent, OldApiService.api, OldApiService.request_interceptor,
    ApiService.request_interceptor, mbind.
  destruct (getItem (lit "authToken") (OldApiService.page st)) as [token|];
    [destruct (truthy (VStr token))|];
    cbn [modify fst];
    (match goal with |- context [net ?c] => destruct (net c) as [r|e] end;
     [reflexivity|]);
    cbn [OldApiService.response_interceptor mbind];
    case_bool_decide; reflexivity.
Qed.

(** The old service, for comparison, sends the difficulty and the duration
    it receives (and no background knowledge), after asking for the
    current user. *)
Lemma old_generateModule_sends_difficulty_and_duration `{!Engine}
    (net : request → outcome) (now : Z) (prompt : jsstring)
    (difficulty duration : jsval) (st : OldApiService.state)
    (user : Response.t) (user_id : jsval) :
  net (request_sent (OldApiService.page st) GET (lit "/api/v1/users/me")
         VUndefined None) = Fulfilled user →
  get (TypeError (lit "Cannot read properties"))
      (Response.data user) (lit "id") = Normal user_id →
  ∃ config,
    bodies (OldApiService.page
              (OldApiService.generateModule false net now prompt
                 difficulty duration st).2) =
      bodies (OldApiService.page st) ++ [VUndefined; body config] ∧
    url config = lit "/api/v1/modules/generate" ∧
    body config =
      obj [("user_id", user_id);
           ("prompt", VStr prompt);
           ("difficulty", default_arg (VStr (lit "medium")) difficulty);
           ("duration", default_arg (VNum (num_of_Z 30)) duration)].
Proof.
  intros Hme Hid.
  cbv beta iota zeta delta [OldApiService.generateModule
    OldApiService.getCurrentUser mbind default_arg].
  rewrite old_api_outcome. cbv zeta. rewrite Hme.
  cbv beta iota delta [ret lift]. rewrite Hid, old_api_outcome. cbv zeta.
  cbn [OldApiService.page OldApiService.on_page].
  match goal with |- context [net ?c] => set (config := c) end.
  exists config.
  assert (bodies (record_request config
                    (record_request
                       (request_sent (OldApiService.page st) GET
                          (lit "/api/v1/users/me") VUndefined None)
                       (OldApiService.page st))) =
          bodies (OldApiService.page st) ++ [VUndefined; body config]) as Hb.
  { unfold bodies. cbn [record_request sent]. rewrite !fmap_app.
    rewrite <- app_assoc. cbn [fmap list_fmap app].
    by destruct (request_sent_fields (OldApiService.page st) GET
                   (lit "/api/v1/users/me") VUndefined None) as (_ & _ & ->). }
  split.
  - destruct (net config) as [r|e]; [exact Hb|].
    case_bool_decide; exact Hb.
  - subst config. split; apply request_sent_fields.
Qed.

(** ** The score of a quiz submission

    The file as committed has the mock switched off: [submitQuiz] asks for
    the current user, posts the answers and returns what the server
    answers.  The grading is that of the quiz submission endpoint. *)

Section Grading.
Context `{!Engine}.
Variable net : request → outcome.
Variable feedback : jsnum → jsstring.









End Grading.


(** The scenario of the spec: one known-correct answer out of one question
    scores 100.  Two answers out of three are correct in the submission of
    the witness, and none in an empty submission. *)
Example one_correct_answer_out_of_one :
  let q := OldApiService.mkQuestion (lit "Which structure is mutable?")
             [lit "Tuple"; lit "List"] (lit "List") in
  match QuizEndpoint.grade example_feedback [q] {[0%nat := lit "List"]} with
  | Some result => opt_get result (lit "score")
  | None => VUndefined
  end = VNum (num_of_Z 100) ∧
  QuizEndpoint.correct_answers
    (OldApiService.quiz_questions OldApiService.mockModule3)
    {[0%nat := lit "List"; 1%nat := lit "Tuple"; 2%nat := lit "Set"]} = 2%nat ∧
  QuizEndpoint.correct_answers
    (OldApiService.quiz_questions OldApiService.mockModule3) ∅ = 0%nat.
Proof.
  split; [|split; reflexivity].
  change (VNum (Fin (Qc_of_Z 1 / Qc_of_Z 1 * Qc_of_Z 100)) =
          VNum (Fin (Qc_of_Z 100))).
  do 2 f_equal. by apply Qc_is_canon.
Qed.

(** ** Comparison of values *)

(** Values on which [===] is equality: everything but [NaN], arrays and
    objects. *)
Lemma strict_eq_spec (a b : jsval) :
  comparable b = true → (strict_eq a b = true ↔ a = b).
Proof.
  intros Hb. destruct a as [| |x|x|x|x|x], b as [| |y|y|y|y|y];
    try discriminate Hb; cbn; try (split; [discriminate|discriminate]);
    try done.
  - rewrite bool_decide_eq_true. split; congruence.
  - destruct x; try (rewrite bool_decide_eq_true; split; congruence).
    split; [discriminate|]. intros [= <-]. discriminate Hb.
  - rewrite bool_decide_eq_true. split; congruence.
Qed.

Lemma elem_of_List_filter {A} (f : A → bool) (l : list A) (x : A) :
  x ∈ List.filter f l ↔ x ∈ l ∧ f x = true.
Proof. by rewrite !list_elem_of_In, filter_In. Qed.

(** ** Deleting a module from the dashboard *)

Section Deletion.
Context `{!Engine}.
Variable net : request → outcome.

(** What a filter that returns has kept: elements of the list, in their
    order, on each of which the predicate returned [true]. *)
Lemma filter_throwing_Normal {A} (p : A → completion Err.t bool)
    (l r : list A) :
  Dashboard.filter_throwing p l = Normal r →
  r `sublist_of` l ∧ (∀ x, x ∈ r → p x = Normal true).
Proof.
  revert r. induction l as [|x l IH]; intros r; cbn [Dashboard.filter_throwing].
  - intros [= <-]. split; [done|]. by intros x ?%elem_of_nil.
  - destruct (p x) as [keep|e] eqn:Hp; cbn [bind]; [|done].
    destruct (Dashboard.filter_throwing p l) as [rest|e]; cbn [bind]; [|done].
    intros [= <-]. destruct (IH rest eq_refl) as [Hsub Hall].
    destruct keep.
    + split; [by apply sublist_skip|].
      intros y [->|Hy]%elem_of_cons; auto.
    + split; [by apply sublist_cons|done].
Qed.

(** A filter throws only on an element on which its predicate throws. *)
Lemma filter_throwing_Throw {A} (p : A → completion Err.t bool)
    (l : list A) (e : Err.t) :
  Dashboard.filter_throwing p l = Throw e → ∃ x, x ∈ l ∧ p x = Throw e.
Proof.
  induction l as [|x l IH]; cbn [Dashboard.filter_throwing]; [done|].
  destruct (p x) as [keep|e'] eqn:Hp; cbn [bind].
  - destruct (Dashboard.filter_throwing p l) as [rest|e']; cbn [bind]; [done|].
    intros [= ->]. destruct (IH eq_refl) as (y & Hy & Hpy).
    exists y. split; [by right|done].
  - intros [= ->]. exists x. split; [by left|done].
Qed.

(** What [filterModules] has done when it returns: the search, then the
    difficulty filter, and only the list displayed is set. *)
Lemma filterModules_Normal (d d' : Dashboard.t) :
  Dashboard.filterModules d = Normal d' →
  ∃ searched filtered,
    d' = Dashboard.setFilteredModules filtered d ∧
    (if truthy (VStr (Dashboard.searchTerm d))
     then Dashboard.filter_throwing
            (Dashboard.matches_search (Dashboard.searchTerm d))
            (Dashboard.modules d) = Normal searched
     else searched = Dashboard.modules d) ∧
    (if negb (strict_eq (VStr (Dashboard.filterDifficulty d))
                        (VStr (lit "all")))
     then Dashboard.filter_throwing
            (Dashboard.same_difficulty (Dashboard.filterDifficulty d))
            searched = Normal filtered
     else filtered = searched).
Proof.
  unfold Dashboard.filterModules. cbv zeta.
  set (search := if truthy (VStr (Dashboard.searchTerm d))
                 then Dashboard.filter_throwing
                        (Dashboard.matches_search (Dashboard.searchTerm d))
                        (Dashboard.modules d)
                 else Normal (Dashboard.modules d)).
  destruct search as [searched|e] eqn:Hsearch; cbn [bind]; [|done].
  set (filter := if negb (strict_eq (VStr (Dashboard.filterDifficulty d))
                                    (VStr (lit "all")))
                 then Dashboard.filter_throwing
                        (Dashboard.same_difficulty
                           (Dashboard.filterDifficulty d)) searched
                 else Normal searched).
  destruct filter as [filtered|e] eqn:Hfilter; cbn [bind]; [|done].
  intros [= <-]. exists searched, filtered. split; [done|].
  subst search filter. split.
  - destruct (truthy _); [done|]. by injection Hsearch.
  - destruct (negb _); [done|]. by injection Hfilter.
Qed.

Lemma filterModules_sublist (d d' : Dashboard.t) :
  Dashboard.filterModules d = Normal d' →
  Dashboard.modules d' = Dashboard.modules d ∧
  Dashboard.filteredModules d' `sublist_of` Dashboard.modules d.
Proof.
  intros (searched & filtered & -> & Hsearch & Hfilter)%filterModules_Normal.
  split; [done|]. cbn [Dashboard.filteredModules Dashboard.setFilteredModules].
  assert (searched `sublist_of` Dashboard.modules d) as Hs.
  { destruct (truthy _); [by apply filter_throwing_Normal in Hsearch as [? _]|].
    by subst. }
  destruct (negb _); [|by subst].
  apply filter_throwing_Normal in Hfilter as [Hf _]. by etrans.
Qed.

Lemma filter_effect_modules (d : Dashboard.t) :
  Dashboard.modules (Dashboard.filter_effect d) = Dashboard.modules d.
Proof.
  unfold Dashboard.filter_effect.
  destruct (Dashboard.filterModules d) as [d'|e] eqn:Hf; [|done].
  by apply filterModules_sublist in Hf as [? _].
Qed.

Lemma filter_effect_subset (d : Dashboard.t) (m : jsval) :
  m ∈ Dashboard.filteredModules (Dashboard.filter_effect d) →
  m ∈ Dashboard.modules d.
Proof.
  unfold Dashboard.filter_effect.
  destruct (Dashboard.filterModules d) as [d'|e] eqn:Hf.
  - apply filterModules_sublist in Hf as [_ Hsub]. intros Hm.
    by eapply sublist_submseteq, submseteq_Permutation in Hsub as [k ->];
      apply elem_of_app; left.
  - by intros ?%elem_of_nil.
Qed.

(** C7.  After the user has confirmed and [deleteModule] has succeeded,
    the module list holds, in their former order, exactly the modules of
    before whose id is not [===] to the id deleted, each one unchanged;
    the list displayed is drawn from it, so the deleted id is on neither.
    For an id that is a string or a number this is plain inequality of
    ids. *)
Theorem deleted_module_leaves_the_list (moduleId : jsval) (title : jsstring)
    (d : Dashboard.t) (br br' : browser) (r : jsval) :
  ApiService.deleteModule net moduleId br = (Normal r, br') →
  let d' := (Dashboard.handleDeleteModule net true moduleId title (d, br)).1 in
  (∀ m, m ∈ Dashboard.modules d' ↔
        m ∈ Dashboard.modules d ∧
        strict_eq (opt_get m (lit "id")) moduleId = false) ∧
  Dashboard.modules d' `sublist_of` Dashboard.modules d ∧
  (∀ m, m ∈ Dashboard.filteredModules d' →
        m ∈ Dashboard.modules d ∧
        strict_eq (opt_get m (lit "id")) moduleId = false) ∧
  (comparable moduleId = true →
   ∀ m, m ∈ Dashboard.modules d' ↔
        m ∈ Dashboard.modules d ∧ opt_get m (lit "id") ≠ moduleId).
Proof.
  intros Hdel d'. subst d'. unfold Dashboard.handleDeleteModule.
  cbn [fst snd]. rewrite Hdel. cbn [fst]. rewrite filter_effect_modules.
  cbn [Dashboard.modules Dashboard.setModules].
  assert (Hmem : ∀ m,
    m ∈ List.filter
          (λ module, negb (strict_eq (opt_get module (lit "id")) moduleId))
          (Dashboard.modules d) ↔
    m ∈ Dashboard.modules d ∧
    strict_eq (opt_get m (lit "id")) moduleId = false).
  { intros m. by rewrite elem_of_List_filter, negb_true_iff. }
  split; [exact Hmem|]. split.
  { generalize (Dashboard.modules d). intros l.
    induction l as [|x l IH]; [done|]. cbn [List.filter].
    destruct (negb _); [by apply sublist_skip | by apply sublist_cons]. }
  split.
  { intros m Hm. apply filter_effect_subset in Hm.
    cbn [Dashboard.modules Dashboard.setModules] in Hm. by apply Hmem. }
  intros Hcmp m. rewrite Hmem.
  pose proof (strict_eq_spec (opt_get m (lit "id")) moduleId Hcmp) as Hiff.
  destruct (strict_eq _ moduleId); split; intros [Hin Hne]; split; try done.
  - by destruct Hne; apply Hiff.
  - intros Heq. apply Hiff in Heq. discriminate.
Qed.

(** X1.  When the user declines, or the request fails, the list stays as
    it is. *)
Lemma failed_deletion_keeps_the_list (confirmed : bool) (moduleId : jsval)
    (title : jsstring) (d : Dashboard.t) (br br' : browser) (e : Err.t) :
  confirmed = false ∨
  ApiService.deleteModule net moduleId br = (Throw e, br') →
  Dashboard.modules
    (Dashboard.handleDeleteModule net confirmed moduleId title (d, br)).1 =
  Dashboard.modules d.
Proof.
  unfold Dashboard.handleDeleteModule. intros [-> | Hdel]; [done|].
  destruct confirmed; [|done]. cbn [snd]. by rewrite Hdel.
Qed.

End Deletion.

Lemma deleted_module_leaves_the_list_witness :
  let d' := (Dashboard.handleDeleteModule (H := example_engine)
               (server_ok VNull) true (VNum (num_of_Z 1)) (lit "One")
               (example_dashboard, fresh_browser)).1 in
  (∀ m, m ∈ Dashboard.modules d' ↔
        m ∈ Dashboard.modules example_dashboard ∧
        strict_eq (opt_get m (lit "id")) (VNum (num_of_Z 1)) = false) ∧
  Dashboard.modules d' `sublist_of` Dashboard.modules example_dashboard ∧
  (∀ m, m ∈ Dashboard.filteredModules d' →
        m ∈ Dashboard.modules example_dashboard ∧
        strict_eq (opt_get m (lit "id")) (VNum (num_of_Z 1)) = false) ∧
  (comparable (VNum (num_of_Z 1)) = true →
   ∀ m, m ∈ Dashboard.modules d' ↔
        m ∈ Dashboard.modules example_dashboard ∧
        opt_get m (lit "id") ≠ VNum (num_of_Z 1)).
Proof.
  eapply (deleted_module_leaves_the_list (H := example_engine)
            (server_ok VNull) (VNum (num_of_Z 1)) (lit "One")
            example_dashboard fresh_browser).
  reflexivity.
Defined.

(** The dashboard of the examples after the deletion of module 1. *)
Example delete_first_of_two :
  let d' := (Dashboard.handleDeleteModule (H := example_engine)
               (server_ok VNull) true (VNum (num_of_Z 1)) (lit "One")
               (example_dashboard, fresh_browser)).1 in
  Dashboard.modules d' = [example_module 2 "Two"] ∧
  Dashboard.filteredModules d' = [example_module 2 "Two"].
Proof. split; reflexivity. Qed.

(** ** Creating a module from the [EnhancedModules] form *)

Lemma forallb_trim_start (s : jsstring) :
  forallb is_white_space (trim_start s) = forallb is_white_space s.
Proof.
  induction s as [|c s IH]; [done|]. cbn [trim_start forallb].
  destruct (is_white_space c) eqn:Hc; [done|]. cbn [forallb]. by rewrite Hc.
Qed.

Lemma trim_start_nil (s : jsstring) :
  trim_start s = [] ↔ forallb is_white_space s = true.
Proof.
  induction s as [|c s IH]; [done|]. cbn [trim_start forallb].
  destruct (is_white_space c); [done|]. split; discriminate.
Qed.

Lemma forallb_rev {A} (f : A → bool) (l : list A) :
  forallb f (rev l) = forallb f l.
Proof.
  induction l as [|a l IH]; [done|]. cbn [rev forallb].
  rewrite forallb_app, IH. cbn [forallb]. rewrite andb_true_r.
  apply andb_comm.
Qed.

(** [trim] leaves nothing exactly of the strings made of white space,
    the empty string among them. *)
Lemma trim_nil (s : jsstring) :
  trim s = [] ↔ forallb is_white_space s = true.
Proof.
  unfold trim. rewrite <- (rev_involutive []) at 1. cbn [rev app].
  split.
  - intros Hrev. apply (f_equal (@rev N)) in Hrev.
    rewrite rev_involutive in Hrev. cbn [rev] in Hrev.
    apply trim_start_nil in Hrev.
    by rewrite forallb_rev, forallb_trim_start in Hrev.
  - intros Hall. apply trim_start_nil in Hall. by rewrite Hall.
Qed.

Section Creation.
Variable net : request → outcome.

(** C8.  With a topic that is empty or made of white space only,
    [createModule] reports ['Please enter a topic'] and does nothing else:
    no request leaves, and the list of modules, the form and the loading
    flag stay as they were. *)
Theorem blank_topic_is_rejected (c : EnhancedModules.t) (br : browser) :
  forallb is_white_space
    (EnhancedModules.topic (EnhancedModules.newModuleData c)) = true →
  let s' := EnhancedModules.createModule net (c, br) in
  EnhancedModules.error s'.1 = lit "Please enter a topic" ∧
  sent s'.2 = sent br ∧
  s'.2 = br ∧
  EnhancedModules.modules s'.1 = EnhancedModules.modules c ∧
  EnhancedModules.newModuleData s'.1 = EnhancedModules.newModuleData c ∧
  EnhancedModules.loading s'.1 = EnhancedModules.loading c ∧
  EnhancedModules.alerts s'.1 = EnhancedModules.alerts c.
Proof.
  intros Hblank%trim_nil s'. subst s'. unfold EnhancedModules.createModule.
  cbn [fst snd]. rewrite Hblank. done.
Qed.

(** A topic with something else than white space in it is sent, as it is,
    with the difficulty of the form. *)
Lemma nonblank_topic_is_sent (c : EnhancedModules.t) (br : browser) :
  forallb is_white_space
    (EnhancedModules.topic (EnhancedModules.newModuleData c)) = false →
  ∃ config,
    sent (EnhancedModules.createModule net (c, br)).2 = sent br ++ [config] ∧
    method config = POST ∧
    url config = lit "/api/v1/modules/generate" ∧
    body config = EnhancedModules.form_to_val (EnhancedModules.newModuleData c).
Proof.
  intros Hnb. unfold EnhancedModules.createModule. cbn [fst snd].
  destruct (trim _) as [|x t] eqn:Htrim.
  { apply trim_nil in Htrim. congruence. }
  cbn [truthy negb bool_decide decide_rel]. 
  match goal with |- context [net ?r] => set (config := r) end.
  exists config. split; [|done].
  destruct (net config) as [r|e]; [|done].
  destruct (get _ _ _); [|done]. by destruct (truthy _).
Qed.

End Creation.

Lemma blank_topic_is_rejected_witness :
  let c := EnhancedModules.mk [] false []
             (EnhancedModules.mkForm (lit "   ") (lit "Advanced")) true [] in
  let s' := EnhancedModules.createModule network_down (c, fresh_browser) in
  EnhancedModules.error s'.1 = lit "Please enter a topic" ∧
  sent s'.2 = sent fresh_browser ∧
  s'.2 = fresh_browser ∧
  EnhancedModules.modules s'.1 = EnhancedModules.modules c ∧
  EnhancedModules.newModuleData s'.1 = EnhancedModules.newModuleData c ∧
  EnhancedModules.loading s'.1 = EnhancedModules.loading c ∧
  EnhancedModules.alerts s'.1 = EnhancedModules.alerts c.
Proof.
  apply (blank_topic_is_rejected network_down
           (EnhancedModules.mk [] false []
              (EnhancedModules.mkForm (lit "   ") (lit "Advanced")) true [])
           fresh_browser).
  reflexivity.
Defined.

(** ** The two ways of asking for a module *)

Lemma dashboard_form_difficulty (es : list Dashboard.form_event)
    (f : Dashboard.form) :
  Dashboard.difficulty f ∈ dashboard_vocabulary →
  Dashboard.difficulty (foldl (λ f e, Dashboard.on_form_event e f) f es)
    ∈ dashboard_vocabulary.
Proof.
  revert f. induction es as [|e es IH]; intros f Hf; [done|].
  cbn [foldl]. apply IH. destruct e as [text|o|n]; [done| |done].
  cbn [Dashboard.on_form_event Dashboard.difficulty].
  unfold dashboard_vocabulary. cbn [fmap list_fmap].
  destruct o; eauto using list_elem_of_here, list_elem_of_further.
Qed.

Lemma enhanced_form_difficulty (es : list EnhancedModules.form_event)
    (f : EnhancedModules.form) :
  EnhancedModules.difficulty f ∈ enhanced_vocabulary →
  EnhancedModules.difficulty
    (foldl (λ f e, EnhancedModules.on_form_event e f) f es)
    ∈ enhanced_vocabulary.
Proof.
  revert f. induction es as [|e es IH]; intros f Hf; [done|].
  cbn [foldl]. apply IH. destruct e as [text|o]; [done|].
  cbn [EnhancedModules.on_form_event EnhancedModules.difficulty].
  unfold enhanced_vocabulary. cbn [fmap list_fmap].
  destruct o; eauto using list_elem_of_here, list_elem_of_further.
Qed.

Lemma vocabularies_disjoint (x : jsstring) :
  x ∈ dashboard_vocabulary → x ∉ enhanced_vocabulary.
Proof.
  unfold dashboard_vocabulary, enhanced_vocabulary. cbn.
  rewrite !elem_of_cons, !elem_of_nil.
  intros [-> | [-> | [-> | []]]]; intros [H | [H | [H | []]]]; discriminate.
Qed.

Section TwoClients.
Context `{!Engine}.
Variable net : request → outcome.
Variable net' : request → outcome.

Lemma data_method_sent (d : string) (v : verb) (u : jsstring) (b : jsval)
    (rt : option jsstring) (st : browser) :
  sent (try_catch_M
          (response <- ApiService.api net v u b rt ;;
           ret (Response.data response))
          (ApiService.fail_with d) st).2 =
  sent st ++ [request_sent st v u b rt].
Proof.
  rewrite data_method_outcome. cbn zeta.
  destruct (net _) as [r|e]; [done|]. by case_bool_decide.
Qed.

(** The dashboard sends its form through [generateModule]: the first
    request it makes is that one. *)
Lemma handleCreateModule_sent (d : Dashboard.t) (br : browser) :
  ∃ rest,
    sent (Dashboard.handleCreateModule net (d, br)).2 =
    sent br ++
    request_sent br POST (lit "/api/v1/modules/generate")
      (obj [("prompt", VStr (Dashboard.prompt (Dashboard.newModuleForm d)));
            ("background_knowledge", VStr []);
            ("user_id", VNull)]) None :: rest.
Proof.
  unfold Dashboard.handleCreateModule. cbn [fst snd].
  cbn [Dashboard.newModuleForm Dashboard.setCreateLoading].
  unfold ApiService.generateModule. cbn [default_arg].
  pose proof (data_method_sent "Failed to generate module" POST
                (lit "/api/v1/modules/generate")
                (obj [("prompt",
                       VStr (Dashboard.prompt (Dashboard.newModuleForm d)));
                      ("background_knowledge", VStr []);
                      ("user_id", VNull)]) None br) as Hsent.
  destruct (try_catch_M _ _ br) as [[response|e] br1]; cbn [snd] in Hsent.
  - destruct (get _ response _) as [success|e]; [|exists []; exact Hsent].
    destruct (truthy success && _); cbn [snd]; [exists []; exact Hsent|].
    unfold Dashboard.loadModules, ApiService.getUserModules. cbn [fst snd].
    pose proof (data_method_sent "Failed to fetch user modules" GET
                  (lit "/api/v1/modules") VUndefined None br1) as Hsent'.
    destruct (try_catch_M _ _ br1) as [[data|e] br2]; cbn [snd] in *;
      rewrite Hsent', Hsent, <- app_assoc; eexists; reflexivity.
  - exists []. exact Hsent.
Qed.

(** C9.  Whatever is typed and selected in the two forms, the dashboard
    asks for a module with a body whose properties are [prompt],
    [background_knowledge] and [user_id], its difficulty (one of [easy],
    [medium], [hard]) and its duration staying behind, while
    [EnhancedModules] asks with a body whose properties are [topic] and
    [difficulty], the latter one of [Beginner], [Intermediate],
    [Advanced]; the two vocabularies share no word and the two bodies are
    never the same. *)
Theorem services_disagree_on_payload
    (es : list Dashboard.form_event) (es' : list EnhancedModules.form_event)
    (d : Dashboard.t) (c : EnhancedModules.t) (br br' : browser) :
  let f := foldl (λ f e, Dashboard.on_form_event e f)
             Dashboard.initial_form es in
  let g := foldl (λ g e, EnhancedModules.on_form_event e g)
             EnhancedModules.initial_form es' in
  Dashboard.newModuleForm d = f →
  EnhancedModules.newModuleData c = g →
  forallb is_white_space (EnhancedModules.topic g) = false →
  ∃ (sentD sentE : request) (rest : list request),
    sent (Dashboard.handleCreateModule net (d, br)).2 =
      sent br ++ sentD :: rest ∧
    sent (EnhancedModules.createModule net' (c, br')).2 = sent br' ++ [sentE] ∧
    url sentD = lit "/api/v1/modules/generate" ∧
    url sentE = lit "/api/v1/modules/generate" ∧
    keys (body sentD) =
      [lit "prompt"; lit "background_knowledge"; lit "user_id"] ∧
    opt_get (body sentD) (lit "prompt") = VStr (Dashboard.prompt f) ∧
    Dashboard.difficulty f ∈ dashboard_vocabulary ∧
    keys (body sentE) = [lit "topic"; lit "difficulty"] ∧
    opt_get (body sentE) (lit "topic") = VStr (EnhancedModules.topic g) ∧
    opt_get (body sentE) (lit "difficulty") =
      VStr (EnhancedModules.difficulty g) ∧
    EnhancedModules.difficulty g ∈ enhanced_vocabulary ∧
    (Dashboard.difficulty f ∉ enhanced_vocabulary) ∧
    body sentD ≠ body sentE.
Proof.
  intros f g Hf Hg Hnb.
  destruct (handleCreateModule_sent d br) as [rest HsentD].
  destruct (nonblank_topic_is_sent net' c br') as (sentE & HsentE & _ & Hu & Hb).
  { by rewrite Hg. }
  rewrite Hf in HsentD. rewrite Hg in Hb.
  eexists _, sentE, rest. split; [exact HsentD|]. split; [exact HsentE|].
  destruct (request_sent_fields br POST (lit "/api/v1/modules/generate")
    (obj [("prompt", VStr (Dashboard.prompt f));
          ("background_knowledge", VStr []);
          ("user_id", VNull)]) None) as (_ & HuD & HbD).
  rewrite HuD, HbD, Hu, Hb.
  assert (Hdv : Dashboard.difficulty f ∈ dashboard_vocabulary).
  { apply dashboard_form_difficulty. unfold dashboard_vocabulary.
    cbn [fmap list_fmap].
    eauto using list_elem_of_here, list_elem_of_further. }
  repeat split; try done.
  - apply enhanced_form_difficulty. unfold enhanced_vocabulary.
    cbn [fmap list_fmap].
    eauto using list_elem_of_here, list_elem_of_further.
  - by apply vocabularies_disjoint.
Qed.

End TwoClients.

Lemma services_disagree_on_payload_witness :
  let es := [Dashboard.EditPrompt (lit "Python Lists");
             Dashboard.SelectDifficulty Dashboard.hard] in
  let es' := [EnhancedModules.EditTopic (lit "Python Lists");
              EnhancedModules.SelectDifficulty EnhancedModules.Advanced] in
  let f := foldl (λ f e, Dashboard.on_form_event e f)
             Dashboard.initial_form es in
  let g := foldl (λ g e, EnhancedModules.on_form_event e g)
             EnhancedModules.initial_form es' in
  let d := Dashboard.mk [] [] false [] (lit "all") true false f [] None in
  let c := EnhancedModules.mk [] false [] g true [] in
  ∃ (sentD sentE : request) (rest : list request),
    sent (Dashboard.handleCreateModule (H := example_engine)
            (server_ok VNull) (d, fresh_browser)).2 =
      sent fresh_browser ++ sentD :: rest ∧
    sent (EnhancedModules.createModule (server_ok VNull)
            (c, fresh_browser)).2 = sent fresh_browser ++ [sentE] ∧
    url sentD = lit "/api/v1/modules/generate" ∧
    url sentE = lit "/api/v1/modules/generate" ∧
    keys (body sentD) =
      [lit "prompt"; lit "background_knowledge"; lit "user_id"] ∧
    opt_get (body sentD) (lit "prompt") = VStr (Dashboard.prompt f) ∧
    Dashboard.difficulty f ∈ dashboard_vocabulary ∧
    keys (body sentE) = [lit "topic"; lit "difficulty"] ∧
    opt_get (body sentE) (lit "topic") = VStr (EnhancedModules.topic g) ∧
    opt_get (body sentE) (lit "difficulty") =
      VStr (EnhancedModules.difficulty g) ∧
    EnhancedModules.difficulty g ∈ enhanced_vocabulary ∧
    (Dashboard.difficulty f ∉ enhanced_vocabulary) ∧
    body sentD ≠ body sentE.
Proof.
  intros es es' f g d c.
  apply (services_disagree_on_payload (H := example_engine)
           (server_ok VNull) (server_ok VNull) es es' d c
           fresh_browser fresh_browser); reflexivity.
Defined.

(** The two bodies for the same wish, a hard module on Python lists. *)
Example same_wish_two_bodies :
  bodies (Dashboard.handleCreateModule (H := example_engine)
            (server_ok (obj [("success", VBool true);
                             ("module", example_module 7 "Python Lists")]))
            (Dashboard.mk [] [] false [] (lit "all") true false
               (Dashboard.mkForm (lit "Python Lists") (lit "hard")
                  (VNum (num_of_Z 60))) [] None,
             fresh_browser)).2 =
  [obj [("prompt", VStr (lit "Python Lists"));
        ("background_knowledge", VStr []);
        ("user_id", VNull)]] ∧
  bodies (EnhancedModules.createModule (server_ok VNull)
            (EnhancedModules.mk [] false []
               (EnhancedModules.mkForm (lit "Python Lists") (lit "Advanced"))
               true [],
             fresh_browser)).2 =
  [obj [("topic", VStr (lit "Python Lists"));
        ("difficulty", VStr (lit "Advanced"))]].
Proof. split; reflexivity. Qed.

(** ** The token check *)

Section TokenCheck.
Context `{!Engine}.

(** C10.  [isAuthenticated] returns a Boolean whatever is stored, without
    throwing and without changing anything; it returns [true] exactly when
    a non-empty token is stored, its second dot-separated segment decodes
    and parses, the payload is neither [null] nor [undefined], and the
    [exp] of the payload times 1000 is greater than the current time. *)
Theorem isAuthenticated_total_and_sound (now : Z) (st : browser) :
  ∃ b : bool,
    ApiService.isAuthenticated now st = (Normal b, st) ∧
    (b = true ↔
     ∃ (token text : jsstring) (payload : jsval),
       getItem (lit "authToken") st = Some token ∧
       token ≠ [] ∧
       atob (ToString (index_or_undefined (split 46 token) 1)) = Normal text ∧
       JSON_parse text = Normal payload ∧
       payload ≠ VNull ∧ payload ≠ VUndefined ∧
       jsgt (jsmul (ToNumber (opt_get payload (lit "exp"))) (num_of_Z 1000))
            (num_of_Z now) = true).
Proof.
  unfold ApiService.isAuthenticated.
  destruct (getItem (lit "authToken") st) as [token|] eqn:Htoken; cycle 1.
  { exists false. split; [done|]. split; [done|].
    by intros (? & ? & ? & ? & _). }
  destruct token as [|c token]; cbn [truthy negb bool_decide decide_rel].
  { exists false. split; [done|]. split; [done|].
    intros (? & ? & ? & [= <-] & Hne & _). done. }
  cbn [negb].
  destruct (atob _) as [text|e] eqn:Hatob; cbn [bind try_catch]; cycle 1.
  { exists false. split; [done|]. split; [done|].
    intros (? & ? & ? & [= <-] & _ & Ha & _). congruence. }
  destruct (JSON_parse text) as [payload|e] eqn:Hparse;
    cbn [bind try_catch]; cycle 1.
  { exists false. split; [done|]. split; [done|].
    intros (? & ? & ? & [= <-] & _ & Ha & Hp & _). congruence. }
  assert ((payload = VNull ∨ payload = VUndefined) ∨
          (payload ≠ VNull ∧ payload ≠ VUndefined ∧
           get (TypeError (lit "Cannot read properties")) payload (lit "exp") =
           Normal (opt_get payload (lit "exp"))))
    as [Hnull | (Hn1 & Hn2 & ->)].
  { destruct payload; auto; right; done. }
  { exists false. split; [by destruct Hnull as [-> | ->]|]. split; [done|].
    intros (? & ? & ? & [= <-] & _ & Ha & Hp & Hn1 & Hn2 & _).
    rewrite Hatob in Ha. injection Ha as <-. rewrite Hparse in Hp.
    injection Hp as <-. tauto. }
  cbn [bind try_catch]. eexists. split; [reflexivity|]. split.
  - intros Hgt. exists (c :: token), text, payload.
    repeat split; done.
  - intros (? & ? & ? & [= <-] & _ & Ha & Hp & _ & _ & Hgt).
    rewrite Hatob in Ha. injection Ha as <-. rewrite Hparse in Hp.
    by injection Hp as <-.
Qed.

End TokenCheck.

(** The check on the engine of the examples, with the token whose payload
    is [{"exp":2000}]: valid before second 2000, expired from then on, and
    [false] for a token without a dot, for an empty one and for none. *)
Example isAuthenticated_examples :
  let check (tok : gmap jsstring jsstring) (now : Z) :=
    (ApiService.isAuthenticated (H := example_engine) now
       (mkBrowser tok (lit "/") [])).1 in
  check {[lit "authToken" := lit "h.eyJleHAiOjIwMDB9.s"]} 1999999%Z = Normal true ∧
  check {[lit "authToken" := lit "h.eyJleHAiOjIwMDB9.s"]} 2000000%Z = Normal false ∧
  check {[lit "authToken" := lit "garbage"]} 0%Z = Normal false ∧
  check {[lit "authToken" := []]} 0%Z = Normal false ∧
  check ∅ 0%Z = Normal false.
Proof. repeat split. Qed.

(** ** The countdown of the quiz page *)

Section Countdown.
Context `{!Engine}.
Variable net : request → outcome.
Variable moduleId : jsval.

Lemma timer_set_timer (i : option QuizPage.interval) (q : QuizPage.t) :
  QuizPage.timer (QuizPage.set_timer i q) = i.
Proof. reflexivity. Qed.

Lemma running_set_timer (i : option QuizPage.interval) (q : QuizPage.t) :
  QuizPage.running (QuizPage.set_timer i q) = QuizPage.running q.
Proof. reflexivity. Qed.

Lemma timeLeft_timer_effect (before after : QuizPage.t) :
  QuizPage.timeLeft (QuizPage.timer_effect before after) =
  QuizPage.timeLeft after.
Proof. unfold QuizPage.timer_effect. by case_bool_decide. Qed.

Lemma timeLeft_tick (i : QuizPage.interval) (s : QuizPage.t * browser) :
  QuizPage.timeLeft (QuizPage.tick net moduleId i s).1 =
  Some (if bool_decide (default 0 (QuizPage.timeLeft s.1) ≤ 1)%Z then 0
        else default 0 (QuizPage.timeLeft s.1) - 1)%Z.
Proof. reflexivity. Qed.

Lemma timer_effect_ok (before after : QuizPage.t) :
  timer_ok before → timer_ok (QuizPage.timer_effect before after).
Proof.
  unfold QuizPage.timer_effect, timer_ok. intros Hok.
  case_bool_decide as Hdeps; rewrite timer_set_timer, running_set_timer.
  - destruct Hdeps as (Hs & Ht & Hsub).
    assert (QuizPage.running after = QuizPage.running before) as ->.
    { unfold QuizPage.running. by rewrite Hs, Ht, Hsub. }
    done.
  - by destruct (QuizPage.running after).
Qed.

(** While the page is mounted, an interval is set exactly when the quiz is
    started, has time left and is not submitted. *)
Lemma step_timer_ok (e : QuizPage.event) (s : QuizPage.t * browser) :
  e ≠ QuizPage.Unmount → timer_ok s.1 →
  timer_ok (QuizPage.step net moduleId e s).1.
Proof.
  intros He Hok. unfold QuizPage.step.
  destruct e; try done; cbn [fst]; by apply timer_effect_ok.
Qed.

(** X2.  Along any run of a mounted page that starts with the interval in
    step with the state, an interval is set exactly when the quiz is
    started, has time left and is not submitted, and it fires every
    second. *)
Lemma run_timer_ok (es : list QuizPage.event) (s : QuizPage.t * browser) :
  Forall (λ e, e ≠ QuizPage.Unmount) es → timer_ok s.1 →
  timer_ok (QuizPage.run net moduleId es s).1.
Proof.
  unfold QuizPage.run. revert s.
  induction es as [|e es IH]; intros s Hes Hok; [done|].
  apply Forall_cons in Hes as [He Hes]. cbn [foldl].
  apply IH; [done|]. by apply step_timer_ok.
Qed.

(** Each time the interval fires on a running quiz, the time left goes
    down by one. *)
Lemma interval_counts_down (s : QuizPage.t * browser) (n : Z) :
  timer_ok s.1 → QuizPage.running s.1 = true →
  QuizPage.timeLeft s.1 = Some n →
  QuizPage.timeLeft (QuizPage.step net moduleId QuizPage.IntervalFired s).1 =
  Some (n - 1)%Z.
Proof.
  unfold timer_ok. intros Hok Hrun Hn. unfold QuizPage.step.
  destruct (QuizPage.timer s.1) as [i|] eqn:Hi; [|congruence].
  unfold QuizPage.running in Hrun. rewrite Hn in Hrun.
  apply andb_true_iff in Hrun as [[_ Hpos%bool_decide_eq_true]%andb_true_iff _].
  cbn [fst]. rewrite timeLeft_timer_effect, timeLeft_tick, Hn.
  cbn [default from_option]. unfold id.
  f_equal. case_bool_decide; lia.
Qed.

(** [handleSubmit] sends the answers it was created with. *)
Lemma bodies_handleSubmit (seen : gmap nat jsstring)
    (s : QuizPage.t * browser) :
  bodies (QuizPage.handleSubmit net moduleId seen s).2 =
  bodies s.2 ++ [obj [("answers", answers_to_val seen)]].
Proof.
  unfold QuizPage.handleSubmit, ApiService.submitQuiz.
  pose proof (data_method_sent net "Failed to submit quiz" POST
    (lit "/api/v1/modules/" ++ ToString moduleId ++ lit "/quiz/submit")
    (obj [("answers", answers_to_val seen)]) None s.2) as Hsent.
  pose proof (request_sent_fields s.2 POST
    (lit "/api/v1/modules/" ++ ToString moduleId ++ lit "/quiz/submit")
    (obj [("answers", answers_to_val seen)]) None) as (_ & _ & Hbody).
  destruct (try_catch_M _ _ s.2) as [[r|e] br]; cbn [fst snd] in *;
    unfold bodies; rewrite Hsent, fmap_app; cbn [fmap list_fmap];
    by rewrite Hbody.
Qed.

(** When the interval fires with one second left, the quiz is submitted
    with the answers that the callback closed over, those of the render
    that set the interval, whatever has been answered since; and the
    interval is cleared. *)
Lemma expiry_submits_what_the_callback_saw (s : QuizPage.t * browser)
    (i : QuizPage.interval) :
  QuizPage.timer s.1 = Some i → QuizPage.timeLeft s.1 = Some 1%Z →
  let s' := QuizPage.step net moduleId QuizPage.IntervalFired s in
  bodies s'.2 =
    bodies s.2 ++ [obj [("answers", answers_to_val (QuizPage.closed_over i))]] ∧
  QuizPage.timeLeft s'.1 = Some 0%Z ∧
  QuizPage.timer s'.1 = None.
Proof.
  intros Hi Hn s'. subst s'.
  assert (QuizPage.step net moduleId QuizPage.IntervalFired s =
          (QuizPage.timer_effect s.1 (QuizPage.tick net moduleId i s).1,
           (QuizPage.tick net moduleId i s).2)) as ->.
  { unfold QuizPage.step. by rewrite Hi. }
  cbn [fst snd]. split; [|split].
  - unfold QuizPage.tick. rewrite Hn. cbn [default from_option]. unfold id.
    rewrite bool_decide_eq_true_2 by done. cbn [snd].
    apply bodies_handleSubmit.
  - by rewrite timeLeft_timer_effect, timeLeft_tick, Hn.
  - pose proof (timeLeft_tick i s) as Ht. rewrite Hn in Ht.
    cbn [default from_option] in Ht. unfold id in Ht.
    rewrite bool_decide_eq_true_2 in Ht by done.
    unfold QuizPage.timer_effect. case_bool_decide as Hdeps.
    + destruct Hdeps as (_ & Hsame & _). rewrite Hn, Ht in Hsame.
      discriminate.
    + rewrite timer_set_timer. unfold QuizPage.running. rewrite Ht.
      rewrite bool_decide_eq_false_2 by lia. by rewrite andb_false_r.
Qed.

(** Once the quiz is submitted no interval is left, and none is left after
    the page is unmounted. *)
Lemma interval_cleared_on_submission (e : QuizPage.event)
    (s : QuizPage.t * browser) :
  e ≠ QuizPage.Unmount → timer_ok s.1 →
  QuizPage.submitted (QuizPage.step net moduleId e s).1 = true →
  QuizPage.timer (QuizPage.step net moduleId e s).1 = None.
Proof.
  intros He Hok Hsub. pose proof (step_timer_ok e s He Hok) as Hok'.
  unfold timer_ok in Hok'.
  destruct (QuizPage.timer _) as [i|]; [|done].
  destruct Hok' as [Hrun _]. unfold QuizPage.running in Hrun.
  rewrite Hsub in Hrun. by rewrite andb_false_r in Hrun.
Qed.

Lemma interval_cleared_on_unmount (s : QuizPage.t * browser) :
  QuizPage.timer (QuizPage.step net moduleId QuizPage.Unmount s).1 = None.
Proof. reflexivity. Qed.

(** The answers that a click on the submit button sends are those
    collected so far. *)
Lemma click_submits_the_answers (s : QuizPage.t * browser) :
  bodies (QuizPage.step net moduleId QuizPage.SubmitClicked s).2 =
  bodies s.2 ++ [obj [("answers", answers_to_val (QuizPage.answers s.1))]].
Proof. unfold QuizPage.step. cbn [snd]. apply bodies_handleSubmit. Qed.

End Countdown.

(** C5 (the code departs from the claim).  On a quiz of one question, let
    the countdown run from 120 to 1, pick an answer, and let the interval
    fire once more.  The time is then up and the quiz is submitted, but
    with the answers as they were when the interval was set, a second
    earlier: the body sent has no answer, while one had been collected. *)
Theorem timeout_submits_stale_answers :
  let s := QuizPage.run (H := example_engine) quiz_server (VNum (num_of_Z 1))
             last_second_answer (QuizPage.initial, fresh_browser) in
  QuizPage.answers s.1 = {[0%nat := lit "Option A"]} ∧
  QuizPage.timeLeft s.1 = Some 0%Z ∧
  QuizPage.submitted s.1 = true ∧
  QuizPage.timer s.1 = None ∧
  last (bodies s.2) = Some (obj [("answers", VObj [])]) ∧
  answers_to_val (H := example_engine) (QuizPage.answers s.1) =
    VObj [(lit "0", VStr (lit "Option A"))].
Proof. vm_compute. repeat split. Qed.

(** Without that late answer the same run submits what was collected. *)
Example timeout_without_late_answer :
  let s := QuizPage.run (H := example_engine) quiz_server (VNum (num_of_Z 1))
             ([QuizPage.Loaded; QuizPage.StartQuiz;
               QuizPage.SelectAnswer 0 (lit "Option A")] ++
              replicate 120 QuizPage.IntervalFired)
             (QuizPage.initial, fresh_browser) in
  QuizPage.timeLeft s.1 = Some 0%Z ∧
  QuizPage.submitted s.1 = true ∧
  last (bodies s.2) =
    Some (obj [("answers", VObj [(lit "0", VStr (lit "Option A"))])]).
Proof. vm_compute. repeat split. Qed.

(* ================================================================== *)
(** * Part III.  Further properties of the code                         *)
(* ================================================================== *)

(** ** The sidebar *)

Lemma elem_of_without (i x : jsstring) (l : list jsstring) :
  x ∈ Sidebar.without i l ↔ x ∈ l ∧ x ≠ i.
Proof.
  unfold Sidebar.without. rewrite elem_of_List_filter, negb_true_iff.
  by rewrite bool_decide_eq_false.
Qed.

Lemma NoDup_without (i : jsstring) (l : list jsstring) :
  NoDup l → NoDup (Sidebar.without i l).
Proof.
  unfold Sidebar.without. induction 1 as [|x l Hx Hl IH]; [constructor|].
  cbn [List.filter]. destruct (negb _); [|done].
  constructor; [|done]. rewrite elem_of_List_filter. tauto.
Qed.

Lemma without_absent (i : jsstring) (l : list jsstring) :
  i ∉ l → Sidebar.without i l = l.
Proof.
  intros Hi. unfold Sidebar.without. apply filter_all_true.
  intros x Hx. rewrite negb_true_iff, bool_decide_eq_false. congruence.
Qed.

Lemma without_snoc (i : jsstring) (l : list jsstring) :
  i ∉ l → Sidebar.without i (l ++ [i]) = l.
Proof.
  intros Hi. unfold Sidebar.without. rewrite List.filter_app.
  fold (Sidebar.without i l). rewrite without_absent by done.
  cbn [List.filter]. rewrite bool_decide_eq_true_2 by done.
  apply app_nil_r.
Qed.

Lemma step_sidebar_ok (e : Sidebar.event) (s : Sidebar.t) :
  sidebar_ok s → sidebar_ok (Sidebar.step e s).
Proof.
  intros (Hc & Hr & Hsub). destruct e as [i|i]; cbn [Sidebar.step].
  - unfold Sidebar.toggleDone, Sidebar.isDone. case_bool_decide as Hi.
    + repeat split; cbn; [by apply NoDup_without..|].
      intros x [Hx Hne]%elem_of_without. apply elem_of_without. auto.
    + repeat split; cbn; [|done|].
      * apply NoDup_app. repeat split; [done| |apply NoDup_singleton].
        intros x Hx ->%list_elem_of_singleton. done.
      * intros x Hx. apply elem_of_app. auto.
  - unfold Sidebar.toggleRevision, Sidebar.isRevision, Sidebar.isDone.
    case_bool_decide as Hi.
    + repeat split; cbn; [done|by apply NoDup_without|].
      intros x [Hx _]%elem_of_without. auto.
    + assert (Hr' : NoDup (Sidebar.revisionTopics s ++ [i])).
      { apply NoDup_app. repeat split; [done| |apply NoDup_singleton].
        intros x Hx ->%list_elem_of_singleton. done. }
      case_bool_decide as Hd; cbn [negb]; repeat split; cbn; try done.
      * intros x [Hx | ->%list_elem_of_singleton]%elem_of_app; auto.
      * apply NoDup_app. repeat split; [done| |apply NoDup_singleton].
        intros x Hx ->%list_elem_of_singleton. done.
      * intros x [Hx | Hx]%elem_of_app; apply elem_of_app; auto.
Qed.

Lemma initial_sidebar_ok : sidebar_ok Sidebar.initial.
Proof.
  repeat split; cbn; [constructor..|]. intros x Hx. by apply elem_of_nil in Hx.
Qed.

Lemma run_keeps_sidebar_ok (es : list Sidebar.event) (s : Sidebar.t) :
  sidebar_ok s → sidebar_ok (Sidebar.run es s).
Proof.
  unfold Sidebar.run. revert s.
  induction es as [|e es IH]; intros s Hs; [done|].
  cbn [foldl]. by apply IH, step_sidebar_ok.
Qed.

(** X3.  Whatever is clicked, in whatever order, no topic is ever listed
    twice as done or twice as under revision, and every topic under
    revision is also listed as done. *)
Theorem sidebar_lists_stay_in_order (es : list Sidebar.event) :
  sidebar_ok (Sidebar.run es Sidebar.initial).
Proof. apply run_keeps_sidebar_ok, initial_sidebar_ok. Qed.

Lemma sections_holding_one (s : Sidebar.t) (tp : Sidebar.topic) :
  Sidebar.revisionTopics s ⊆ Sidebar.completedTopics s →
  tp ∈ Sidebar.topics → sections_holding s tp = 1%nat.
Proof.
  intros Hsub Htp. unfold sections_holding, Sidebar.pending,
    Sidebar.completed, Sidebar.revision.
  assert (Hrd : Sidebar.isRevision s (Sidebar.id tp) = true →
                Sidebar.isDone s (Sidebar.id tp) = true).
  { unfold Sidebar.isRevision, Sidebar.isDone.
    rewrite !bool_decide_eq_true. apply Hsub. }
  repeat case_bool_decide;
    repeat match goal with
    | H : _ ∈ List.filter _ _ |- _ => apply elem_of_List_filter in H as [_ H]
    | H : ¬ _ ∈ List.filter _ _ |- _ =>
        rewrite elem_of_List_filter in H;
        apply not_and_l in H as [H | H]; [done|]
    end;
    destruct (Sidebar.isDone s (Sidebar.id tp)),
             (Sidebar.isRevision s (Sidebar.id tp));
    cbn in *; try done; by specialize (Hrd eq_refl).
Qed.

(** X4.  After any sequence of clicks, each of the five topics stands in
    exactly one of the three lists shown: to be done, completed, for
    revision. *)
Theorem sidebar_shows_each_topic_once (es : list Sidebar.event) :
  Forall (λ tp, sections_holding (Sidebar.run es Sidebar.initial) tp = 1%nat)
         Sidebar.topics.
Proof.
  apply Forall_forall. intros tp Htp. apply sections_holding_one; [|done].
  apply (run_keeps_sidebar_ok es Sidebar.initial initial_sidebar_ok).
Qed.

(** X5.  Marking a pending topic as done and undoing it at once gives
    back the lists as they were. *)
Theorem sidebar_done_then_undo (i : jsstring) (s : Sidebar.t) :
  sidebar_ok s → Sidebar.isDone s i = false →
  Sidebar.toggleDone i (Sidebar.toggleDone i s) = s.
Proof.
  intros (Hc & Hr & Hsub) Hnd. unfold Sidebar.isDone in Hnd.
  apply bool_decide_eq_false in Hnd.
  assert (Sidebar.toggleDone i s =
          Sidebar.mk (Sidebar.completedTopics s ++ [i])
                     (Sidebar.revisionTopics s)) as ->.
  { unfold Sidebar.toggleDone, Sidebar.isDone.
    by rewrite bool_decide_eq_false_2. }
  unfold Sidebar.toggleDone, Sidebar.isDone.
  cbn [Sidebar.completedTopics Sidebar.revisionTopics].
  rewrite bool_decide_eq_true_2 by (apply elem_of_app; right; by left).
  rewrite without_snoc by done. rewrite without_absent by auto.
  by destruct s.
Qed.

Lemma sidebar_done_then_undo_witness :
  sidebar_ok Sidebar.initial ∧
  Sidebar.isDone Sidebar.initial (lit "variables") = false ∧
  Sidebar.toggleDone (lit "variables")
    (Sidebar.toggleDone (lit "variables") Sidebar.initial) = Sidebar.initial.
Proof.
  split; [exact initial_sidebar_ok|]. split; [reflexivity|].
  apply (sidebar_done_then_undo (lit "variables") Sidebar.initial
           initial_sidebar_ok).
  reflexivity.
Defined.

(** ** The client of [apiService.js], continued *)

Section ClientContinued.
Context `{!Engine}.
Variable net : request → outcome.
Variable filenameMatch : jsstring → option jsstring.
Variable stripQuotes : jsstring → jsstring.

Lemma api_sent (v : verb) (u : jsstring) (b : jsval) (rt : option jsstring)
    (st : browser) :
  sent (ApiService.api net v u b rt st).2 =
  sent st ++ [request_sent st v u b rt].
Proof.
  rewrite api_outcome. cbn zeta.
  destruct (net _) as [r|e]; [done|]. by case_bool_decide.
Qed.

Lemma request_sent_authorization (st : browser) (v : verb) (u : jsstring)
    (b : jsval) (rt : option jsstring) :
  header (request_sent st v u b rt) (lit "Authorization") =
  match getItem (lit "authToken") st with
  | Some (c :: token) => Some (lit "Bearer " ++ c :: token)
  | _ => None
  end.
Proof.
  unfold request_sent, ApiService.request_interceptor, on_the_wire.
  destruct (getItem (lit "authToken") st) as [[|c token]|]; cbn [fst body];
    destruct b; reflexivity.
Qed.

(** X6.  Every call through the axios instance sends one request.  It
    carries the header [Authorization: Bearer <token>] when a non-empty
    token is stored under ['authToken'], and no [Authorization] header at
    all otherwise; it carries [Content-Type: application/json] when it has
    a body, and no [Content-Type] when it has none, as the requests made
    with [get] and [delete]. *)
Theorem bearer_token_travels_with_requests (v : verb) (u : jsstring)
    (b : jsval) (rt : option jsstring) (st : browser) :
  ∃ config,
    sent (ApiService.api net v u b rt st).2 = sent st ++ [config] ∧
    header config (lit "Authorization") =
      match getItem (lit "authToken") st with
      | Some (c :: token) => Some (lit "Bearer " ++ c :: token)
      | _ => None
      end ∧
    header config (lit "Content-Type") =
      match b with
      | VUndefined => None
      | _ => Some (lit "application/json")
      end.
Proof.
  exists (request_sent st v u b rt). split; [apply api_sent|].
  split; [apply request_sent_authorization|].
  unfold request_sent, ApiService.request_interceptor, on_the_wire.
  destruct (getItem (lit "authToken") st) as [[|c token]|]; cbn [fst body];
    destruct b; reflexivity.
Qed.

(** What [login] does, by the outcome of its request. *)
Lemma login_outcome (email password : jsval) (st : browser) :
  ApiService.login net email password st =
  let config :=
    request_sent st POST (lit "/api/v1/auth/login")
      (obj [("email", email); ("password", password)]) None in
  match net config with
  | Fulfilled response =>
      match get (TypeError (lit "Cannot destructure property"))
                (Response.data response) (lit "access_token") with
      | Normal access_token =>
          (Normal (Response.data response),
           setItem (lit "authToken") (ToString access_token)
             (record_request config st))
      | Throw e =>
          (Throw (ApiService._handleError e (VStr (lit "Login failed"))),
           record_request config st)
      end
  | Rejected error =>
      (Throw (ApiService._handleError error (VStr (lit "Login failed"))),
       if bool_decide (Response.status <$> Err.response error = Some 401%Z)
       then set_location (lit "/login")
              (removeItem (lit "authToken") (record_request config st))
       else record_request config st)
  end.
Proof.
  unfold ApiService.login, try_catch_M, mbind. rewrite api_outcome. cbn zeta.
  destruct (net _) as [r|e]; [|done].
  unfold lift. by destruct (get _ _ _).
Qed.

(** X7.  A login that the server answers with an access token stores that
    token, and from then on every request carries it as bearer token. *)
Theorem login_token_is_used_afterwards (email password : jsval)
    (st : browser) (response : Response.t) (c : N) (token : jsstring)
    (v : verb) (u : jsstring) (b : jsval) (rt : option jsstring) :
  net (request_sent st POST (lit "/api/v1/auth/login")
         (obj [("email", email); ("password", password)]) None) =
    Fulfilled response →
  opt_get (Response.data response) (lit "access_token") = VStr (c :: token) →
  let st1 := (ApiService.login net email password st).2 in
  (ApiService.login net email password st).1 =
    Normal (Response.data response) ∧
  getItem (lit "authToken") st1 = Some (c :: token) ∧
  ∃ config,
    sent (ApiService.api net v u b rt st1).2 = sent st1 ++ [config] ∧
    header config (lit "Authorization") = Some (lit "Bearer " ++ c :: token).
Proof.
  intros Hnet Htoken st1. subst st1. rewrite login_outcome. cbn zeta.
  rewrite Hnet.
  assert (get (TypeError (lit "Cannot destructure property"))
              (Response.data response) (lit "access_token") =
          Normal (VStr (c :: token))) as ->.
  { destruct (Response.data response); try discriminate Htoken;
      cbn [get]; by rewrite Htoken. }
  cbn [fst snd ToString]. split; [done|].
  assert (Hget : getItem (lit "authToken")
            (setItem (lit "authToken") (c :: token)
               (record_request
                  (request_sent st POST (lit "/api/v1/auth/login")
                     (obj [("email", email); ("password", password)]) None)
                  st)) = Some (c :: token)).
  { unfold getItem, setItem. cbn [localStorage]. apply lookup_insert_eq. }
  split; [exact Hget|].
  eexists. split; [apply api_sent|].
  by rewrite request_sent_authorization, Hget.
Qed.

(** X8.  The health check never throws: it answers [true] exactly when the
    request to [/health] is fulfilled with status 200, and [false] for any
    other response and for any failure. *)
Theorem checkHealth_never_throws (st : browser) :
  ∃ b : bool,
    (ApiService.checkHealth net st).1 = Normal b ∧
    (b = true ↔
     ∃ response,
       net (request_sent st GET (lit "/health") VUndefined None) =
         Fulfilled response ∧
       Response.status response = 200%Z).
Proof.
  unfold ApiService.checkHealth, try_catch_M, mbind. rewrite api_outcome.
  cbn zeta.
  destruct (net _) as [r|e]; cbn [ret fst].
  - eexists. split; [reflexivity|]. rewrite bool_decide_eq_true. split.
    + intros Hs. by exists r.
    + by intros (r' & [= <-] & Hs).
  - exists false. split; [done|]. split; [done|]. by intros (r' & [=] & _).
Qed.

(** X9.  No method retries: a call of a method that talks to the server
    sends exactly one request, whether it succeeds or fails, and
    [isAuthenticated] and [logout] send none. *)
Theorem methods_send_one_request (c : ApiService.call) (st : browser) :
  ∃ new : list request,
    sent (ApiService.perform net filenameMatch stripQuotes c st).2 =
      sent st ++ new ∧
    length new = (if is_local c then 0 else 1)%nat.
Proof.
  destruct c; cbn [ApiService.perform is_local];
    try (eexists [_]; split; [apply data_method_sent | done]; fail).
  - (* login *)
    rewrite login_outcome. cbn zeta. eexists [_]. split; [|done].
    destruct (net _) as [r|e]; [by destruct (get _ _ _)|by case_bool_decide].
  - (* isAuthenticated *)
    exists []. split; [|done]. rewrite app_nil_r.
    unfold mbind, ApiService.isAuthenticated.
    destruct (getItem _ st) as [token|]; [|done].
    destruct (negb _); [done|]. unfold try_catch.
    by destruct (bind _ _).
  - (* logout *)
    exists []. split; [|done]. by rewrite app_nil_r.
  - (* downloadModulePDF *)
    unfold ApiService.downloadModulePDF, try_catch_M, mbind.
    rewrite api_outcome. cbn zeta. eexists [_]. split; [|done].
    destruct (net _) as [r|e]; [done|]. cbn [ApiService.fail_with throw snd].
    by case_bool_decide.
  - (* checkHealth *)
    unfold mbind, ApiService.checkHealth, try_catch_M, mbind.
    rewrite api_outcome. cbn zeta. eexists [_]. split; [|done].
    destruct (net _) as [r|e]; [done|]. cbn [ret snd]. by case_bool_decide.
Qed.

End ClientContinued.

(** The requests for the list of modules and for a deletion go without
    [Content-Type]; a login goes with it. *)
Example content_type_goes_with_a_body :
  header (request_sent fresh_browser GET (lit "/api/v1/modules")
            VUndefined None) (lit "Content-Type") = None ∧
  header (request_sent fresh_browser DELETE (lit "/api/v1/modules/7")
            VUndefined None) (lit "Content-Type") = None ∧
  header (request_sent fresh_browser POST (lit "/api/v1/auth/login")
            (obj [("email", VStr (lit "a@b")); ("password", VStr (lit "pw"))])
            None) (lit "Content-Type") = Some (lit "application/json").
Proof. repeat split. Qed.

Lemma login_token_is_used_afterwards_witness :
  let net := server_ok (obj [("access_token", VStr (lit "h.eyJleHAiOjIwMDB9.s"))]) in
  let st1 := (ApiService.login (H := example_engine) net
                (VStr (lit "a@b")) (VStr (lit "pw")) fresh_browser).2 in
  (ApiService.login (H := example_engine) net
     (VStr (lit "a@b")) (VStr (lit "pw")) fresh_browser).1 =
    Normal (obj [("access_token", VStr (lit "h.eyJleHAiOjIwMDB9.s"))]) ∧
  getItem (lit "authToken") st1 = Some (lit "h.eyJleHAiOjIwMDB9.s") ∧
  ∃ config,
    sent (ApiService.api net GET (lit "/api/v1/modules") VUndefined None
            st1).2 = sent st1 ++ [config] ∧
    header config (lit "Authorization") =
      Some (lit "Bearer " ++ lit "h.eyJleHAiOjIwMDB9.s").
Proof.
  intros net.
  apply (login_token_is_used_afterwards (H := example_engine) net
           (VStr (lit "a@b")) (VStr (lit "pw")) fresh_browser
           (Response.mk 200
              (obj [("access_token", VStr (lit "h.eyJleHAiOjIwMDB9.s"))]) [])
           104%N (lit ".eyJleHAiOjIwMDB9.s")
           GET (lit "/api/v1/modules") VUndefined None); reflexivity.
Defined.

(** ** The authentication context *)

Section Provider.
Context `{!Engine}.
Variable net : request → outcome.

Lemma isAuthenticated_keeps_browser (now : Z) (st : browser) :
  ∃ b : bool, ApiService.isAuthenticated now st = (Normal b, st).
Proof.
  unfold ApiService.isAuthenticated.
  destruct (getItem _ st) as [token|]; [|by eexists].
  destruct (negb _); [by eexists|]. unfold try_catch.
  destruct (bind _ _); by eexists.
Qed.

Lemma isAuthenticated_without_token (now : Z) (st : browser) :
  getItem (lit "authToken") st = None →
  ApiService.isAuthenticated now st = (Normal false, st).
Proof. unfold ApiService.isAuthenticated. by intros ->. Qed.

Lemma getCurrentUser_outcome (st : browser) :
  ApiService.getCurrentUser net st =
  let config := request_sent st GET (lit "/api/v1/users/me") VUndefined None in
  match net config with
  | Fulfilled response =>
      (Normal (Response.data response), record_request config st)
  | Rejected error =>
      (Throw (ApiService._handleError error
                (VStr (lit "Failed to get user info"))),
       if bool_decide (Response.status <$> Err.response error = Some 401%Z)
       then set_location (lit "/login")
              (removeItem (lit "authToken") (record_request config st))
       else record_request config st)
  end.
Proof. apply data_method_outcome. Qed.

(** X10.  When the provider starts without a token that passes the check
    (none stored, or an expired or unreadable one), it asks the server
    nothing: the browser is left as it is, nobody is signed in, and the
    loading flag goes down. *)
Theorem initAuth_asks_nothing_without_valid_token (now : Z)
    (c : AuthContext.t) (br : browser) :
  (ApiService.isAuthenticated now br).1 = Normal false →
  AuthContext.initAuth net now (c, br) =
  (AuthContext.mk (AuthContext.user c) false (AuthContext.isAuthenticated c),
   br).
Proof.
  intros Hfalse. unfold AuthContext.initAuth. cbn [fst snd].
  destruct (isAuthenticated_keeps_browser now br) as [b Hb].
  rewrite Hb in Hfalse |- *. cbn [fst] in Hfalse. by injection Hfalse as ->.
Qed.

(** X11.  When the token passes the check but the user cannot be fetched,
    whatever the reason (a refusal, a server error, no network), the
    provider discards the token: nobody is signed in and ['authToken'] is
    gone from the storage. *)
Theorem initAuth_discards_token_when_user_fetch_fails (now : Z)
    (c : AuthContext.t) (br : browser) (error : Err.t) :
  (ApiService.isAuthenticated now br).1 = Normal true →
  net (request_sent br GET (lit "/api/v1/users/me") VUndefined None) =
    Rejected error →
  let s' := AuthContext.initAuth net now (c, br) in
  s'.1 = AuthContext.mk VNull false false ∧
  getItem (lit "authToken") s'.2 = None ∧
  length (sent s'.2) = S (length (sent br)).
Proof.
  intros Htrue Hnet s'. subst s'. unfold AuthContext.initAuth. cbn [fst snd].
  destruct (isAuthenticated_keeps_browser now br) as [b Hb].
  rewrite Hb in Htrue |- *. cbn [fst] in Htrue. injection Htrue as ->.
  rewrite getCurrentUser_outcome. cbn zeta. rewrite Hnet.
  split; [done|]. cbn [snd ApiService.logout modify].
  split.
  - unfold getItem, removeItem. cbn [localStorage]. apply lookup_delete_eq.
  - case_bool_decide; cbn [removeItem set_location record_request sent];
      rewrite length_app; cbn [length]; lia.
Qed.

(** X12.  A login that fails always reports ['Login failed. Please try
    again.']: the context looks for the detail in the [response] of the
    error it catches, and the error made by the client has no [response],
    so the text that the server sent is not passed on.  Nobody is signed
    in and the loading flag goes down. *)
Theorem context_login_failure_is_generic (email password : jsval)
    (c : AuthContext.t) (br : browser) (error : Err.t) :
  net (request_sent br POST (lit "/api/v1/auth/login")
         (obj [("email", email); ("password", password)]) None) =
    Rejected error →
  let r := AuthContext.login net email password (c, br) in
  r.1 = obj [("success", VBool false);
             ("error", VStr (lit "Login failed. Please try again."))] ∧
  r.2.1 = AuthContext.mk (AuthContext.user c) false
            (AuthContext.isAuthenticated c) ∧
  getItem (lit "authToken") r.2.2 =
    (if bool_decide (Response.status <$> Err.response error = Some 401%Z)
     then None else getItem (lit "authToken") br).
Proof.
  intros Hnet r. subst r. unfold AuthContext.login. cbn [fst snd].
  rewrite login_outcome. cbn zeta. rewrite Hnet. cbn [fst snd].
  split; [done|]. split; [done|].
  case_bool_decide; [|done].
  unfold getItem, removeItem. cbn [localStorage]. apply lookup_delete_eq.
Qed.

(** X13.  A registration that succeeds signs the user in in the context
    without storing any token: the storage is as before, so the token
    check of the client gives what it gave before. *)
Theorem register_signs_in_without_token (email password full_name : jsval)
    (c : AuthContext.t) (br : browser) (response : Response.t) (now : Z) :
  net (request_sent br POST (lit "/api/v1/auth/register")
         (obj [("email", email); ("password", password)]) None) =
    Fulfilled response →
  let r := AuthContext.register net email password full_name (c, br) in
  r.1 = obj [("success", VBool true)] ∧
  r.2.1 = AuthContext.mk (Response.data response) false true ∧
  localStorage r.2.2 = localStorage br ∧
  (ApiService.isAuthenticated now r.2.2).1 =
    (ApiService.isAuthenticated now br).1.
Proof.
  intros Hnet r. subst r. unfold AuthContext.register. cbn [fst snd].
  unfold ApiService.register. rewrite data_method_outcome. cbn zeta.
  rewrite Hnet. cbn [fst snd]. repeat split.
  unfold ApiService.isAuthenticated, getItem.
  cbn [record_request localStorage].
  by destruct (localStorage br !! lit "authToken") as [token|];
    [destruct (negb _)|].
Qed.

(** X14.  After a logout nobody is signed in, the token is gone, the token
    check fails at any time, the next request carries no [Authorization]
    header, and a restart of the provider asks the server nothing. *)
Theorem logout_forgets_the_session (c : AuthContext.t) (br : browser)
    (now : Z) (v : verb) (u : jsstring) (b : jsval) (rt : option jsstring) :
  let s' := AuthContext.logout (c, br) in
  AuthContext.user s'.1 = VNull ∧
  AuthContext.isAuthenticated s'.1 = false ∧
  getItem (lit "authToken") s'.2 = None ∧
  (∀ k, k ≠ lit "authToken" → getItem k s'.2 = getItem k br) ∧
  (ApiService.isAuthenticated now s'.2).1 = Normal false ∧
  header (request_sent s'.2 v u b rt) (lit "Authorization") = None ∧
  (AuthContext.initAuth net now s').2 = s'.2.
Proof.
  intros s'. subst s'. unfold AuthContext.logout.
  cbn [fst snd ApiService.logout modify AuthContext.user
       AuthContext.isAuthenticated].
  assert (Hnone : getItem (lit "authToken")
                    (removeItem (lit "authToken") br) = None).
  { unfold getItem, removeItem. cbn [localStorage]. apply lookup_delete_eq. }
  split; [done|]. split; [done|]. split; [exact Hnone|]. split.
  { intros k Hk. unfold getItem, removeItem. cbn [localStorage].
    by apply lookup_delete_ne. }
  split; [by rewrite isAuthenticated_without_token|].
  split; [by rewrite request_sent_authorization, Hnone|].
  unfold AuthContext.initAuth. cbn [fst snd].
  by rewrite isAuthenticated_without_token.
Qed.

End Provider.

Lemma initAuth_asks_nothing_without_valid_token_witness :
  let br := setItem (lit "authToken") (lit "h.eyJleHAiOjIwMDB9.s")
              fresh_browser in
  AuthContext.initAuth (H := example_engine) network_down 2000000
    (AuthContext.initial, br) =
  (AuthContext.mk VNull false false, br).
Proof.
  intros br.
  apply (initAuth_asks_nothing_without_valid_token (H := example_engine)
           network_down 2000000 AuthContext.initial br).
  reflexivity.
Defined.

Lemma initAuth_discards_token_when_user_fetch_fails_witness :
  let br := setItem (lit "authToken") (lit "h.eyJleHAiOjIwMDB9.s")
              fresh_browser in
  let s' := AuthContext.initAuth (H := example_engine) network_down 1000
              (AuthContext.initial, br) in
  s'.1 = AuthContext.mk VNull false false ∧
  getItem (lit "authToken") s'.2 = None ∧
  length (sent s'.2) = S (length (sent br)).
Proof.
  intros br.
  eapply (initAuth_discards_token_when_user_fetch_fails (H := example_engine)
            network_down 1000 AuthContext.initial br); reflexivity.
Defined.

Lemma context_login_failure_is_generic_witness :
  let net := server_fail 422 (obj [("detail", VStr (lit "Invalid email"))]) in
  let r := AuthContext.login (H := example_engine) net
             (VStr (lit "a@b")) (VStr (lit "pw"))
             (AuthContext.initial, fresh_browser) in
  r.1 = obj [("success", VBool false);
             ("error", VStr (lit "Login failed. Please try again."))] ∧
  r.2.1 = AuthContext.mk VNull false false ∧
  getItem (lit "authToken") r.2.2 = None.
Proof.
  intros net.
  exact (context_login_failure_is_generic (H := example_engine) net
           (VStr (lit "a@b")) (VStr (lit "pw")) AuthContext.initial
           fresh_browser
           (Err.mk (VStr (lit "Request failed with status code " ++
                          lit (pretty 422%Z)))
              (Some (Response.mk 422
                       (obj [("detail", VStr (lit "Invalid email"))]) []))
              VUndefined None)
           eq_refl).
Defined.

Lemma register_signs_in_without_token_witness :
  let net := server_ok (obj [("email", VStr (lit "a@b"))]) in
  let r := AuthContext.register (H := example_engine) net
             (VStr (lit "a@b")) (VStr (lit "pw")) (VStr (lit "A B"))
             (AuthContext.initial, fresh_browser) in
  r.1 = obj [("success", VBool true)] ∧
  r.2.1 = AuthContext.mk (obj [("email", VStr (lit "a@b"))]) false true ∧
  localStorage r.2.2 = localStorage fresh_browser ∧
  (ApiService.isAuthenticated (H := example_engine) 0 r.2.2).1 =
    (ApiService.isAuthenticated (H := example_engine) 0 fresh_browser).1.
Proof.
  intros net.
  eapply (register_signs_in_without_token (H := example_engine) net
            (VStr (lit "a@b")) (VStr (lit "pw")) (VStr (lit "A B"))
            AuthContext.initial fresh_browser
            (Response.mk 200 (obj [("email", VStr (lit "a@b"))]) []) 0).
  reflexivity.
Defined.

(** ** The old service, continued *)

Lemma mock_score_in_range_witness :
  {[0%nat := lit "useState"; 1%nat := lit "Tuple"]} ≠ (∅ : gmap nat jsstring) ∧
  ∃ n, score_of (OldApiService.submitQuiz (H := example_engine) true
                   network_down VNull
                   {[0%nat := lit "useState"; 1%nat := lit "Tuple"]}
                   (OldApiService.mkState fresh_browser
                      OldApiService.initial_mockModules)).1 = VNum n ∧
       in_percent_range n = true.
Proof.
  assert (Hne : {[0%nat := lit "useState"; 1%nat := lit "Tuple"]} ≠
                (∅ : gmap nat jsstring)).
  { intros Heq. apply (f_equal (λ m, m !! 0%nat)) in Heq. discriminate Heq. }
  split; [exact Hne|].
  apply (mock_score_in_range (H := example_engine) network_down VNull
           {[0%nat := lit "useState"; 1%nat := lit "Tuple"]}
           (OldApiService.mkState fresh_browser
              OldApiService.initial_mockModules) Hne).
Defined.

Lemma mock_score_all_correct_witness :
  score_of (OldApiService.submitQuiz (H := example_engine) true
              network_down VNull
              {[0%nat := lit "useState"; 1%nat := lit "React 16.8"]}
              (OldApiService.mkState fresh_browser
                 OldApiService.initial_mockModules)).1 = VNum (num_of_Z 100).
Proof.
  apply (mock_score_all_correct (H := example_engine) network_down VNull
           {[0%nat := lit "useState"; 1%nat := lit "React 16.8"]}).
  - intros Heq. apply (f_equal (λ m, m !! 0%nat)) in Heq. discriminate Heq.
  - intros i a Hi.
    apply lookup_insert_Some in Hi as [[_ <-] | [_ Hi]]; [reflexivity|].
    apply lookup_singleton_Some in Hi as [_ <-]. reflexivity.
Defined.

Lemma mock_score_all_incorrect_witness :
  score_of (OldApiService.submitQuiz (H := example_engine) true
              network_down VNull
              {[0%nat := lit "Tuple"; 1%nat := lit "List"]}
              (OldApiService.mkState fresh_browser
                 OldApiService.initial_mockModules)).1 = VNum (num_of_Z 0).
Proof.
  apply (mock_score_all_incorrect (H := example_engine) network_down VNull
           {[0%nat := lit "Tuple"; 1%nat := lit "List"]}).
  - intros Heq. apply (f_equal (λ m, m !! 0%nat)) in Heq. discriminate Heq.
  - intros i a Hi.
    apply lookup_insert_Some in Hi as [[_ <-] | [_ Hi]]; [reflexivity|].
    apply lookup_singleton_Some in Hi as [_ <-]. reflexivity.
Defined.

Lemma old_generateModule_sends_difficulty_and_duration_witness :
  ∃ config,
    bodies (OldApiService.page
              (OldApiService.generateModule (H := example_engine) false
                 (server_ok (obj [("id", VNum (num_of_Z 7))])) 0
                 (lit "Python Lists") (VStr (lit "hard")) (VNum (num_of_Z 60))
                 (OldApiService.mkState fresh_browser
                    OldApiService.initial_mockModules)).2) =
      bodies fresh_browser ++ [VUndefined; body config] ∧
    url config = lit "/api/v1/modules/generate" ∧
    body config =
      obj [("user_id", VNum (num_of_Z 7));
           ("prompt", VStr (lit "Python Lists"));
           ("difficulty", VStr (lit "hard"));
           ("duration", VNum (num_of_Z 60))].
Proof.
  exact (old_generateModule_sends_difficulty_and_duration
           (H := example_engine)
           (server_ok (obj [("id", VNum (num_of_Z 7))])) 0
           (lit "Python Lists") (VStr (lit "hard")) (VNum (num_of_Z 60))
           (OldApiService.mkState fresh_browser
              OldApiService.initial_mockModules)
           (Response.mk 200 (obj [("id", VNum (num_of_Z 7))]) [])
           (VNum (num_of_Z 7)) eq_refl eq_refl).
Defined.

Section OldClient.
Context `{!Engine}.
Variable net : request → outcome.

(** X15.  In mock mode a module that [generateModule] has made can be
    fetched again: [getModule] with its id returns the very module that
    was returned, and [getUserModules] lists it first, before the modules
    that were there; none of the three calls sends a request. *)
Theorem mock_generated_module_can_be_fetched (now : Z) (prompt : jsstring)
    (difficulty duration : jsval) (st : OldApiService.state) :
  let made := OldApiService.generateModule true net now prompt
                difficulty duration st in
  ∃ m : jsval,
    made.1 = Normal m ∧
    opt_get m (lit "id") = VStr (NumberToString (num_of_Z now)) ∧
    OldApiService.getModule true net
      (VStr (NumberToString (num_of_Z now))) made.2 = (Normal m, made.2) ∧
    OldApiService.getUserModules true net made.2 =
      (Normal (VArr (m :: (OldApiService.module_to_val <$>
                             OldApiService.mockModules st))), made.2) ∧
    OldApiService.page made.2 = OldApiService.page st.
Proof.
  intros made. subst made. unfold OldApiService.generateModule.
  cbv beta iota zeta delta [mbind modify ret]. cbn [fst snd].
  eexists. split; [reflexivity|]. split; [reflexivity|].
  unfold OldApiService.getModule, OldApiService.getUserModules.
  cbn [OldApiService.mockModules OldApiService.page List.find
       OldApiService.id strict_eq fmap list_fmap].
  rewrite bool_decide_eq_true_2 by done. done.
Qed.

(** X16.  The token check of the current client is stricter than that of
    the old one: whenever the current [isAuthenticated] accepts what is
    stored, the old one accepts it too. *)
Theorem current_token_check_is_stricter (now : Z) (br : browser)
    (mocks : list OldApiService.module) :
  (ApiService.isAuthenticated now br).1 = Normal true →
  (OldApiService.isAuthenticated false (OldApiService.mkState br mocks)).1 =
  Normal true.
Proof.
  unfold ApiService.isAuthenticated, OldApiService.isAuthenticated.
  cbn [OldApiService.page fst].
  destruct (getItem (lit "authToken") br) as [token|]; [|discriminate].
  by destruct (truthy (VStr token)).
Qed.

End OldClient.

Lemma current_token_check_is_stricter_witness :
  let br := setItem (lit "authToken") (lit "h.eyJleHAiOjIwMDB9.s")
              fresh_browser in
  (OldApiService.isAuthenticated false
     (OldApiService.mkState br OldApiService.initial_mockModules)).1 =
  Normal true.
Proof.
  intros br.
  apply (current_token_check_is_stricter (H := example_engine) 1000 br
           OldApiService.initial_mockModules).
  reflexivity.
Defined.

(** An expired token, which the current check turns down, still passes the
    old one. *)
Example old_check_accepts_expired_token :
  let br := setItem (lit "authToken") (lit "h.eyJleHAiOjIwMDB9.s")
              fresh_browser in
  (ApiService.isAuthenticated (H := example_engine) 3000000 br).1 =
    Normal false ∧
  (OldApiService.isAuthenticated false
     (OldApiService.mkState br OldApiService.initial_mockModules)).1 =
    Normal true.
Proof. split; reflexivity. Qed.

(** ** The dashboard, continued *)

Section DashboardContinued.
Context `{!Engine}.
Variable net : request → outcome.

(** The predicates of the two filters: what they have found when they
    return [true], and that they throw only on a module that lacks a
    string for its title or its content. *)
Lemma matches_search_true (term : jsstring) (m : jsval) :
  Dashboard.matches_search term m = Normal true →
  ∃ text,
    (opt_get m (lit "title") = VStr text ∨
     opt_get m (lit "content") = VStr text) ∧
    includes (toLowerCase text) (toLowerCase term) = true.
Proof.
  unfold Dashboard.matches_search, get.
  destruct m as [| | | | |items|fields]; cbn [bind opt_get Dashboard.lowered];
    try done.
  destruct (assoc (lit "title") fields) as [| | | |title| |];
    cbn [bind Dashboard.lowered]; try done.
  destruct (includes (toLowerCase title) (toLowerCase term)) eqn:Htitle.
  - intros _. exists title. by split; [left|].
  - destruct (assoc (lit "content") fields) as [| | | |content| |];
      cbn [bind Dashboard.lowered]; try done.
    intros [= Hcontent]. exists content. by split; [right|].
Qed.

Lemma matches_search_Normal (term : jsstring) (m : jsval) :
  has_texts m = true → ∃ b, Dashboard.matches_search term m = Normal b.
Proof.
  unfold has_texts, Dashboard.matches_search, get.
  destruct m as [| | | | |items|fields]; cbn [opt_get]; try done.
  destruct (assoc (lit "title") fields) as [| | | |title| |]; try done.
  destruct (assoc (lit "content") fields) as [| | | |content| |]; try done.
  intros _. cbn [bind Dashboard.lowered].
  destruct (includes (toLowerCase title) (toLowerCase term)); eauto.
Qed.

Lemma matches_search_Throw (term : jsstring) (m : jsval) (e : Err.t) :
  Dashboard.matches_search term m = Throw e → has_texts m = false.
Proof.
  intros Hthrow. destruct (has_texts m) eqn:Htexts; [|done].
  destruct (matches_search_Normal term m Htexts) as [b Hb]. congruence.
Qed.

Lemma same_difficulty_true (filterDifficulty : jsstring) (m : jsval) :
  Dashboard.same_difficulty filterDifficulty m = Normal true →
  opt_get m (lit "difficulty") = VStr filterDifficulty.
Proof.
  unfold Dashboard.same_difficulty, get.
  destruct m; cbn [bind]; try done; intros [= Heq];
    by apply strict_eq_spec in Heq.
Qed.

Lemma same_difficulty_Throw (filterDifficulty : jsstring) (m : jsval)
    (e : Err.t) :
  Dashboard.same_difficulty filterDifficulty m = Throw e →
  has_texts m = false.
Proof. unfold Dashboard.same_difficulty, get. by destruct m. Qed.

Lemma filter_throwing_total {A} (p : A → completion Err.t bool)
    (l : list A) :
  Forall (λ x, ∃ b, p x = Normal b) l →
  ∃ r, Dashboard.filter_throwing p l = Normal r.
Proof.
  induction 1 as [|x l [b Hb] _ [r Hr]]; cbn [Dashboard.filter_throwing];
    [by eexists|].
  rewrite Hb, Hr. cbn [bind]. by eexists.
Qed.

Lemma searchTerm_given (s : jsstring) : truthy (VStr s) = true → s ≠ [].
Proof. cbn [truthy]. by intros ?%negb_true_iff%bool_decide_eq_false. Qed.

Lemma difficulty_selected (s : jsstring) :
  negb (strict_eq (VStr s) (VStr (lit "all"))) = true ↔ s ≠ lit "all".
Proof.
  cbn [strict_eq]. by rewrite negb_true_iff, bool_decide_eq_false.
Qed.

(** [filterModules] throws only when a filter is set and some module
    lacks a string for its title or its content. *)
Lemma filterModules_Throw (d : Dashboard.t) (e : Err.t) :
  Dashboard.filterModules d = Throw e →
  (Dashboard.searchTerm d ≠ [] ∨ Dashboard.filterDifficulty d ≠ lit "all") ∧
  ∃ m, m ∈ Dashboard.modules d ∧ has_texts m = false.
Proof.
  unfold Dashboard.filterModules. cbv zeta.
  destruct (truthy (VStr (Dashboard.searchTerm d))) eqn:Hterm.
  - destruct (Dashboard.filter_throwing _ (Dashboard.modules d))
      as [searched|e'] eqn:Hsearch; cbn [bind].
    + destruct (negb _) eqn:Hsel; cbn [bind]; [|done].
      destruct (Dashboard.filter_throwing _ searched) as [filtered|e'']
        eqn:Hfilter; cbn [bind]; [done|].
      intros [= ->]. split; [left; by apply searchTerm_given|].
      apply filter_throwing_Throw in Hfilter as (m & Hm & Hthrow).
      apply filter_throwing_Normal in Hsearch as [Hsub _].
      exists m. split; [|by eapply same_difficulty_Throw].
      apply sublist_submseteq, submseteq_Permutation in Hsub as [k ->].
      apply elem_of_app; by left.
    + intros [= ->]. split; [left; by apply searchTerm_given|].
      apply filter_throwing_Throw in Hsearch as (m & Hm & Hthrow).
      exists m. split; [done|]. by eapply matches_search_Throw.
  - cbn [bind]. destruct (negb _) eqn:Hsel; cbn [bind]; [|done].
    destruct (Dashboard.filter_throwing _ (Dashboard.modules d))
      as [filtered|e'] eqn:Hfilter; cbn [bind]; [done|].
    intros [= ->]. split; [right; by apply difficulty_selected|].
    apply filter_throwing_Throw in Hfilter as (m & Hm & Hthrow).
    exists m. split; [done|]. by eapply same_difficulty_Throw.
Qed.

(** X17.  [filterModules] returns whenever every module held has strings
    for its title and its content; it throws only when a filter is set and
    some module held has not.  When it returns, only the
    list displayed has changed; the modules displayed are drawn from the
    modules held, in their order; when a text is searched every module
    displayed holds it, lowered, in its lowered title or content; when a
    difficulty other than ['all'] is selected every module displayed has
    that difficulty; with no search text and ['all'] selected all modules
    are displayed. *)
Theorem shown_modules_match_the_filters (d : Dashboard.t) :
  (Forall (λ m, has_texts m = true) (Dashboard.modules d) →
   ∃ d', Dashboard.filterModules d = Normal d') ∧
  match Dashboard.filterModules d with
  | Normal d' =>
      d' = Dashboard.setFilteredModules (Dashboard.filteredModules d') d ∧
      Dashboard.filteredModules d' `sublist_of` Dashboard.modules d ∧
      (Dashboard.searchTerm d ≠ [] →
       ∀ m, m ∈ Dashboard.filteredModules d' →
         ∃ text,
           (opt_get m (lit "title") = VStr text ∨
            opt_get m (lit "content") = VStr text) ∧
           includes (toLowerCase text)
                    (toLowerCase (Dashboard.searchTerm d)) = true) ∧
      (Dashboard.filterDifficulty d ≠ lit "all" →
       ∀ m, m ∈ Dashboard.filteredModules d' →
            opt_get m (lit "difficulty") =
            VStr (Dashboard.filterDifficulty d)) ∧
      (Dashboard.searchTerm d = [] → Dashboard.filterDifficulty d = lit "all" →
       Dashboard.filteredModules d' = Dashboard.modules d)
  | Throw error =>
      (Dashboard.searchTerm d ≠ [] ∨
       Dashboard.filterDifficulty d ≠ lit "all") ∧
      ∃ m, m ∈ Dashboard.modules d ∧ has_texts m = false
  end.
Proof.
  split.
  - intros Htexts.
    destruct (Dashboard.filterModules d) as [d'|e] eqn:Hf; [by eexists|].
    apply filterModules_Throw in Hf as (_ & m & Hm & Hno).
    rewrite Forall_forall in Htexts. specialize (Htexts m Hm). congruence.
  - destruct (Dashboard.filterModules d) as [d'|e] eqn:Hf;
      [|by eapply filterModules_Throw].
    pose proof (filterModules_sublist d d' Hf) as [_ Hsub].
    apply filterModules_Normal in Hf
      as (searched & filtered & -> & Hsearch & Hfilter).
    cbn [Dashboard.filteredModules Dashboard.setFilteredModules] in *.
    split; [done|]. split; [done|].
    assert (Hin : ∀ m, m ∈ filtered → m ∈ searched).
    { destruct (negb _); [|by subst].
      apply filter_throwing_Normal in Hfilter as [Hs _]. intros m Hm.
      apply sublist_submseteq, submseteq_Permutation in Hs as [k ->].
      apply elem_of_app; by left. }
    split; [|split].
    + intros Hterm m Hm%Hin.
      assert (truthy (VStr (Dashboard.searchTerm d)) = true) as Ht.
      { cbn [truthy]. by apply negb_true_iff, bool_decide_eq_false. }
      rewrite Ht in Hsearch.
      apply filter_throwing_Normal in Hsearch as [_ Hall].
      by apply matches_search_true, Hall.
    + intros Hsel%difficulty_selected m Hm. rewrite Hsel in Hfilter.
      apply filter_throwing_Normal in Hfilter as [_ Hall].
      by apply same_difficulty_true, Hall.
    + intros Hterm Hall. rewrite Hterm, Hall in *.
      cbn in Hsearch, Hfilter. by subst.
Qed.

(** The request by which the dashboard asks for a module. *)
Lemma generateModule_from_form (f : Dashboard.form) (br : browser) :
  ApiService.generateModule net (VStr (Dashboard.prompt f))
    (VStr (Dashboard.difficulty f)) (Dashboard.duration f) VUndefined br =
  let config :=
    request_sent br POST (lit "/api/v1/modules/generate")
      (obj [("prompt", VStr (Dashboard.prompt f));
            ("background_knowledge", VStr []);
            ("user_id", VNull)]) None in
  match net config with
  | Fulfilled response =>
      (Normal (Response.data response), record_request config br)
  | Rejected error =>
      (Throw (ApiService._handleError error
                (VStr (lit "Failed to generate module"))),
       if bool_decide (Response.status <$> Err.response error = Some 401%Z)
       then set_location (lit "/login")
              (removeItem (lit "authToken") (record_request config br))
       else record_request config br)
  end.
Proof. unfold ApiService.generateModule. apply data_method_outcome. Qed.

(** X18.  When the server answers a creation with [success] and a [module],
    that module is put at the head of the list and shown there without
    reloading the list; the dialog closes and the form goes back to its
    initial values. *)
Theorem created_module_heads_the_list (d : Dashboard.t) (br : browser)
    (response : Response.t) :
  net (request_sent br POST (lit "/api/v1/modules/generate")
         (obj [("prompt",
                VStr (Dashboard.prompt (Dashboard.newModuleForm d)));
               ("background_knowledge", VStr []);
               ("user_id", VNull)]) None) = Fulfilled response →
  truthy (opt_get (Response.data response) (lit "success")) = true →
  truthy (opt_get (Response.data response) (lit "module")) = true →
  let s' := Dashboard.handleCreateModule net (d, br) in
  Dashboard.modules s'.1 =
    opt_get (Response.data response) (lit "module") :: Dashboard.modules d ∧
  Dashboard.newModuleForm s'.1 = Dashboard.initial_form ∧
  Dashboard.showCreateForm s'.1 = false ∧
  Dashboard.createLoading s'.1 = false ∧
  length (sent s'.2) = S (length (sent br)).
Proof.
  intros Hnet Hsuccess Hmodule s'. subst s'.
  unfold Dashboard.handleCreateModule. cbn [fst snd].
  cbn [Dashboard.newModuleForm Dashboard.setCreateLoading].
  rewrite generateModule_from_form. cbn zeta. rewrite Hnet.
  assert (get (TypeError (lit "Cannot read properties"))
              (Response.data response) (lit "success") =
          Normal (opt_get (Response.data response) (lit "success"))) as ->.
  { by destruct (Response.data response). }
  rewrite Hsuccess, Hmodule. cbn [andb fst snd].
  cbn [Dashboard.modules Dashboard.newModuleForm Dashboard.showCreateForm
       Dashboard.createLoading Dashboard.setCreateLoading
       Dashboard.setNewModuleForm Dashboard.setShowCreateForm].
  rewrite filter_effect_modules. cbn [Dashboard.modules Dashboard.setModules].
  repeat split. cbn [record_request sent]. rewrite length_app. cbn. lia.
Qed.

(** X19.  When the creation fails, the list is not touched and the form
    keeps what was typed, the dialog staying as it was; only the loading
    flag goes down. *)
Theorem failed_creation_keeps_the_form (d : Dashboard.t) (br : browser)
    (error : Err.t) :
  net (request_sent br POST (lit "/api/v1/modules/generate")
         (obj [("prompt",
                VStr (Dashboard.prompt (Dashboard.newModuleForm d)));
               ("background_knowledge", VStr []);
               ("user_id", VNull)]) None) = Rejected error →
  let s' := Dashboard.handleCreateModule net (d, br) in
  Dashboard.modules s'.1 = Dashboard.modules d ∧
  Dashboard.filteredModules s'.1 = Dashboard.filteredModules d ∧
  Dashboard.newModuleForm s'.1 = Dashboard.newModuleForm d ∧
  Dashboard.showCreateForm s'.1 = Dashboard.showCreateForm d ∧
  Dashboard.createLoading s'.1 = false.
Proof.
  intros Hnet s'. subst s'. unfold Dashboard.handleCreateModule.
  cbn [fst snd]. cbn [Dashboard.newModuleForm Dashboard.setCreateLoading].
  rewrite generateModule_from_form. cbn zeta. by rewrite Hnet.
Qed.

Lemma sum_of_default_durations (modules : list jsval) (a : Qc) :
  (∀ m, m ∈ modules → truthy (opt_get m (lit "duration")) = false) →
  foldl (λ sum m,
           DashboardView.jsadd sum
             (jsor (opt_get m (lit "duration")) (VNum (num_of_Z 30))))
        (VNum (Fin a)) modules =
  VNum (Fin (a + Qc_of_Z 30 * Qc_of_Z (Z.of_nat (length modules)))).
Proof.
  revert a. induction modules as [|m l IH]; intros a Hall.
  - cbn. do 2 f_equal. change (Z.of_nat 0) with 0%Z. rewrite Z2Qc_inj_0. ring.
  - cbn [foldl length]. rewrite (jsor_right _ _ (Hall m (list_elem_of_here _ _))).
    cbn [DashboardView.jsadd ToNumber jsplus num_of_Z].
    rewrite IH by (intros x Hx; apply Hall; by right).
    do 2 f_equal. rewrite Nat2Z.inj_succ, <- Z.add_1_r, Z2Qc_inj_add,
      Z2Qc_inj_1. ring.
Qed.

(** X20.  The statistics of the dashboard: the completed modules are never
    more than the total; with no module at all the average duration is 0
    (the division of zero by zero is caught); and modules that carry no
    duration count for 30 minutes each. *)
Theorem module_stats_defaults (modules : list jsval) :
  DashboardView.total (DashboardView.getModuleStats modules) = length modules ∧
  (DashboardView.completed (DashboardView.getModuleStats modules) ≤
   length modules)%nat ∧
  DashboardView.avgDuration (DashboardView.getModuleStats []) = num_of_Z 0 ∧
  (modules ≠ [] →
   (∀ m, m ∈ modules → truthy (opt_get m (lit "duration")) = false) →
   DashboardView.avgDuration (DashboardView.getModuleStats modules) =
   num_of_Z 30).
Proof.
  split; [done|]. split; [apply filter_length_le|]. split; [done|].
  intros Hne Hall. unfold DashboardView.getModuleStats.
  cbn [DashboardView.avgDuration].
  assert (Hz : num_of_Z 0 = Fin 0).
  { unfold num_of_Z. by rewrite Z2Qc_inj_0. }
  rewrite Hz, sum_of_default_durations by done. cbn [ToNumber].
  assert (Hlen : length modules ≠ 0%nat) by by destruct modules.
  pose proof (Qc_of_nat_nonzero _ Hlen) as Hnz.
  assert (jsdiv
            (Fin (0 + Qc_of_Z 30 * Qc_of_Z (Z.of_nat (length modules))))
            (num_of_nat (length modules)) = num_of_Z 30) as ->.
  { unfold jsdiv, num_of_nat, num_of_Z.
    destruct (decide (Qc_of_Z (Z.of_nat (length modules)) = 0)); [done|].
    f_equal. by field. }
  reflexivity.
Qed.

Lemma sanitized_is_ascii (title : jsstring) :
  Forall (λ c, (c < 128)%N)
         ((λ c, if is_alnum c then c else 95%N) <$> title).
Proof.
  apply Forall_fmap, Forall_forall. intros c _. cbn.
  destruct (is_alnum c) eqn:Hc; [|lia].
  unfold is_alnum, is_digit in Hc.
  repeat (apply orb_true_iff in Hc as [Hc | Hc]);
    apply andb_true_iff in Hc as [_ Hc%bool_decide_eq_true]; lia.
Qed.

Lemma lowered_is_plain (c : N) :
  is_plain (if bool_decide (65 ≤ (if is_alnum c then c else 95))%N &&
               bool_decide ((if is_alnum c then c else 95) ≤ 90)%N
            then ((if is_alnum c then c else 95) + 32)%N
            else if is_alnum c then c else 95%N) = true.
Proof.
  unfold is_plain, is_digit. destruct (is_alnum c) eqn:Hc.
  - unfold is_alnum, is_digit in Hc.
    repeat (apply orb_true_iff in Hc as [Hc | Hc]);
      apply andb_true_iff in Hc
        as [Hlo%bool_decide_eq_true Hhi%bool_decide_eq_true];
      repeat first
        [ progress cbn [andb orb]
        | match goal with
          | |- context [bool_decide ?P] =>
              first [rewrite (bool_decide_eq_true_2 P) by lia
                    |rewrite (bool_decide_eq_false_2 P) by lia]
          end ];
      reflexivity.
  - reflexivity.
Qed.

(** X21.  The name under which the dashboard saves an assignment is plain:
    on an engine that lowers ASCII letters as expected, it is the title
    with every character other than a letter or a digit turned into an
    underscore and every capital lowered, followed by
    ['_assignment.pdf']; so it has the length of the title plus 15, and
    before the suffix only small letters, digits and underscores. *)
Theorem saved_name_is_plain (moduleId : jsval) (title : jsstring)
    (br : browser) (name : jsstring) :
  lowers_ascii →
  (DashboardView.handleDownloadPDF net moduleId title br).1 = Some name →
  ∃ stem,
    name = stem ++ lit "_assignment.pdf" ∧
    length stem = length title ∧
    Forall (λ c, is_plain c = true) stem.
Proof.
  intros Hlower. unfold DashboardView.handleDownloadPDF.
  destruct (ApiService.getAssignmentPdf net moduleId br) as [[blob|e] br'];
    [|discriminate].
  intros [= <-]. exists (DashboardView.sanitize title).
  split; [done|]. unfold DashboardView.sanitize.
  rewrite Hlower by apply sanitized_is_ascii.
  unfold example_toLowerCase. rewrite !length_fmap. split; [done|].
  rewrite <- list_fmap_compose. apply Forall_fmap, Forall_forall.
  intros c _. apply lowered_is_plain.
Qed.

End DashboardContinued.

(** A module whose content is [null]: a search for a text that its title
    does not hold throws, and the page is unmounted; a search for a text
    that its title holds does not look at the content and returns. *)
Example search_throws_on_missing_content :
  let m := obj [("id", VNum (num_of_Z 1));
                ("title", VStr (lit "One"));
                ("content", VNull);
                ("difficulty", VStr (lit "easy"))] in
  let page term :=
    Dashboard.mk [m] [] false (lit term) (lit "all") false false
      Dashboard.initial_form [] None in
  Dashboard.filterModules (H := example_engine) (page "x") =
    Throw (TypeError (lit "Cannot read properties")) ∧
  Dashboard.filter_effect (H := example_engine) (page "x") =
    Dashboard.unmounted (TypeError (lit "Cannot read properties")) (page "x") ∧
  Dashboard.filterModules (H := example_engine) (page "on") =
    Normal (Dashboard.setFilteredModules [m] (page "on")).
Proof. repeat split. Qed.

Lemma failed_deletion_keeps_the_list_witness :
  Dashboard.modules
    (Dashboard.handleDeleteModule (H := example_engine) network_down true
       (VNum (num_of_Z 1)) (lit "One") (example_dashboard, fresh_browser)).1 =
  Dashboard.modules example_dashboard.
Proof.
  eapply (failed_deletion_keeps_the_list (H := example_engine) network_down
            true (VNum (num_of_Z 1)) (lit "One") example_dashboard
            fresh_browser).
  right. reflexivity.
Defined.

Lemma created_module_heads_the_list_witness :
  let net := server_ok (obj [("success", VBool true);
                             ("module", example_module 3 "Three")]) in
  let s' := Dashboard.handleCreateModule (H := example_engine) net
              (example_dashboard, fresh_browser) in
  Dashboard.modules s'.1 =
    example_module 3 "Three" :: Dashboard.modules example_dashboard ∧
  Dashboard.newModuleForm s'.1 = Dashboard.initial_form ∧
  Dashboard.showCreateForm s'.1 = false ∧
  Dashboard.createLoading s'.1 = false ∧
  length (sent s'.2) = S (length (sent fresh_browser)).
Proof.
  intros net.
  exact (created_module_heads_the_list (H := example_engine) net
           example_dashboard fresh_browser
           (Response.mk 200
              (obj [("success", VBool true);
                    ("module", example_module 3 "Three")]) [])
           eq_refl eq_refl eq_refl).
Defined.

Lemma failed_creation_keeps_the_form_witness :
  let s' := Dashboard.handleCreateModule (H := example_engine) network_down
              (example_dashboard, fresh_browser) in
  Dashboard.modules s'.1 = Dashboard.modules example_dashboard ∧
  Dashboard.filteredModules s'.1 = Dashboard.filteredModules example_dashboard ∧
  Dashboard.newModuleForm s'.1 = Dashboard.newModuleForm example_dashboard ∧
  Dashboard.showCreateForm s'.1 = Dashboard.showCreateForm example_dashboard ∧
  Dashboard.createLoading s'.1 = false.
Proof.
  exact (failed_creation_keeps_the_form (H := example_engine) network_down
           example_dashboard fresh_browser
           (Err.mk (VStr (lit "Network Error")) None VUndefined None)
           eq_refl).
Defined.

Lemma example_engine_lowers_ascii : lowers_ascii (H := example_engine).
Proof. intros s _. reflexivity. Qed.

Lemma saved_name_is_plain_witness :
  ∃ stem,
    lit "c___intro_2_assignment.pdf" = stem ++ lit "_assignment.pdf" ∧
    length stem = length (lit "C++ Intro 2") ∧
    Forall (λ c, is_plain c = true) stem.
Proof.
  apply (saved_name_is_plain (H := example_engine) (server_ok VNull)
           (VNum (num_of_Z 1)) (lit "C++ Intro 2") fresh_browser
           (lit "c___intro_2_assignment.pdf") example_engine_lowers_ascii).
  reflexivity.
Defined.

(** ** [EnhancedModules] and the chat, continued *)

Lemma assoc_set_field (k : jsstring) (v : jsval)
    (fields : list (jsstring * jsval)) :
  assoc k (EnhancedModules.set_field k v fields) = v.
Proof.
  induction fields as [|[k' v'] fields IH]; cbn.
  - by rewrite decide_True.
  - destruct (decide (k' = k)) as [->|Hne]; cbn.
    + by rewrite decide_True.
    + by rewrite decide_False.
Qed.

Section EnhancedContinued.
Variable net : request → outcome.

(** X22.  When the server reports success, [EnhancedModules] adds one module
    at the end of its list, titled with the topic as it was typed; it
    tells the user, closes the dialog, empties the form and the error, and
    puts the loading flag down. *)
Theorem enhanced_creation_appends_the_module (c : EnhancedModules.t)
    (br : browser) (response : Response.t) :
  forallb is_white_space
    (EnhancedModules.topic (EnhancedModules.newModuleData c)) = false →
  net (creation_request (EnhancedModules.newModuleData c) br) =
    Fulfilled response →
  truthy (opt_get (Response.data response) (lit "success")) = true →
  let s' := EnhancedModules.createModule net (c, br) in
  ∃ created,
    EnhancedModules.modules s'.1 = EnhancedModules.modules c ++ [created] ∧
    opt_get created (lit "title") =
      VStr (EnhancedModules.topic (EnhancedModules.newModuleData c)) ∧
    EnhancedModules.newModuleData s'.1 = EnhancedModules.initial_form ∧
    EnhancedModules.showCreateForm s'.1 = false ∧
    EnhancedModules.loading s'.1 = false ∧
    EnhancedModules.error s'.1 = [] ∧
    EnhancedModules.alerts s'.1 =
      EnhancedModules.alerts c ++ [lit "Module created successfully!"] ∧
    sent s'.2 =
      sent br ++ [creation_request (EnhancedModules.newModuleData c) br].
Proof.
  intros Hnb Hnet Hsuccess s'. subst s'.
  unfold EnhancedModules.createModule. cbn [fst snd].
  destruct (trim _) as [|x t] eqn:Htrim.
  { apply trim_nil in Htrim. congruence. }
  cbn [truthy negb bool_decide decide_rel].
  cbn [EnhancedModules.newModuleData EnhancedModules.setError
       EnhancedModules.setLoading].
  fold (creation_request (EnhancedModules.newModuleData c) br).
  rewrite Hnet.
  assert (get (TypeError (lit "Cannot read properties"))
              (Response.data response) (lit "success") =
          Normal (opt_get (Response.data response) (lit "success"))) as ->.
  { by destruct (Response.data response). }
  rewrite Hsuccess. eexists. cbn [fst snd]. split; [reflexivity|].
  split; [apply assoc_set_field|]. done.
Qed.

(** X23.  When the creation does not succeed (no answer, an answer that
    cannot be read, or one without [success]), [EnhancedModules] shows
    ['Failed to create module'] and keeps the list and the form as they
    were, so that the user can try again; the loading flag goes down. *)
Theorem enhanced_creation_failure_keeps_the_form (c : EnhancedModules.t)
    (br : browser) :
  forallb is_white_space
    (EnhancedModules.topic (EnhancedModules.newModuleData c)) = false →
  (∀ response,
     net (creation_request (EnhancedModules.newModuleData c) br) =
       Fulfilled response →
     truthy (opt_get (Response.data response) (lit "success")) = false) →
  let s' := EnhancedModules.createModule net (c, br) in
  EnhancedModules.error s'.1 = lit "Failed to create module" ∧
  EnhancedModules.modules s'.1 = EnhancedModules.modules c ∧
  EnhancedModules.newModuleData s'.1 = EnhancedModules.newModuleData c ∧
  EnhancedModules.showCreateForm s'.1 = EnhancedModules.showCreateForm c ∧
  EnhancedModules.loading s'.1 = false ∧
  sent s'.2 =
    sent br ++ [creation_request (EnhancedModules.newModuleData c) br].
Proof.
  intros Hnb Hfail s'. subst s'.
  unfold EnhancedModules.createModule. cbn [fst snd].
  destruct (trim _) as [|x t] eqn:Htrim.
  { apply trim_nil in Htrim. congruence. }
  cbn [truthy negb bool_decide decide_rel].
  cbn [EnhancedModules.newModuleData EnhancedModules.setError
       EnhancedModules.setLoading].
  fold (creation_request (EnhancedModules.newModuleData c) br).
  destruct (net _) as [response|e]; [|done].
  specialize (Hfail response eq_refl).
  destruct (Response.data response) eqn:Hdata; cbn [get]; try done;
    cbn [opt_get] in Hfail |- *; by rewrite ?Hfail.
Qed.

End EnhancedContinued.

Lemma enhanced_creation_appends_the_module_witness :
  let c := EnhancedModules.mk [] false []
             (EnhancedModules.mkForm (lit "Python Lists") (lit "Advanced"))
             true [] in
  let net := server_ok (obj [("success", VBool true);
                             ("module_id", VNum (num_of_Z 9));
                             ("module", obj [("title", VStr (lit "Lists"))])]) in
  let s' := EnhancedModules.createModule net (c, fresh_browser) in
  ∃ created,
    EnhancedModules.modules s'.1 = EnhancedModules.modules c ++ [created] ∧
    opt_get created (lit "title") = VStr (lit "Python Lists") ∧
    EnhancedModules.newModuleData s'.1 = EnhancedModules.initial_form ∧
    EnhancedModules.showCreateForm s'.1 = false ∧
    EnhancedModules.loading s'.1 = false ∧
    EnhancedModules.error s'.1 = [] ∧
    EnhancedModules.alerts s'.1 =
      EnhancedModules.alerts c ++ [lit "Module created successfully!"] ∧
    sent s'.2 =
      sent fresh_browser ++
        [creation_request (EnhancedModules.newModuleData c) fresh_browser].
Proof.
  intros c net.
  exact (enhanced_creation_appends_the_module net c fresh_browser
           (Response.mk 200
              (obj [("success", VBool true);
                    ("module_id", VNum (num_of_Z 9));
                    ("module", obj [("title", VStr (lit "Lists"))])]) [])
           eq_refl eq_refl eq_refl).
Defined.

Lemma enhanced_creation_failure_keeps_the_form_witness :
  let c := EnhancedModules.mk [] false []
             (EnhancedModules.mkForm (lit "Python Lists") (lit "Advanced"))
             true [] in
  let s' := EnhancedModules.createModule network_down (c, fresh_browser) in
  EnhancedModules.error s'.1 = lit "Failed to create module" ∧
  EnhancedModules.modules s'.1 = EnhancedModules.modules c ∧
  EnhancedModules.newModuleData s'.1 = EnhancedModules.newModuleData c ∧
  EnhancedModules.showCreateForm s'.1 = EnhancedModules.showCreateForm c ∧
  EnhancedModules.loading s'.1 = false ∧
  sent s'.2 =
    sent fresh_browser ++
      [creation_request (EnhancedModules.newModuleData c) fresh_browser].
Proof.
  intros c.
  apply (enhanced_creation_failure_keeps_the_form network_down c
           fresh_browser).
  - reflexivity.
  - intros response Hnet. discriminate Hnet.
Defined.

Section Chat.
Context `{!Engine}.
Variable net : request → outcome.
Variable moduleId : jsval.

(** X24.  A chat message that is not blank always gets one reply: the log
    grows by the message of the user, as typed, followed by one message of
    the bot, which is never empty, whether the server answers, answers
    without text, or fails; exactly one request is sent, with the text
    typed, and the input is emptied. *)
Theorem chat_message_always_gets_a_reply (now later : Z) (draw : nat)
    (p : ChatPanel.t) (br : browser) :
  forallb is_white_space (ChatPanel.currentInput p) = false →
  (draw < length ChatPanel.fallbackResponses)%nat →
  let s' := ChatPanel.handleSendMessage net moduleId now later draw (p, br) in
  ∃ reply,
    ChatPanel.chatMessages s'.1 =
      ChatPanel.chatMessages p ++
        [ChatPanel.mkEntry LearningPage.user
           (VStr (ChatPanel.currentInput p)) now;
         ChatPanel.mkEntry LearningPage.bot reply later] ∧
    truthy reply = true ∧
    ChatPanel.currentInput s'.1 = [] ∧
    ChatPanel.isTyping s'.1 = false ∧
    ∃ config,
      sent s'.2 = sent br ++ [config] ∧
      opt_get (body config) (lit "message") = VStr (ChatPanel.currentInput p).
Proof.
  intros Hnb Hdraw s'. subst s'. unfold ChatPanel.handleSendMessage.
  cbn [fst snd].
  destruct (trim _) as [|x t] eqn:Htrim.
  { apply trim_nil in Htrim. congruence. }
  cbn [truthy negb bool_decide decide_rel].
  destruct (lookup_lt_is_Some_2 _ _ Hdraw) as [text Htext].
  assert (Hfallback : truthy (VStr text) = true).
  { apply list_elem_of_lookup_2 in Htext. unfold ChatPanel.fallbackResponses in Htext.
    repeat (apply elem_of_cons in Htext as [-> | Htext]; [reflexivity|]).
    by apply elem_of_nil in Htext. }
  unfold ApiService.sendChatMessage.
  pose proof (data_method_sent net "Failed to send chat message" POST
    (lit "/api/v1/chat")
    (obj [("message", VStr (ChatPanel.currentInput p));
          ("current_module",
           if truthy (default_arg VNull moduleId)
           then VStr (ToString (default_arg VNull moduleId)) else VNull)])
    None br) as Hsent.
  pose proof (request_sent_fields br POST (lit "/api/v1/chat")
    (obj [("message", VStr (ChatPanel.currentInput p));
          ("current_module",
           if truthy (default_arg VNull moduleId)
           then VStr (ToString (default_arg VNull moduleId)) else VNull)])
    None) as (_ & _ & Hbody).
  cbn zeta.
  destruct (try_catch_M _ _ br) as [[response|e] br']; cbn [snd] in Hsent.
  - destruct (get _ response _) as [reply|e] eqn:Hreply; cbn [fst snd].
    + exists (jsor reply (VStr ChatPanel.default_reply)).
      split; [by rewrite <- app_assoc|]. split.
      { unfold jsor. by destruct (truthy reply) eqn:Hr. }
      repeat split. eexists. split; [exact Hsent|]. by rewrite Hbody.
    + rewrite Htext. exists (VStr text).
      split; [by rewrite <- app_assoc|]. split; [done|].
      repeat split. eexists. split; [exact Hsent|]. by rewrite Hbody.
  - cbn [fst snd]. rewrite Htext. exists (VStr text).
    split; [by rewrite <- app_assoc|]. split; [done|].
    repeat split. eexists. split; [exact Hsent|]. by rewrite Hbody.
Qed.

(** X25.  A blank input, empty or made of white space, is not sent: the
    log, the input and the browser stay exactly as they are. *)
Theorem blank_chat_message_is_ignored (now later : Z) (draw : nat)
    (p : ChatPanel.t) (br : browser) :
  forallb is_white_space (ChatPanel.currentInput p) = true →
  ChatPanel.handleSendMessage net moduleId now later draw (p, br) = (p, br).
Proof.
  intros Hblank%trim_nil. unfold ChatPanel.handleSendMessage. cbn [fst].
  by rewrite Hblank.
Qed.

End Chat.

Lemma chat_message_always_gets_a_reply_witness :
  let p := ChatPanel.mk [] (lit "What is a list?") false in
  let s' := ChatPanel.handleSendMessage (H := example_engine) network_down
              (VStr (lit "3")) 10 20 4 (p, fresh_browser) in
  ∃ reply,
    ChatPanel.chatMessages s'.1 =
      ChatPanel.chatMessages p ++
        [ChatPanel.mkEntry LearningPage.user
           (VStr (ChatPanel.currentInput p)) 10;
         ChatPanel.mkEntry LearningPage.bot reply 20] ∧
    truthy reply = true ∧
    ChatPanel.currentInput s'.1 = [] ∧
    ChatPanel.isTyping s'.1 = false ∧
    ∃ config,
      sent s'.2 = sent fresh_browser ++ [config] ∧
      opt_get (body config) (lit "message") = VStr (ChatPanel.currentInput p).
Proof.
  intros p.
  apply (chat_message_always_gets_a_reply (H := example_engine) network_down
           (VStr (lit "3")) 10 20 4 p fresh_browser).
  - reflexivity.
  - cbn. lia.
Defined.

Lemma blank_chat_message_is_ignored_witness :
  ChatPanel.handleSendMessage (H := example_engine) network_down VNull 10 20 0
    (ChatPanel.mk [] (lit "  ") false, fresh_browser) =
  (ChatPanel.mk [] (lit "  ") false, fresh_browser).
Proof.
  apply (blank_chat_message_is_ignored (H := example_engine) network_down
           VNull 10 20 0 (ChatPanel.mk [] (lit "  ") false) fresh_browser).
  reflexivity.
Defined.

(** ** The quiz page, continued *)

Section QuizContinued.
Context `{!Engine}.
Variable net : request → outcome.
Variable moduleId : jsval.

(** With two seconds or more left, a firing of the interval takes one
    second off, leaves the rest of the page and the browser alone, and
    leaves a new interval, whose callback sees the answers collected so
    far. *)
Lemma tick_before_expiry (s : QuizPage.t * browser) (i : QuizPage.interval)
    (n : Z) :
  QuizPage.timer s.1 = Some i → QuizPage.timeLeft s.1 = Some n →
  (2 ≤ n)%Z → QuizPage.quizStarted s.1 = true →
  QuizPage.submitted s.1 = false →
  QuizPage.step net moduleId QuizPage.IntervalFired s =
  (QuizPage.mk (QuizPage.module s.1) (QuizPage.currentQuestion s.1)
     (QuizPage.answers s.1) false (QuizPage.results s.1)
     (QuizPage.loading s.1) (QuizPage.error s.1) (Some (n - 1)%Z) true
     (Some (QuizPage.mkInterval 1000 (QuizPage.answers s.1))), s.2).
Proof.
  destruct s as [[m cq a sub res ld err tl qs tm] br]. cbn [fst snd].
  cbn [QuizPage.timer QuizPage.timeLeft QuizPage.quizStarted
       QuizPage.submitted].
  intros -> -> Hn -> ->.
  unfold QuizPage.step. cbn [fst snd QuizPage.timer].
  unfold QuizPage.tick. cbn [fst snd QuizPage.timeLeft default from_option].
  unfold id. rewrite !bool_decide_eq_false_2 by lia. cbn [fst snd].
  unfold QuizPage.timer_effect.
  rewrite bool_decide_eq_false_2.
  2: { cbn. intros (_ & Hsame & _). injection Hsame. lia. }
  unfold QuizPage.running, QuizPage.set_timer. cbn.
  by rewrite bool_decide_eq_true_2 by lia.
Qed.

Lemma countdown_to_expiry (k : nat) :
  ∀ (s : QuizPage.t * browser) (i : QuizPage.interval),
    QuizPage.timer s.1 = Some i →
    QuizPage.timeLeft s.1 = Some (Z.of_nat (S k)) →
    QuizPage.quizStarted s.1 = true →
    QuizPage.submitted s.1 = false →
    (k = 0%nat → QuizPage.closed_over i = QuizPage.answers s.1) →
    let s' := QuizPage.run net moduleId
                (replicate (S k) QuizPage.IntervalFired) s in
    bodies s'.2 =
      bodies s.2 ++ [obj [("answers", answers_to_val (QuizPage.answers s.1))]] ∧
    QuizPage.timeLeft s'.1 = Some 0%Z ∧
    QuizPage.timer s'.1 = None.
Proof.
  induction k as [|k IH]; intros s i Hi Hn Hstarted Hsub Hfresh.
  - cbn [replicate QuizPage.run foldl]. rewrite <- (Hfresh eq_refl).
    by apply expiry_submits_what_the_callback_saw.
  - cbn zeta. change (replicate (S (S k)) QuizPage.IntervalFired)
      with (QuizPage.IntervalFired :: replicate (S k) QuizPage.IntervalFired).
    unfold QuizPage.run. cbn [foldl].
    rewrite (tick_before_expiry s i (Z.of_nat (S (S k)))) by (done || lia).
    set (s1 := (_, s.2)).
    specialize (IH s1 (QuizPage.mkInterval 1000 (QuizPage.answers s.1))).
    unfold QuizPage.run in IH. apply IH; subst s1; cbn [fst snd]; try done.
    cbn [QuizPage.timeLeft]. f_equal. lia.
Qed.

(** X26.  A countdown that nothing interrupts, from two seconds or more,
    ends with one submission of exactly the answers collected: any answer
    given while two seconds or more remain is sent.  The time left is then
    0 and no interval is left. *)
Theorem uninterrupted_countdown_submits_the_answers (k : nat)
    (s : QuizPage.t * browser) :
  timer_ok s.1 → QuizPage.running s.1 = true →
  QuizPage.timeLeft s.1 = Some (Z.of_nat (S (S k))) →
  let s' := QuizPage.run net moduleId
              (replicate (S (S k)) QuizPage.IntervalFired) s in
  bodies s'.2 =
    bodies s.2 ++ [obj [("answers", answers_to_val (QuizPage.answers s.1))]] ∧
  QuizPage.timeLeft s'.1 = Some 0%Z ∧
  QuizPage.timer s'.1 = None.
Proof.
  intros Hok Hrun Hn. unfold timer_ok in Hok.
  destruct (QuizPage.timer s.1) as [i|] eqn:Hi; [|congruence].
  unfold QuizPage.running in Hrun.
  apply andb_true_iff in Hrun as [[Hstarted _]%andb_true_iff Hsub].
  apply negb_true_iff in Hsub.
  by apply (countdown_to_expiry (S k) s i).
Qed.

Lemma set_timer_same (q : QuizPage.t) :
  QuizPage.set_timer (QuizPage.timer q) q = q.
Proof. by destruct q. Qed.

(** Out of time, not submitted and without an interval, the page stays so
    under every quiet event, and sends nothing. *)
Lemma out_of_time_step (e : QuizPage.event) (s : QuizPage.t * browser) :
  quiet e →
  QuizPage.timeLeft s.1 = Some 0%Z → QuizPage.timer s.1 = None →
  QuizPage.submitted s.1 = false →
  let s' := QuizPage.step net moduleId e s in
  QuizPage.timeLeft s'.1 = Some 0%Z ∧ QuizPage.timer s'.1 = None ∧
  QuizPage.submitted s'.1 = false ∧ s'.2 = s.2.
Proof.
  destruct s as [[m cq a sub res ld err tl qs tm] br]. cbn [fst snd].
  cbn [QuizPage.timer QuizPage.timeLeft QuizPage.submitted].
  intros [Hload Hclick] -> -> ->.
  destruct e; try done; unfold QuizPage.step; cbn [fst snd QuizPage.timer];
    unfold QuizPage.timer_effect, QuizPage.running, QuizPage.nextQuestion,
      QuizPage.prevQuestion;
    repeat case_bool_decide; cbn; try done;
    rewrite ?(bool_decide_eq_false_2 (0 < 0)%Z) by lia;
    by rewrite ?andb_false_r.
Qed.

(** X27.  When the submission made at the end of the countdown fails, the
    page shows ['Failed to submit quiz. Please try again.'] and stays
    unsubmitted with no time and no interval left; nothing is sent again
    until the user clicks the submit button or the module is loaded
    again. *)
Theorem failed_timeout_submission_is_not_retried (s : QuizPage.t * browser)
    (i : QuizPage.interval) (e : Err.t) (es : list QuizPage.event) :
  QuizPage.timer s.1 = Some i → QuizPage.timeLeft s.1 = Some 1%Z →
  QuizPage.submitted s.1 = false →
  net (submission_request moduleId (QuizPage.closed_over i) s.2) = Rejected e →
  Forall quiet es →
  let s' := QuizPage.step net moduleId QuizPage.IntervalFired s in
  let s'' := QuizPage.run net moduleId es s' in
  QuizPage.error s'.1 =
    Some (lit "Failed to submit quiz. Please try again.") ∧
  QuizPage.submitted s''.1 = false ∧
  QuizPage.timeLeft s''.1 = Some 0%Z ∧
  QuizPage.timer s''.1 = None ∧
  sent s''.2 = sent s'.2.
Proof.
  intros Hi Hn Hsub Hnet Hes s'.
  pose proof (expiry_submits_what_the_callback_saw net moduleId s i Hi Hn)
    as (_ & Hleft & Htimer). fold s' in Hleft, Htimer.
  assert (Herr : QuizPage.error s'.1 =
                   Some (lit "Failed to submit quiz. Please try again.") ∧
                 QuizPage.submitted s'.1 = false).
  { subst s'. unfold QuizPage.step. rewrite Hi. cbn [fst snd].
    unfold QuizPage.tick. rewrite Hn. cbn [default from_option]. unfold id.
    rewrite !bool_decide_eq_true_2 by done.
    unfold QuizPage.handleSubmit, ApiService.submitQuiz.
    rewrite data_method_outcome. cbn zeta.
    unfold submission_request in Hnet. rewrite Hnet. cbn [fst snd].
    unfold QuizPage.timer_effect.
    case_bool_decide; cbn [QuizPage.set_timer QuizPage.error
                           QuizPage.submitted]; done. }
  destruct Herr as [Herr Hsub']. split; [done|].
  clearbody s'. clear Hi Hn Hsub Hnet Herr s.
  cbn zeta. unfold QuizPage.run. revert s' Hleft Htimer Hsub'.
  induction Hes as [|ev es Hev Hes IH]; intros s' Hleft Htimer Hsub';
    [done|].
  cbn [foldl].
  destruct (out_of_time_step ev s' Hev Hleft Htimer Hsub')
    as (Hleft1 & Htimer1 & Hsub1 & Hbr).
  rewrite <- Hbr. by apply IH.
Qed.

Lemma question_in_range_step (e : QuizPage.event)
    (s : QuizPage.t * browser) :
  e ≠ QuizPage.Loaded → question_in_range s.1 →
  question_in_range (QuizPage.step net moduleId e s).1.
Proof.
  destruct s as [[m cq a sub res ld err tl qs tm] br].
  unfold question_in_range. cbn [fst snd].
  cbn [QuizPage.currentQuestion QuizPage.module].
  intros He Hin.
  assert (Heffect : ∀ before after,
            QuizPage.module after = m →
            (0 ≤ QuizPage.currentQuestion after ≤
             Z.max 0 (QuizPage.quiz_length m - 1))%Z →
            (0 ≤ QuizPage.currentQuestion
                   (QuizPage.timer_effect before after) ≤
             Z.max 0 (QuizPage.quiz_length
                        (QuizPage.module
                           (QuizPage.timer_effect before after)) - 1))%Z).
  { intros before after Hm Hcq. unfold QuizPage.timer_effect.
    case_bool_decide; cbn [QuizPage.set_timer QuizPage.currentQuestion
                           QuizPage.module]; by rewrite Hm. }
  assert (Hsubmit : ∀ seen s0,
            QuizPage.module (QuizPage.handleSubmit net moduleId seen s0).1 =
              QuizPage.module s0.1 ∧
            QuizPage.currentQuestion
              (QuizPage.handleSubmit net moduleId seen s0).1 =
              QuizPage.currentQuestion s0.1).
  { intros seen s0. unfold QuizPage.handleSubmit.
    by destruct (ApiService.submitQuiz _ _ _ _) as [[r|e0] br0]. }
  destruct e; try done; unfold QuizPage.step; cbn [fst snd QuizPage.timer];
    try destruct tm as [i|]; apply Heffect;
    unfold QuizPage.startQuiz, QuizPage.handleAnswerSelect,
      QuizPage.nextQuestion, QuizPage.prevQuestion, QuizPage.tick;
    cbn [fst snd QuizPage.currentQuestion QuizPage.module QuizPage.timeLeft];
    repeat case_bool_decide;
    rewrite ?(proj1 (Hsubmit _ _)), ?(proj2 (Hsubmit _ _));
    cbn [fst snd QuizPage.currentQuestion QuizPage.module];
    try done; lia.
Qed.

(** X28.  Whatever the user does on a loaded quiz (start, answer, go
    forward or back, submit, let the time run), the index of the question
    shown stays within the quiz: the next and previous buttons stop at the
    ends. *)
Theorem question_shown_stays_in_range (es : list QuizPage.event)
    (s : QuizPage.t * browser) :
  Forall (λ e, e ≠ QuizPage.Loaded) es → question_in_range s.1 →
  question_in_range (QuizPage.run net moduleId es s).1.
Proof.
  unfold QuizPage.run. revert s.
  induction es as [|e es IH]; intros s Hes Hin; [done|].
  apply Forall_cons in Hes as [He Hes]. cbn [foldl].
  apply IH; [done|]. destruct e; try done;
    by apply question_in_range_step.
Qed.

(** X29.  Selecting answers never sends anything and never touches the
    countdown: the time left, the interval and its callback stay as they
    are, so an answer does not reach the callback of the interval already
    set. *)
Theorem selecting_leaves_the_interval (questionIndex : nat)
    (answer : jsstring) (s : QuizPage.t * browser) :
  let s' := QuizPage.step net moduleId
              (QuizPage.SelectAnswer questionIndex answer) s in
  QuizPage.timer s'.1 = QuizPage.timer s.1 ∧
  QuizPage.timeLeft s'.1 = QuizPage.timeLeft s.1 ∧
  QuizPage.answers s'.1 !! questionIndex = Some answer ∧
  s'.2 = s.2.
Proof.
  destruct s as [[m cq a sub res ld err tl qs tm] br]. cbn zeta.
  unfold QuizPage.step, QuizPage.timer_effect. cbn [fst snd].
  rewrite bool_decide_eq_true_2 by done. cbn.
  by rewrite lookup_insert_eq.
Qed.

End QuizContinued.

Lemma uninterrupted_countdown_submits_the_answers_witness :
  let s' := QuizPage.run (H := example_engine) quiz_server (VNum (num_of_Z 1))
              (replicate 120 QuizPage.IntervalFired) started_quiz in
  bodies s'.2 =
    bodies started_quiz.2 ++
      [obj [("answers",
             answers_to_val (H := example_engine)
               (QuizPage.answers started_quiz.1))]] ∧
  QuizPage.timeLeft s'.1 = Some 0%Z ∧
  QuizPage.timer s'.1 = None.
Proof.
  apply (uninterrupted_countdown_submits_the_answers (H := example_engine)
           quiz_server (VNum (num_of_Z 1)) 118 started_quiz).
  - vm_compute. split; reflexivity.
  - reflexivity.
  - reflexivity.
Defined.

Lemma failed_timeout_submission_is_not_retried_witness :
  let s : QuizPage.t * browser :=
    (QuizPage.mk VNull 0 ∅ false VNull false None (Some 1%Z) true
       (Some (QuizPage.mkInterval 1000 ∅)), fresh_browser) in
  let es := [QuizPage.SelectAnswer 0 (lit "Option A");
             QuizPage.IntervalFired; QuizPage.NextQuestion;
             QuizPage.StartQuiz] in
  let s' := QuizPage.step (H := example_engine) network_down VNull
              QuizPage.IntervalFired s in
  let s'' := QuizPage.run (H := example_engine) network_down VNull es s' in
  QuizPage.error s'.1 =
    Some (lit "Failed to submit quiz. Please try again.") ∧
  QuizPage.submitted s''.1 = false ∧
  QuizPage.timeLeft s''.1 = Some 0%Z ∧
  QuizPage.timer s''.1 = None ∧
  sent s''.2 = sent s'.2.
Proof.
  intros s es.
  apply (failed_timeout_submission_is_not_retried (H := example_engine)
           network_down VNull s (QuizPage.mkInterval 1000 ∅)
           (Err.mk (VStr (lit "Network Error")) None VUndefined None) es).
  - reflexivity.
  - reflexivity.
  - reflexivity.
  - reflexivity.
  - subst es. repeat constructor; discriminate.
Defined.

Lemma question_shown_stays_in_range_witness :
  question_in_range
    (QuizPage.run (H := example_engine) quiz_server (VNum (num_of_Z 1))
       [QuizPage.NextQuestion; QuizPage.NextQuestion; QuizPage.PrevQuestion;
        QuizPage.PrevQuestion; QuizPage.SubmitClicked]
       started_quiz).1.
Proof.
  apply (question_shown_stays_in_range (H := example_engine)).
  - repeat constructor; discriminate.
  - vm_compute. split; discriminate.
Defined.

Lemma interval_counts_down_witness :
  QuizPage.timeLeft
    (QuizPage.step (H := example_engine) quiz_server (VNum (num_of_Z 1))
       QuizPage.IntervalFired started_quiz).1 = Some (120 - 1)%Z.
Proof.
  apply (interval_counts_down (H := example_engine)).
  - vm_compute. split; reflexivity.
  - reflexivity.
  - reflexivity.
Defined.

Lemma interval_cleared_on_submission_witness :
  QuizPage.timer
    (QuizPage.step (H := example_engine) quiz_server (VNum (num_of_Z 1))
       QuizPage.SubmitClicked started_quiz).1 = None.
Proof.
  apply (interval_cleared_on_submission (H := example_engine)).
  - discriminate.
  - vm_compute. split; reflexivity.
  - reflexivity.
Defined.

Lemma run_timer_ok_witness :
  timer_ok
    (QuizPage.run (H := example_engine) quiz_server (VNum (num_of_Z 1))
       [QuizPage.Loaded; QuizPage.StartQuiz; QuizPage.IntervalFired;
        QuizPage.SelectAnswer 0 (lit "Option A"); QuizPage.SubmitClicked]
       (QuizPage.initial, fresh_browser)).1.
Proof.
  apply (run_timer_ok (H := example_engine)).
  - repeat constructor; discriminate.
  - reflexivity.
Defined.
